(** * whids: detection-response orchestration, enrichment hooks and rule
      persistence, as a shallow embedding.

    Sources embedded here:
    - [src/hids/actions.go]         (module [Actions])
    - [src/hids/hookdefs.go]        (module [Hooks])
    - [src/api/manager_admin_api.go] (module [Api])

    The Go code mutates a shared [HIDS] object and talks to the host
    (process control, memory snapshots, files).  The embedding threads one
    explicit state through every function; the answers of the host are read
    from an oracle record [OS], the functions of other packages from a
    record [Env]. *)

From stdpp Require Import gmap strings list pretty.
From Stdlib Require Import ZArith Ascii.

Local Open Scope string_scope.
Local Open Scope Z_scope.

(** ** Telemetry events *)

(** Sysmon event identifiers and field paths.  The constants are declared in
    files of package [hids] that are not part of the sources at hand; the
    identifiers follow Sysmon's numbering and only the distinctness of the
    paths matters below. *)
Definition SysmonProcessCreate : Z := 1.
Definition SysmonImageLoad : Z := 7.
Definition SysmonRegSetValue : Z := 13.
Definition SysmonWMIConsumer : Z := 20.
Definition SysmonFileDelete : Z := 23.

Definition sysmonChannel : string := "Microsoft-Windows-Sysmon/Operational".

Definition pathSysmonProcessGUID : string := "/Event/EventData/ProcessGuid".
Definition pathSysmonProcessId : string := "/Event/EventData/ProcessId".
Definition pathSysmonImage : string := "/Event/EventData/Image".
Definition pathSysmonImageLoaded : string := "/Event/EventData/ImageLoaded".
Definition pathSysmonCommandLine : string := "/Event/EventData/CommandLine".
Definition pathSysmonParentImage : string := "/Event/EventData/ParentImage".
Definition pathSysmonParentProcessGUID : string := "/Event/EventData/ParentProcessGuid".
Definition pathSysmonSourceImage : string := "/Event/EventData/SourceImage".
Definition pathSysmonTargetFilename : string := "/Event/EventData/TargetFilename".
Definition pathSysmonTargetObject : string := "/Event/EventData/TargetObject".
Definition pathSysmonDetails : string := "/Event/EventData/Details".
Definition pathSysmonDestination : string := "/Event/EventData/Destination".
Definition pathSysmonArchived : string := "/Event/EventData/Archived".
Definition pathSysmonHashes : string := "/Event/EventData/Hashes".
Definition pathSysmonSigned : string := "/Event/EventData/Signed".
Definition pathSysmonSignature : string := "/Event/EventData/Signature".
Definition pathSysmonSignatureStatus : string := "/Event/EventData/SignatureStatus".
Definition pathImageLoadParentImage : string := "/Event/EventData/ImageLoadParentImage".
Definition pathImageLoadParentCommandLine : string :=
  "/Event/EventData/ImageLoadParentCommandLine".

(** Empty GUID ([hookdefs.go], line 32). *)
Definition nullGUID : string := "{00000000-0000-0000-0000-000000000000}".

(** Action names ([actions.go], lines 27-36). *)
Definition ActionKill : string := "kill".
Definition ActionBlacklist : string := "blacklist".
Definition ActionMemdump : string := "memdump".
Definition ActionFiledump : string := "filedump".
Definition ActionRegdump : string := "regdump".
Definition ActionReport : string := "report".
Definition ActionBrief : string := "brief".

(** An event: identifier, channel, content hash ([e.Hash()],
    [utils.HashEvent(e)]), its fields as text keyed by path, and the verdict
    of the detection engine: [None] when there is no detection, otherwise the
    action names in the order the engine gave them. *)
Record Event := mkEvent {
  EventID : Z;
  Channel : string;
  Hash : string;
  data : gmap string string;
  detection : option (list string)
}.

Definition GetString (e : Event) (path : string) : option string :=
  data e !! path.

Definition Set_ (e : Event) (path value : string) : Event :=
  {| EventID := EventID e; Channel := Channel e; Hash := Hash e;
     data := <[path := value]> (data e); detection := detection e |}.

(** [strconv.ParseBool], used by the events' [GetBool]. *)
Definition ParseBool (s : string) : option bool :=
  if bool_decide (s ∈ ["1"; "t"; "T"; "TRUE"; "true"; "True"]) then Some true
  else if bool_decide (s ∈ ["0"; "f"; "F"; "FALSE"; "false"; "False"]) then Some false
  else None.

Definition GetBool (e : Event) (path : string) : option bool :=
  GetString e path ≫= ParseBool.

(** [strconv.ParseInt(s, 10, 64)], used by the events' [GetInt]: an optional
    sign, then at least one decimal digit, within the range of [int64]. *)
Definition digit_of (c : ascii) : option Z :=
  let n := Z.of_N (N_of_ascii c) in
  if bool_decide (48 ≤ n ≤ 57) then Some (n - 48) else None.

Fixpoint parse_digits (acc : Z) (s : string) : option Z :=
  match s with
  | EmptyString => Some acc
  | String c s' =>
      match digit_of c with
      | Some d => parse_digits (10 * acc + d) s'
      | None => None
      end
  end.

Definition parse_unsigned (s : string) : option Z :=
  match s with
  | EmptyString => None
  | _ => parse_digits 0 s
  end.

Definition in_int64 (z : Z) : bool :=
  bool_decide (- 2 ^ 63 ≤ z < 2 ^ 63).

Definition ParseInt (s : string) : option Z :=
  let r :=
    match s with
    | String "-" s' => Z.opp <$> parse_unsigned s'
    | String "+" s' => parse_unsigned s'
    | _ => parse_unsigned s
    end in
  r ≫= λ z, if in_int64 z then Some z else None.

Definition GetInt (e : Event) (path : string) : option Z :=
  GetString e path ≫= ParseInt.

(** ** Process tracks and the agent's state *)

Record ProcessTrack := mkTrack {
  Image : string;
  ParentImage : string;
  CommandLine : string;
  ParentCommandLine : string;
  CurrentDirectory : string;
  ParentCurrentDirectory : string;
  PID : Z;
  ProcessGUID : string;
  Signed : bool;
  Signature : string;
  SignatureStatus : string;
  DumpCount : Z
}.

(** Calls that reach other processes, in the order they are issued. *)
Inductive Call :=
  | SuspendProcess (pid : Z)
  | FullMemoryMiniDump (pid : Z) (path : string)
  | TerminateProcess (pid : Z)
  | Sleep (seconds : Z).

#[global] Instance Call_eq_dec : EqDecision Call.
Proof. solve_decision. Defined.

(** The memory of the agent ([HIDS] and the sets and queues hanging from
    it), followed by the two parts of the host the code acts on: the regular
    files, by path, and the log of the calls issued so far. *)
Record HIDS := mkHIDS {
  guid : string;
  tracker : gmap string ProcessTrack;
  blacklisted : gset string;
  memdumped : gset string;
  dumping : gset string;
  filedumped : gset string;
  compressionQueue : list string;
  disk : gmap string string;
  calls : list Call
}.

Definition with_guid (g : string) (h : HIDS) : HIDS :=
  mkHIDS g (tracker h) (blacklisted h) (memdumped h) (dumping h) (filedumped h)
    (compressionQueue h) (disk h) (calls h).
Definition with_tracker (t : gmap string ProcessTrack) (h : HIDS) : HIDS :=
  mkHIDS (guid h) t (blacklisted h) (memdumped h) (dumping h) (filedumped h)
    (compressionQueue h) (disk h) (calls h).
Definition with_blacklisted (s : gset string) (h : HIDS) : HIDS :=
  mkHIDS (guid h) (tracker h) s (memdumped h) (dumping h) (filedumped h)
    (compressionQueue h) (disk h) (calls h).
Definition with_memdumped (s : gset string) (h : HIDS) : HIDS :=
  mkHIDS (guid h) (tracker h) (blacklisted h) s (dumping h) (filedumped h)
    (compressionQueue h) (disk h) (calls h).
Definition with_dumping (s : gset string) (h : HIDS) : HIDS :=
  mkHIDS (guid h) (tracker h) (blacklisted h) (memdumped h) s (filedumped h)
    (compressionQueue h) (disk h) (calls h).
Definition with_filedumped (s : gset string) (h : HIDS) : HIDS :=
  mkHIDS (guid h) (tracker h) (blacklisted h) (memdumped h) (dumping h) s
    (compressionQueue h) (disk h) (calls h).
Definition with_compressionQueue (q : list string) (h : HIDS) : HIDS :=
  mkHIDS (guid h) (tracker h) (blacklisted h) (memdumped h) (dumping h) (filedumped h)
    q (disk h) (calls h).
Definition with_disk (d : gmap string string) (h : HIDS) : HIDS :=
  mkHIDS (guid h) (tracker h) (blacklisted h) (memdumped h) (dumping h) (filedumped h)
    (compressionQueue h) d (calls h).
Definition with_calls (c : list Call) (h : HIDS) : HIDS :=
  mkHIDS (guid h) (tracker h) (blacklisted h) (memdumped h) (dumping h) (filedumped h)
    (compressionQueue h) (disk h) c.

(** Issue a call: append it to the log. *)
Definition call (c : Call) (h : HIDS) : HIDS := with_calls (calls h ++ [c])%list h.

(** ** The environment: configuration and other packages *)

(** What the code reads but never changes: the process id and executable of
    the agent, its configuration, and the functions it calls in packages that
    are not part of the sources at hand ([utils], [filepath], [fsutil], the
    event and report encoders).  [json] encoders return [None] on a
    marshalling error.  [HidsWriteReader_file dst data compress] is the file
    that [utils.HidsWriteReader(dst, reader, compress)] leaves when it
    succeeds: its path and its content, whatever the function makes of the
    flag. *)
Record Env := mkEnv {
  getpid : Z;
  selfPath : string;
  Dump_Dir : string;
  Dump_MaxDumps : Z;
  Dump_DumpUntracked : bool;
  Dump_Compression : bool;
  Report_EnableReporting : bool;
  Sysmon_ArchiveDirectory : string;
  srcGUIDFromEvent : Event → string;
  IsHIDSEvent : HIDS → Event → bool;
  Join : list string → string;
  Base : string → string;
  Dir : string → string;
  Ext : string → string;
  Split : string → string * string;
  ArgvFromCommandLine : string → option (list string);
  IsPipePath : string → bool;
  Sha256 : string → string;
  HidsWriteReader_file : string → string → bool → string * string;
  sysmonArcFileRe_strip : string → string;
  Report : HIDS → bool → option string;
  ToJSON : Event → option string
}.

(** The answers of the host during one request: which processes run, which
    calls succeed, the clock.  [minidump pid path] is the content of the
    snapshot written at [path], or [None] when the snapshot fails;
    [RegQuery key value] is the content of the registry value, or the text
    of the error. *)
Record OS := mkOS {
  IsPIDRunning : Z → bool;
  terminate_ok : Z → bool;
  UnixNano : Z;
  minidump : Z → string → option string;
  GetModuleFilenameFromPID : Z → string;
  mkdir_ok : string → bool;
  hash_ok : string → bool;
  open_ok : string → bool;
  write_ok : string → bool;
  RegQuery : string → string → string + string
}.

(** Errors returned by the functions below; the Go code builds messages,
    the embedding keeps the place the error comes from. *)
Inductive error :=
  | ErrMkdir | ErrHash | ErrOpen | ErrWrite | ErrMarshal
  | ErrDumpFailed | ErrNotRunning | ErrUntracked | ErrKill.

(** ** Helpers of package [hids] that are not under src/ *)

(** Modelled from the spec: [CheckDumpCountOrInc] of the process store is not
    under src/.  Section 4.3 (rule 3): the per-GUID dump counter is checked
    and incremented in one step before a dump; once the configured maximum is
    reached further dumps for that GUID are refused; the "dump untracked
    processes" flag decides for a GUID without a track. *)
Definition CheckDumpCountOrInc (g : string) (max : Z) (deflt : bool) (h : HIDS)
  : HIDS * bool :=
  match tracker h !! g with
  | Some t =>
      if bool_decide (DumpCount t < max) then
        let t' := mkTrack (Image t) (ParentImage t) (CommandLine t) (ParentCommandLine t)
                    (CurrentDirectory t) (ParentCurrentDirectory t) (PID t)
                    (ProcessGUID t) (Signed t) (Signature t) (SignatureStatus t)
                    (DumpCount t + 1) in
        (with_tracker (<[g := t']> (tracker h)) h, true)
      else (h, false)
  | None => (h, deflt)
  end.

(** Modelled from the spec: the store's [GetByGuid] is not under src/
    (section 4.1, [GetByGUID(guid) -> Track?]); [None] stands for the nil
    pointer of [hookdefs.go] and for the zero track of [actions.go]. *)
Definition GetByGuid (h : HIDS) (g : string) : option ProcessTrack :=
  tracker h !! g.

(** Modelled from the spec: [processTrackFromEvent] is not under src/; the
    track of an event is the track stored for the event's source GUID, and an
    event without GUID has none. *)
Definition processTrackFromEvent (env : Env) (h : HIDS) (e : Event)
  : option ProcessTrack :=
  let g := srcGUIDFromEvent env e in
  if bool_decide (g = nullGUID) then None else GetByGuid h g.

(** Modelled from the spec: [Blacklist] and [IsBlacklisted] of the store are
    not under src/ (section 4.1: exact-match command-line blacklist). *)
Definition Blacklist (cl : string) (h : HIDS) : HIDS :=
  with_blacklisted ({[cl]} ∪ blacklisted h) h.

Definition IsBlacklisted (h : HIDS) (cl : string) : bool :=
  bool_decide (cl ∈ blacklisted h).

(** Modelled from the spec: the helper [terminate(pid)] is not under src/.
    Section 6 gives the host's [terminate(pid) -> ok/err]; section 4.1 says
    the terminator never targets the agent's own PID, and [hookTerminator]
    has no check of its own, so the check is placed here: for the agent's PID
    no call is issued and no error returned. *)
Definition terminate (env : Env) (os : OS) (pid : Z) (h : HIDS) : HIDS * bool :=
  if bool_decide (pid = getpid env) then (h, true)
  else (call (TerminateProcess pid) h, terminate_ok os pid).

(** Modelled from the spec: the method [TerminateProcess] of a track is not
    under src/; it terminates the process of the track through [terminate]. *)
Definition Track_TerminateProcess (env : Env) (os : OS) (pt : ProcessTrack) (h : HIDS)
  : HIDS * bool :=
  terminate env os (PID pt) h.

(** [fsutil.IsFile]: a regular file exists at the path. *)
Definition IsFile (h : HIDS) (path : string) : bool :=
  bool_decide (is_Some (disk h !! path)).

(** [utils.HidsWriteData], [utils.HidsWriteFile], [ioutil.WriteFile]: the
    content is stored at the path when the host lets the write succeed;
    a failed write leaves the files as they were. *)
Definition write_file (os : OS) (path content : string) (h : HIDS) : HIDS * option error :=
  if write_ok os path then (with_disk (<[path := content]> (disk h)) h, None)
  else (h, Some ErrWrite).

(** [utils.HidsWriteReader(dst, reader, compress)]: the file the function
    makes of its three arguments is written when the host lets the write
    succeed. *)
Definition HidsWriteReader (env : Env) (os : OS) (dst data : string) (compress : bool)
    (h : HIDS) : HIDS * option error :=
  let file := HidsWriteReader_file env dst data compress in
  write_file os file.1 file.2 h.

(** [strings.Replace(s, ":", "_ADS_", -1)]. *)
Fixpoint replace_colons (s : string) : string :=
  match s with
  | EmptyString => EmptyString
  | String c s' =>
      if bool_decide (c = ":"%char) then "_ADS_" +:+ replace_colons s'
      else String c (replace_colons s')
  end.

(** [file.Sha256(src)]: the digest of the content of a regular file, or an
    error when the file is missing or cannot be read. *)
Definition file_Sha256 (env : Env) (os : OS) (h : HIDS) (src : string) : option string :=
  match disk h !! src with
  | Some content => if hash_ok os src then Some (Sha256 env content) else None
  | None => None
  end.

(** [os.Open(src)] followed by reading the file to its end. *)
Definition read_file (os : OS) (h : HIDS) (src : string) : option string :=
  if open_ok os src then disk h !! src else None.

(** [compress] ([actions.go], lines 391-395): the path is queued for the
    compression routine when compression is configured.  The method
    [h.compress] called by [hookdefs.go] is not under src/ and is taken to
    be the same function. *)
Definition compress (env : Env) (path : string) (h : HIDS) : HIDS :=
  if Dump_Compression env then with_compressionQueue (compressionQueue h ++ [path])%list h
  else h.

(** Setters of the signature fields of a track. *)
Definition with_Signed (b : bool) (t : ProcessTrack) : ProcessTrack :=
  mkTrack (Image t) (ParentImage t) (CommandLine t) (ParentCommandLine t)
    (CurrentDirectory t) (ParentCurrentDirectory t) (PID t) (ProcessGUID t)
    b (Signature t) (SignatureStatus t) (DumpCount t).
Definition with_Signature (s : string) (t : ProcessTrack) : ProcessTrack :=
  mkTrack (Image t) (ParentImage t) (CommandLine t) (ParentCommandLine t)
    (CurrentDirectory t) (ParentCurrentDirectory t) (PID t) (ProcessGUID t)
    (Signed t) s (SignatureStatus t) (DumpCount t).
Definition with_SignatureStatus (s : string) (t : ProcessTrack) : ProcessTrack :=
  mkTrack (Image t) (ParentImage t) (CommandLine t) (ParentCommandLine t)
    (CurrentDirectory t) (ParentCurrentDirectory t) (PID t) (ProcessGUID t)
    (Signed t) (Signature t) s (DumpCount t).

(** ** [src/hids/actions.go]: the action handler *)

Module Actions.

(** [filedumpXPaths] (lines 49-55). *)
Definition filedumpXPaths : list string :=
  [pathSysmonImage; pathSysmonParentImage; pathSysmonSourceImage;
   pathSysmonImageLoaded; pathSysmonTargetFilename].

(** [dumpname] (lines 76-79). *)
Definition dumpname (env : Env) (os : OS) (src : string) : string :=
  let base := replace_colons (Base env src) in
  pretty (UnixNano os) +:+ "_" +:+ base +:+ ".bin".

(** [prepare] (lines 81-87); directories are not part of the files kept in
    [disk] and the result of [HidsMkdirAll] is dropped by the code. *)
Definition prepare (env : Env) (e : Event) (filename : string) : string :=
  let id := Hash e in
  let g := srcGUIDFromEvent env e in
  let dumpDir := Join env [Dump_Dir env; g; id] in
  Join env [dumpDir; filename].

(** [shouldDump] (lines 89-92). *)
Definition shouldDump (env : Env) (e : Event) (h : HIDS) : HIDS * bool :=
  CheckDumpCountOrInc (srcGUIDFromEvent env e) (Dump_MaxDumps env)
    (Dump_DumpUntracked env) h.

(** [writeReader] (lines 94-97). *)
Definition writeReader (env : Env) (os : OS) (dst content : string) (h : HIDS)
  : HIDS * option error :=
  let compress := Dump_Compression env in
  HidsWriteReader env os dst content compress h.

(** [dumpAsJson] (lines 99-110); [i] is the result of [json.Marshal]. *)
Definition dumpAsJson (env : Env) (os : OS) (path : string) (i : option string)
    (h : HIDS) : HIDS * option error :=
  match i with
  | None => (h, Some ErrMarshal)
  | Some b => writeReader env os path b h
  end.

(** [dumpFile] (lines 116-146). *)
Definition dumpFile (env : Env) (os : OS) (src dst : string) (h : HIDS)
  : HIDS * option error :=
  if negb (IsFile h src) || IsPipePath env src then (h, None)
  else if negb (mkdir_ok os (Dir env dst)) then (h, Some ErrMkdir)
  else
    match file_Sha256 env os h src with
    | None => (h, Some ErrHash)
    | Some sha256 =>
        (* dump sha256 of file anyway *)
        let h1 := (write_file os (dst +:+ ".sha256") sha256 h).1 in
        if bool_decide (sha256 ∈ filedumped h1) then (h1, None)
        else
          match read_file os h1 src with
          | None => (h1, Some ErrOpen)
          | Some f =>
              match writeReader env os dst f h1 with
              | (h2, Some err) => (h2, Some err)
              | (h2, None) =>
                  (* we mark file dumped *)
                  (with_filedumped ({[sha256]} ∪ filedumped h2) h2, None)
              end
          end
    end.

(** [dumpBinFile] (lines 112-114). *)
Definition dumpBinFile (env : Env) (os : OS) (e : Event) (src : string) (h : HIDS)
  : HIDS * option error :=
  dumpFile env os src (prepare env e (dumpname env os src)) h.

(** [listFilesFromCommandLine] (lines 148-169).  The path relative to the
    working directory is appended under the test of the argument itself, as
    in the source. *)
Definition listFilesFromCommandLine (env : Env) (h : HIDS) (cmdLine cwd : string)
  : list string :=
  match ArgvFromCommandLine env cmdLine with
  | Some (_ :: args) =>
      flat_map (λ arg,
        ((if IsFile h arg && negb (IsPipePath env arg) then [arg] else [])
         ++ (if bool_decide (cwd ≠ "") then
               let relarg := Join env [cwd; arg] in
               if IsFile h arg && negb (IsPipePath env arg) then [relarg] else []
             else []))%list) args
  | _ => []
  end.

(** [filedumpSet] (lines 171-222).  The Go set is given as the list of its
    distinct members in the order of their first insertion. *)
Definition filedumpSet (env : Env) (h : HIDS) (e : Event) : list string :=
  let from_track :=
    match processTrackFromEvent env h e with
    | Some pt =>
        ([Image pt; ParentImage pt]
         ++ listFilesFromCommandLine env h (CommandLine pt) (CurrentDirectory pt)
         ++ listFilesFromCommandLine env h (ParentCommandLine pt)
              (ParentCurrentDirectory pt))%list
    | None => []
    end in
  let from_event :=
    if bool_decide (Channel e = sysmonChannel) then
      if bool_decide (EventID e = SysmonRegSetValue) then
        match GetString e pathSysmonDetails with
        | Some det => listFilesFromCommandLine env h det ""
        | None => []
        end
      else if bool_decide (EventID e = SysmonWMIConsumer) then
        match GetString e pathSysmonDestination with
        | Some dest => listFilesFromCommandLine env h dest ""
        | None => []
        end
      else if bool_decide (EventID e = SysmonFileDelete) then
        match GetBool e pathSysmonArchived with
        | Some true =>
            match GetString e pathSysmonHashes, GetString e pathSysmonTargetFilename with
            | Some hashes, Some target =>
                let fname := sysmonArcFileRe_strip env hashes +:+ Ext env target in
                [Join env [Sysmon_ArchiveDirectory env; fname]]
            | _, _ => []
            end
        | _ => []
        end
      else []
    else [] in
  let from_paths := omap (GetString e) filedumpXPaths in
  remove_dups (from_track ++ from_event ++ from_paths)%list.

(** [filedump] (lines 224-232); errors are logged and dropped. *)
Definition filedump (env : Env) (os : OS) (e : Event) (h : HIDS) : HIDS :=
  foldl (λ h' filename, (dumpBinFile env os e filename h').1) h (filedumpSet env h e).

(** The file name of a memory dump (line 245). *)
Definition dumpFilename (env : Env) (os : OS) (pt : ProcessTrack) : string :=
  Base env (Image pt) +:+ "_" +:+ pretty (PID pt) +:+ "_" +:+ pretty (UnixNano os) +:+ ".dmp".

(** [memdump] (lines 234-261).  [int(pt.PID)] is the identity on a host
    whose [int] has 64 bits.  The deferred [dumping.Del] runs on both ways
    out of the guarded branch. *)
Definition memdump (env : Env) (os : OS) (e : Event) (h : HIDS) : HIDS * option error :=
  match processTrackFromEvent env h e with
  | Some pt =>
      let g := srcGUIDFromEvent env e in
      let pid := PID pt in
      if IsPIDRunning os pid && bool_decide (pid ≠ getpid env)
         && negb (bool_decide (g ∈ memdumped h)) && negb (bool_decide (g ∈ dumping h))
      then
        let h1 := with_dumping ({[g]} ∪ dumping h) h in
        let dumpPath := prepare env e (dumpFilename env os pt) in
        let h2 := call (FullMemoryMiniDump pid dumpPath) h1 in
        match minidump os pid dumpPath with
        | None =>
            (with_dumping (dumping h2 ∖ {[g]}) h2, Some ErrDumpFailed)
        | Some snapshot =>
            let h3 := with_disk (<[dumpPath := snapshot]> (disk h2)) h2 in
            (* dump was successfull *)
            let h4 := with_memdumped ({[g]} ∪ memdumped h3) h3 in
            let h5 := compress env dumpPath h4 in
            (with_dumping (dumping h5 ∖ {[g]}) h5, None)
        end
      else (h, Some ErrNotRunning)
  | None => (h, Some ErrUntracked)
  end.

(** [regdump] (lines 263-289). *)
Definition regdump (env : Env) (os : OS) (e : Event) (h : HIDS) : HIDS :=
  if bool_decide (Channel e = sysmonChannel) && bool_decide (EventID e = SysmonRegSetValue) then
    match GetString e pathSysmonTargetObject, GetString e pathSysmonDetails with
    | Some targetObject, Some details =>
        if bool_decide (details = "Binary Data") then
          let dumpPath := prepare env e "reg.txt" in
          let '(key, value) := Split env targetObject in
          let content :=
            match RegQuery os key value with
            | inl c => c
            | inr err => "HIDS error dumping " +:+ targetObject +:+ ": " +:+ err
            end in
          (writeReader env os dumpPath content h).1
        else h
    | _, _ => h
    end
  else h.

(** [suspend_process] (lines 291-299). *)
Definition suspend_process (env : Env) (e : Event) (h : HIDS) : HIDS :=
  match processTrackFromEvent env h e with
  | Some pt =>
      (* additional check not to suspend agent *)
      if bool_decide (PID pt ≠ getpid env) then call (SuspendProcess (PID pt)) h
      else h
  | None => h
  end.

(** [kill_process] (lines 301-312). *)
Definition kill_process (env : Env) (os : OS) (e : Event) (h : HIDS)
  : HIDS * option error :=
  match processTrackFromEvent env h e with
  | Some pt =>
      if bool_decide (PID pt ≠ getpid env) then
        match Track_TerminateProcess env os pt h with
        | (h', true) => (h', None)
        | (h', false) => (h', Some ErrKill)
        end
      else (h, None)
  | None => (h, None)
  end.

(** Membership in the action set of a detection ([det.Actions.Contains]). *)
Definition Contains (actions : list string) (a : string) : bool :=
  bool_decide (a ∈ actions).

(** The body of [HandleActions] behind its guard (lines 329-386). *)
Definition handle (env : Env) (os : OS) (e : Event) (actions : list string) (h : HIDS)
  : HIDS :=
  let report := Contains actions ActionReport in
  let brief := Contains actions ActionBrief in
  let kill := Contains actions ActionKill in
  (* handling blacklisting action *)
  let h1 :=
    if Contains actions ActionBlacklist then
      match processTrackFromEvent env h e with
      | Some pt =>
          if bool_decide (PID pt ≠ getpid env) then Blacklist (CommandLine pt) h else h
      | None => h
      end
    else h in
  let h2 := if kill then suspend_process env e h1 else h1 in
  let h3 := if Contains actions ActionMemdump then (memdump env os e h2).1 else h2 in
  let h4 := if kill then (kill_process env os e h3).1 else h3 in
  let h5 :=
    if (report || brief) && Report_EnableReporting env then
      (dumpAsJson env os (prepare env e "report.json") (Report env h4 brief) h4).1
    else h4 in
  let h6 := if Contains actions ActionFiledump then filedump env os e h5 else h5 in
  let h7 := if Contains actions ActionRegdump then regdump env os e h6 else h6 in
  (dumpAsJson env os (prepare env e "event.json") (ToJSON env e) h7).1.

(** [HandleActions] (lines 324-389).  The guard is evaluated left to right:
    [shouldDump] runs first and its increment of the dump counter stays
    whatever the other two tests give. *)
Definition HandleActions (env : Env) (os : OS) (e : Event) (h : HIDS) : HIDS :=
  let '(h0, ok) := shouldDump env e h in
  if ok && negb (IsHIDSEvent env h0 e) then
    match detection e with
    | Some actions => handle env os e actions h0
    | None => h0
    end
  else h0.

End Actions.

(** ** [src/hids/hookdefs.go]: enrichment and post-detection hooks *)

Module Hooks.

(** [hookImageLoad] (lines 77-101).  The track is reached through the
    pointer kept by the store, so the fields written on it are written in the
    store. *)
Definition hookImageLoad (h : HIDS) (e : Event) : HIDS * Event :=
  let e1 := Set_ e pathImageLoadParentImage "?" in
  let e2 := Set_ e1 pathImageLoadParentCommandLine "?" in
  match GetString e2 pathSysmonProcessGUID with
  | Some g =>
      match GetByGuid h g with
      | Some track =>
          let track' :=
            match GetString e2 pathSysmonImage with
            | Some image =>
                (* make sure that we are taking signature of the image and not
                   one of its DLL *)
                if bool_decide (image = Image track) then
                  let t1 := match GetBool e2 pathSysmonSigned with
                            | Some signed => with_Signed signed track
                            | None => track
                            end in
                  let t2 := match GetString e2 pathSysmonSignature with
                            | Some signature => with_Signature signature t1
                            | None => t1
                            end in
                  match GetString e2 pathSysmonSignatureStatus with
                  | Some sigStatus => with_SignatureStatus sigStatus t2
                  | None => t2
                  end
                else track
            | None => track
            end in
          let e3 := Set_ e2 pathImageLoadParentImage (ParentImage track') in
          let e4 := Set_ e3 pathImageLoadParentCommandLine (ParentCommandLine track') in
          (with_tracker (<[g := track']> (tracker h)) h, e4)
      | None => (h, e2)
      end
  | None => (h, e2)
  end.

(** [hookTerminator] (lines 414-427). *)
Definition hookTerminator (env : Env) (os : OS) (h : HIDS) (e : Event) : HIDS :=
  if bool_decide (EventID e = SysmonProcessCreate) then
    match GetString e pathSysmonCommandLine with
    | Some commandLine =>
        match GetInt e pathSysmonProcessId with
        | Some pid =>
            if IsBlacklisted h commandLine then (terminate env os pid h).1 else h
        | None => h
        end
    | None => h
    end
  else h.

(** [hookSelfGUID] (lines 441-467). *)
Definition hookSelfGUID (env : Env) (h : HIDS) (e : Event) : HIDS :=
  if bool_decide (guid h = "") then
    if bool_decide (EventID e = SysmonProcessCreate) then
      let from_parent :=
        match GetString e pathSysmonParentImage with
        | Some pimage =>
            if bool_decide (pimage = selfPath env)
            then GetString e pathSysmonParentProcessGUID
            else None
        | None => None
        end in
      match from_parent with
      | Some pguid => with_guid pguid h
      | None =>
          match GetString e pathSysmonImage with
          | Some image =>
              if bool_decide (image = selfPath env) then
                match GetString e pathSysmonProcessGUID with
                | Some g => with_guid g h
                | None => h
                end
              else h
          | None => h
          end
      end
    else h
  else h.

(** [dumpPrepareDumpFilename] (lines 879-884). *)
Definition dumpPrepareDumpFilename (env : Env) (e : Event) (dir g filename : string)
  : string :=
  let id := Hash e in
  let tmpDumpDir := Join env [dir; g; id] in
  Join env [tmpDumpDir; filename].

(** [dumpPidAndCompress] (lines 796-827). *)
Definition dumpPidAndCompress (env : Env) (os : OS) (pid : Z) (g id : string) (h : HIDS)
  : HIDS :=
  (* prevent stopping ourself *)
  if IsPIDRunning os pid && bool_decide (pid ≠ getpid env)
     && negb (bool_decide (g ∈ memdumped h)) && negb (bool_decide (g ∈ dumping h))
  then
    let h1 := with_dumping ({[g]} ∪ dumping h) h in
    let tmpDumpDir := Join env [Dump_Dir env; g; id] in
    let module := GetModuleFilenameFromPID os pid in
    let dumpFilename :=
      Base env module +:+ "_" +:+ pretty pid +:+ "_" +:+ pretty (UnixNano os) +:+ ".dmp" in
    let dumpPath := Join env [tmpDumpDir; dumpFilename] in
    let h2 := call (FullMemoryMiniDump pid dumpPath) h1 in
    match minidump os pid dumpPath with
    | None => with_dumping (dumping h2 ∖ {[g]}) h2
    | Some snapshot =>
        let h3 := with_disk (<[dumpPath := snapshot]> (disk h2)) h2 in
        (* dump was successfull *)
        let h4 := with_memdumped ({[g]} ∪ memdumped h3) h3 in
        let h5 := compress env dumpPath h4 in
        with_dumping (dumping h5 ∖ {[g]}) h5
    end
  else h.

(** [dumpFileAndCompress] (lines 829-849). *)
Definition dumpFileAndCompress (env : Env) (os : OS) (src path : string) (h : HIDS)
  : HIDS * option error :=
  match file_Sha256 env os h src with
  | None => (h, Some ErrHash)
  | Some sha256 =>
      (* replace : in case we are dumping an ADS *)
      let base := replace_colons (Base env src) in
      let dst := Join env [path; pretty (UnixNano os) +:+ "_" +:+ base +:+ ".bin"] in
      (* dump sha256 of file anyway *)
      let h1 := (write_file os (dst +:+ ".sha256") sha256 h).1 in
      if bool_decide (sha256 ∈ filedumped h1) then (h1, None)
      else
        (* fsutil.CopyFile *)
        match read_file os h1 src with
        | None => (h1, Some ErrOpen)
        | Some content =>
            match write_file os dst content h1 with
            | (h2, Some err) => (h2, Some err)
            | (h2, None) =>
                let h3 := compress env dst h2 in
                (with_filedumped ({[sha256]} ∪ filedumped h3) h3, None)
            end
        end
  end.

(** [dumpEventAndCompress] (lines 851-870); [os.Create] followed by the
    write of the event is one write of the file. *)
Definition dumpEventAndCompress (env : Env) (os : OS) (e : Event) (g : string) (h : HIDS)
  : HIDS * option error :=
  let dumpPath := dumpPrepareDumpFilename env e (Dump_Dir env) g "event.json" in
  if negb (bool_decide (dumpPath ∈ dumping h)) && negb (bool_decide (dumpPath ∈ filedumped h))
  then
    let h1 := with_dumping ({[dumpPath]} ∪ dumping h) h in
    match write_file os dumpPath (default "" (ToJSON env e)) h1 with
    | (h2, Some err) => (with_dumping (dumping h2 ∖ {[dumpPath]}) h2, Some err)
    | (h2, None) =>
        let h3 := compress env dumpPath h2 in
        let h4 := with_filedumped ({[dumpPath]} ∪ filedumped h3) h3 in
        (with_dumping (dumping h4 ∖ {[dumpPath]}) h4, None)
    end
  else (h, None).

(** The goroutine started by [dumpProcessRtn] (lines 907-931). *)
Definition dumpProcessRtn (env : Env) (os : OS) (e : Event) (h : HIDS) : HIDS :=
  let g := srcGUIDFromEvent env e in
  if bool_decide (g ≠ nullGUID) then
    (* check if we should go on *)
    let '(h1, ok) :=
      CheckDumpCountOrInc g (Dump_MaxDumps env) (Dump_DumpUntracked env) h in
    if negb ok then h1
    else
      let h2 :=
        match GetByGuid h1 g with
        | Some pt => dumpPidAndCompress env os (PID pt) g (Hash e) h1
        | None => h1
        end in
      (dumpEventAndCompress env os e g h2).1
  else (dumpEventAndCompress env os e g h).1.

(** The goroutine started by [dumpReportRtn] (lines 1193-1222). *)
Definition dumpReportRtn (env : Env) (os : OS) (e : Event) (h : HIDS) : HIDS :=
  let g := srcGUIDFromEvent env e in
  let '(h1, ok) :=
    CheckDumpCountOrInc g (Dump_MaxDumps env) (Dump_DumpUntracked env) h in
  if negb ok then h1
  else
    let reportPath := dumpPrepareDumpFilename env e (Dump_Dir env) g "report.json" in
    let h2 := (dumpEventAndCompress env os e g h1).1 in
    if Report_EnableReporting env then
      match Report env h2 false with
      | None => h2
      | Some b => compress env reportPath (write_file os reportPath b h2).1
      end
    else h2.

(** Goroutines started by [hookHandleActions]: the four dump routines, which
    run behind the hooks' semaphore, and the routine that terminates a
    process once its memory has been dumped. *)
Inductive Task :=
  | DumpProcess (e : Event)
  | DumpRegistry (e : Event)
  | DumpFiles (e : Event)
  | DumpReport (e : Event)
  | KillAfterDump (pt : ProcessTrack).

(** The loop of the routine [KillAfterDump] (lines 394-396):
    [for i := 0; i < 60 && !h.memdumped.Contains(guid); i++ { Sleep(1s) }].
    The set is filled by another goroutine while this one sleeps, so what
    [Contains] answers at its [i]-th evaluation is given by [seen i]. *)
Fixpoint wait_memdumped (seen : nat → bool) (fuel i : nat) (h : HIDS) : HIDS :=
  match fuel with
  | O => h
  | S fuel' =>
      if seen i then h
      else wait_memdumped seen fuel' (S i) (call (Sleep 1) h)
  end.

(** The goroutine of lines 392-400. *)
Definition killAfterDump (env : Env) (os : OS) (seen : nat → bool) (pt : ProcessTrack)
  (h : HIDS) : HIDS :=
  let h1 := wait_memdumped seen 60 0 h in
  (Track_TerminateProcess env os pt h1).1.

(** The state of the loop of [hookHandleActions]: the agent, the two flags
    and the goroutines started so far. *)
Record LoopState := mkLoop {
  l_hids : HIDS;
  l_kill : bool;
  l_memdump : bool;
  l_spawned : list Task
}.

(** One iteration of the loop over the actions (lines 353-383). *)
Definition handle_action (env : Env) (e : Event) (st : LoopState) (action : string)
  : LoopState :=
  let h := l_hids st in
  if bool_decide (action = ActionKill) then
    let h' :=
      match processTrackFromEvent env h e with
      | Some pt =>
          (* additional check not to suspend agent *)
          if bool_decide (PID pt ≠ getpid env) then call (SuspendProcess (PID pt)) h
          else h
      | None => h
      end in
    mkLoop h' true (l_memdump st) (l_spawned st)
  else if bool_decide (action = ActionBlacklist) then
    let h' :=
      match processTrackFromEvent env h e with
      | Some pt =>
          (* additional check not to blacklist agent *)
          if bool_decide (PID pt ≠ getpid env) then Blacklist (CommandLine pt) h else h
      | None => h
      end in
    mkLoop h' (l_kill st) (l_memdump st) (l_spawned st)
  else if bool_decide (action = ActionMemdump) then
    mkLoop h (l_kill st) true (l_spawned st ++ [DumpProcess e])%list
  else if bool_decide (action = ActionRegdump) then
    mkLoop h (l_kill st) (l_memdump st) (l_spawned st ++ [DumpRegistry e])%list
  else if bool_decide (action = ActionFiledump) then
    mkLoop h (l_kill st) (l_memdump st) (l_spawned st ++ [DumpFiles e])%list
  else if bool_decide (action = ActionReport) then
    mkLoop h (l_kill st) (l_memdump st) (l_spawned st ++ [DumpReport e])%list
  else st.

(** [hookHandleActions] (lines 339-411): the state when the hook returns and
    the goroutines it has started, in order. *)
Definition hookHandleActions (env : Env) (os : OS) (h : HIDS) (e : Event)
  : HIDS * list Task :=
  if IsHIDSEvent env h e then (h, [])
  else if bool_decide (srcGUIDFromEvent env e ≠ nullGUID) then
    match detection e with
    | Some actions =>
        let st := foldl (handle_action env e) (mkLoop h false false []) actions in
        let h1 := l_hids st in
        (* handle kill operation after the other actions *)
        if l_kill st then
          match processTrackFromEvent env h1 e with
          | Some pt =>
              if bool_decide (PID pt ≠ getpid env) then
                if l_memdump st then
                  (* Wait we finish dumping before killing the process *)
                  (h1, l_spawned st ++ [KillAfterDump pt])%list
                else ((Track_TerminateProcess env os pt h1).1, l_spawned st)
              else (h1, l_spawned st)
          | None => (h1, l_spawned st)
          end
        else (h1, l_spawned st)
    | None => (h, [])
    end
  else (h, []).

End Hooks.

(** ** [src/api/manager_admin_api.go]: persistence of the rules *)

Module Api.

(** File operations issued by the handlers, in order. *)
Inductive FsOp :=
  | OpCreate (path : string)
  | OpRemove (path : string)
  | OpWriteString (path content : string)
  | OpRename (from to : string).

(** The files of the manager's host and the log of the operations that
    succeeded on them. *)
Record Files := mkFiles {
  content : gmap string string;
  ops : list FsOp
}.

(** The manager: its rules directory and the rules loaded in the engine, as
    pairs of a name and the raw rule, in the order of [GetRuleNames]. *)
Record Manager := mkManager {
  RulesDir : string;
  geneEng : list (string * string)
}.

(** Functions of other packages and answers of the host.  [Walk fs dir]
    gives, for each directory visited by [fswalker.Walk], the names of its
    files; [writestring_ok k] tells whether the [k]-th [WriteString] of the
    request succeeds. *)
Record Host := mkHost {
  h_Join : list string → string;
  h_Ext : string → string;
  DefaultRuleExtensions : list string;
  Walk : gmap string string → string → list (list string);
  create_ok : string → bool;
  remove_ok : string → bool;
  writestring_ok : nat → bool;
  rename_ok : string → string → bool
}.

Inductive Response :=
  | MsgOk
  | ErrNoSuchRule
  | ErrCreateTemp
  | ErrDeleteRuleFile
  | ErrWriteRule
  | ErrRename.

Definition GetRuleNames (m : Manager) : list string := (geneEng m).*1.

(** [GetRawRuleByName]: the raw rule, or the empty string. *)
Definition GetRawRuleByName (m : Manager) (name : string) : string :=
  match list_find (λ r, r.1 = name) (geneEng m) with
  | Some (_, r) => r.2
  | None => ""
  end.

(** [os.Create]: the file exists and is empty afterwards. *)
Definition os_Create (host : Host) (path : string) (fs : Files) : option Files :=
  if create_ok host path then
    Some (mkFiles (<[path := ""]> (content fs)) (ops fs ++ [OpCreate path])%list)
  else None.

(** [os.Remove]: fails on a missing file. *)
Definition os_Remove (host : Host) (path : string) (fs : Files) : option Files :=
  match content fs !! path with
  | Some _ =>
      if remove_ok host path then
        Some (mkFiles (delete path (content fs)) (ops fs ++ [OpRemove path])%list)
      else None
  | None => None
  end.

(** [fd.WriteString] on the file created at [path]; [k] counts the writes of
    the request.  The text goes to the end of the file when the file is
    still there. *)
Definition fd_WriteString (host : Host) (k : nat) (path s : string) (fs : Files)
  : option Files :=
  if writestring_ok host k then
    Some (mkFiles (alter (λ old, old +:+ s) path (content fs))
            (ops fs ++ [OpWriteString path s])%list)
  else None.

(** [os.Rename]. *)
Definition os_Rename (host : Host) (from to : string) (fs : Files) : option Files :=
  match content fs !! from with
  | Some c =>
      if rename_ok host from to then
        Some (mkFiles (<[to := c]> (delete from (content fs)))
                (ops fs ++ [OpRename from to])%list)
      else None
  | None => None
  end.

(** The loop deleting the previous rule files (lines 1189-1199, 1045-1055):
    every file name met by the walk is joined to the rules directory and
    removed when it has a rule extension; the first failure stops the
    handler. *)
Fixpoint remove_rule_files (host : Host) (dir : string) (names : list string) (fs : Files)
  : Files * bool :=
  match names with
  | [] => (fs, true)
  | name :: names' =>
      let fp := h_Join host [dir; name] in
      if bool_decide (h_Ext host fp ∈ DefaultRuleExtensions host) then
        match os_Remove host fp fs with
        | Some fs' => remove_rule_files host dir names' fs'
        | None => (fs, false)
        end
      else remove_rule_files host dir names' fs
  end.

Definition newline : string := String (ascii_of_nat 10) "".

(** The loop writing the rules (lines 1202-1208, 1058-1066): one line per
    rule; the first failing write stops the handler. *)
Fixpoint write_rules (host : Host) (tmp : string) (k : nat) (lines : list string)
  (fs : Files) : Files * bool :=
  match lines with
  | [] => (fs, true)
  | line :: lines' =>
      match fd_WriteString host k tmp (line +:+ newline) fs with
      | Some fs' => write_rules host tmp (S k) lines' fs'
      | None => (fs, false)
      end
  end.

Definition rulesBasename : string := "compiled-updated.gen".

(** What both handlers do once they know the rules to keep. *)
Definition rewrite_rules (host : Host) (m : Manager) (keep : list string) (fs : Files)
  : Files * Response :=
  let newRulesPath := h_Join host [RulesDir m; rulesBasename] in
  let tmp := newRulesPath +:+ ".tmp" in
  (* we want to be sure to be able to create the file before going on *)
  match os_Create host tmp fs with
  | None => (fs, ErrCreateTemp)
  | Some fs1 =>
      (* we delete previous rule files *)
      match remove_rule_files host (RulesDir m)
              (concat (Walk host (content fs1) (RulesDir m))) fs1 with
      | (fs2, false) => (fs2, ErrDeleteRuleFile)
      | (fs2, true) =>
          (* we update the rule file *)
          match write_rules host tmp 0 (GetRawRuleByName m <$> keep) fs2 with
          | (fs3, false) => (fs3, ErrWriteRule)
          | (fs3, true) =>
              (* close file before renaming *)
              match os_Rename host tmp newRulesPath fs3 with
              | None => (fs3, ErrRename)
              | Some fs4 => (fs4, MsgOk)
              end
          end
      end
  end.

(** [admAPIRulesSave] (lines 1177-1218). *)
Definition admAPIRulesSave (host : Host) (m : Manager) (fs : Files) : Files * Response :=
  rewrite_rules host m (GetRuleNames m) fs.

(** The [DELETE] case of [admAPIRules] (lines 1029-1074). *)
Definition admAPIRules_DELETE (host : Host) (m : Manager) (name : string) (fs : Files)
  : Files * Response :=
  if bool_decide (GetRawRuleByName m name = "") then (fs, ErrNoSuchRule)
  else
    rewrite_rules host m (filter (λ ruleName, name ≠ ruleName) (GetRuleNames m)) fs.

End Api.

(** ** Concrete hosts, agents and events *)

Module Examples.

(** A host whose agent has PID 4 and a dump budget of 4 per GUID; the source
    GUID of an event is its [ProcessGuid] field. *)
Definition env0 : Env :=
  {| getpid := 4;
     selfPath := "C:/whids/whids.exe";
     Dump_Dir := "dumps";
     Dump_MaxDumps := 4;
     Dump_DumpUntracked := false;
     Dump_Compression := false;
     Report_EnableReporting := true;
     Sysmon_ArchiveDirectory := "archive";
     srcGUIDFromEvent := λ e, default nullGUID (GetString e pathSysmonProcessGUID);
     IsHIDSEvent := λ _ _, false;
     Join := λ l, foldr (λ a b, if bool_decide (b = "") then a else a +:+ "/" +:+ b) "" l;
     Base := λ s, s;
     Dir := λ s, s;
     Ext := λ _, "";
     Split := λ s, (s, "");
     ArgvFromCommandLine := λ s, Some [s];
     IsPipePath := λ _, false;
     Sha256 := λ c, "sha256:" +:+ c;
     HidsWriteReader_file := λ dst data compress,
       if compress then (dst +:+ ".gz", "gzip(" +:+ data +:+ ")") else (dst, data);
     sysmonArcFileRe_strip := λ s, s;
     Report := λ _ _, Some "{}";
     ToJSON := λ _, Some "{}" |}.

(** The same host with compression of the dumps configured. *)
Definition env_gz : Env :=
  {| getpid := 4;
     selfPath := "C:/whids/whids.exe";
     Dump_Dir := "dumps";
     Dump_MaxDumps := 4;
     Dump_DumpUntracked := false;
     Dump_Compression := true;
     Report_EnableReporting := true;
     Sysmon_ArchiveDirectory := "archive";
     srcGUIDFromEvent := λ e, default nullGUID (GetString e pathSysmonProcessGUID);
     IsHIDSEvent := λ _ _, false;
     Join := λ l, foldr (λ a b, if bool_decide (b = "") then a else a +:+ "/" +:+ b) "" l;
     Base := λ s, s;
     Dir := λ s, s;
     Ext := λ _, "";
     Split := λ s, (s, "");
     ArgvFromCommandLine := λ s, Some [s];
     IsPipePath := λ _, false;
     Sha256 := λ c, "sha256:" +:+ c;
     HidsWriteReader_file := λ dst data compress,
       if compress then (dst +:+ ".gz", "gzip(" +:+ data +:+ ")") else (dst, data);
     sysmonArcFileRe_strip := λ s, s;
     Report := λ _ _, Some "{}";
     ToJSON := λ _, Some "{}" |}.

(** A host on which every call succeeds, and one on which memory snapshots
    fail. *)
Definition os_ok : OS :=
  {| IsPIDRunning := λ _, true;
     terminate_ok := λ _, true;
     UnixNano := 1000;
     minidump := λ _ _, Some "MDMP";
     GetModuleFilenameFromPID := λ _, "app.exe";
     mkdir_ok := λ _, true;
     hash_ok := λ _, true;
     open_ok := λ _, true;
     write_ok := λ _, true;
     RegQuery := λ _ _, inl "00" |}.

Definition os_nodump : OS :=
  {| IsPIDRunning := λ _, true;
     terminate_ok := λ _, true;
     UnixNano := 1000;
     minidump := λ _ _, None;
     GetModuleFilenameFromPID := λ _, "app.exe";
     mkdir_ok := λ _, true;
     hash_ok := λ _, true;
     open_ok := λ _, true;
     write_ok := λ _, true;
     RegQuery := λ _ _, inl "00" |}.

Definition track (image : string) (pid : Z) (g : string) (dumps : Z) : ProcessTrack :=
  {| Image := image; ParentImage := "C:/explorer.exe";
     CommandLine := image +:+ " -x"; ParentCommandLine := "C:/explorer.exe";
     CurrentDirectory := "C:/"; ParentCurrentDirectory := "C:/";
     PID := pid; ProcessGUID := g;
     Signed := false; Signature := "?"; SignatureStatus := "?";
     DumpCount := dumps |}.

(** An agent tracking process [G1] (PID 42) and itself ([G0], PID 4). *)
Definition agent (dumps : Z) : HIDS :=
  {| guid := "G0";
     tracker := {[ "G1" := track "C:/app.exe" 42 "G1" dumps;
                   "G0" := track "C:/whids/whids.exe" 4 "G0" 0 ]};
     blacklisted := ∅; memdumped := ∅; dumping := ∅; filedumped := ∅;
     compressionQueue := [];
     disk := ∅;
     calls := [] |}.

Definition detected (g : string) (actions : list string) : Event :=
  {| EventID := SysmonProcessCreate; Channel := sysmonChannel; Hash := "e1";
     data := {[ pathSysmonProcessGUID := g ]};
     detection := Some actions |}.

(** The creation of the agent's own process, seen by the agent. *)
Definition self_created (g : string) : Event :=
  {| EventID := SysmonProcessCreate; Channel := sysmonChannel; Hash := "e0";
     data := {[ pathSysmonProcessGUID := g;
                pathSysmonProcessId := "4";
                pathSysmonImage := "C:/whids/whids.exe";
                pathSysmonCommandLine := "C:/whids/whids.exe";
                pathSysmonParentImage := "C:/services.exe";
                pathSysmonParentProcessGUID := "GS" ]};
     detection := None |}.

(** Process [G1] ([C:/app.exe]) loads a library: an image-load event whose
    [Image] is the process and whose [ImageLoaded] is the library, with the
    signature of the library. *)
Definition library_loaded : Event :=
  {| EventID := SysmonImageLoad; Channel := sysmonChannel; Hash := "e7";
     data := {[ pathSysmonProcessGUID := "G1";
                pathSysmonProcessId := "42";
                pathSysmonImage := "C:/app.exe";
                pathSysmonImageLoaded := "C:/Windows/System32/kernel32.dll";
                pathSysmonSigned := "true";
                pathSysmonSignature := "Microsoft Windows";
                pathSysmonSignatureStatus := "Valid" ]};
     detection := None |}.

(** The creation of a process with a given PID and command line. *)
Definition created (pid cl : string) : Event :=
  {| EventID := SysmonProcessCreate; Channel := sysmonChannel; Hash := "e2";
     data := {[ pathSysmonProcessGUID := "G9";
                pathSysmonProcessId := pid;
                pathSysmonCommandLine := cl ]};
     detection := None |}.

(** The agent on a host where the same program is stored at two paths. *)
Definition agent_with_files : HIDS :=
  with_disk {[ "C:/a.exe" := "MZ-payload"; "C:/tmp/copy.exe" := "MZ-payload" ]} (agent 0).

(** [filepath.Ext]: the suffix from the last dot of the last element. *)
Fixpoint has_dot_or_sep (s : string) : bool :=
  match s with
  | EmptyString => false
  | String c s' =>
      bool_decide (c = "."%char) || bool_decide (c = "/"%char) || has_dot_or_sep s'
  end.

Fixpoint go_Ext (s : string) : string :=
  match s with
  | EmptyString => ""
  | String c s' =>
      if has_dot_or_sep s' then go_Ext s'
      else if bool_decide (c = "."%char) then s else ""
  end.

Fixpoint strip_prefix (pre s : string) : option string :=
  match pre, s with
  | EmptyString, _ => Some s
  | String a pre', String b s' =>
      if bool_decide (a = b) then strip_prefix pre' s' else None
  | _, EmptyString => None
  end.

(** A manager's host: a flat rules directory, every operation succeeding
    except the writes from the [n]-th on. *)
Definition host_failing_write (n : nat) : Api.Host :=
  {| Api.h_Join := λ l, foldr (λ a b, if bool_decide (b = "") then a else a +:+ "/" +:+ b) "" l;
     Api.h_Ext := go_Ext;
     Api.DefaultRuleExtensions := [".gen"; ".gene"];
     Api.Walk := λ fs dir, [omap (λ kv, strip_prefix (dir +:+ "/") kv.1) (map_to_list fs)];
     Api.create_ok := λ _, true;
     Api.remove_ok := λ _, true;
     Api.writestring_ok := λ k, bool_decide (k < n)%nat;
     Api.rename_ok := λ _ _, true |}.

Definition manager0 : Api.Manager :=
  {| Api.RulesDir := "rules";
     Api.geneEng := [("r1", "{rule 1}"); ("r2", "{rule 2}")] |}.

(** The rules directory holds one rule file written earlier. *)
Definition files0 : Api.Files :=
  {| Api.content := {[ "rules/old.gen" := "{rule 0}" ]}; Api.ops := [] |}.

End Examples.

(** ** Vocabulary of the properties *)

(** Number of events of a run at which [hookSelfGUID] changes [h.guid]. *)
Fixpoint guid_writes (env : Env) (h : HIDS) (events : list Event) : nat :=
  match events with
  | [] => 0
  | e :: events' =>
      let h' := Hooks.hookSelfGUID env h e in
      ((if bool_decide (guid h' = guid h) then 0 else 1)
       + guid_writes env h' events')%nat
  end.


(** Two states that differ at most in the files, the set of dumped file
    hashes and the compression queue. *)
Definition files_only (h h' : HIDS) : Prop :=
  guid h' = guid h ∧ tracker h' = tracker h ∧ blacklisted h' = blacklisted h
  ∧ memdumped h' = memdumped h ∧ dumping h' = dumping h ∧ calls h' = calls h.

(** The file that [writeReader] leaves for a destination and a content: the
    one [utils.HidsWriteReader] makes of them under the configured
    compression flag. *)
Definition written (env : Env) (dst content : string) : string * string :=
  HidsWriteReader_file env dst content (Dump_Compression env).

(** The guard of [memdump] and of [dumpPidAndCompress]: the snapshot is
    attempted. *)
Definition memdump_runs (env : Env) (os : OS) (e : Event) (h : HIDS) (pt : ProcessTrack)
  : bool :=
  IsPIDRunning os (PID pt) && bool_decide (PID pt ≠ getpid env)
  && negb (bool_decide (srcGUIDFromEvent env e ∈ memdumped h))
  && negb (bool_decide (srcGUIDFromEvent env e ∈ dumping h)).



(** The dump budget of a GUID is spent: its track has accepted the maximum
    number of dumps. *)
Definition budget_spent (env : Env) (g : string) (h : HIDS) : Prop :=
  ∃ t, tracker h !! g = Some t ∧ Dump_MaxDumps env ≤ DumpCount t.

(** A detection reaching one of the entry points that check the budget: the
    handler of [actions.go] or one of the dump routines of [hookdefs.go]. *)
Inductive Request :=
  | ReqHandleActions (os : OS) (e : Event)
  | ReqDumpProcess (os : OS) (e : Event)
  | ReqDumpReport (os : OS) (e : Event).





Module BudgetExamples.





End BudgetExamples.

(** The sentence "kill executes whatever the state of the dump budget", for
    one call of [HandleActions]: when [kill] is among the actions of the
    detection and the target is a tracked process other than the agent, the
    call suspends and terminates the target. *)
Definition kill_regardless_of_budget (env : Env) (os : OS) (e : Event) (h : HIDS) : Prop :=
  ∀ actions pt,
    detection e = Some actions →
    ActionKill ∈ actions →
    processTrackFromEvent env h e = Some pt →
    PID pt ≠ getpid env →
    SuspendProcess (PID pt) ∈ calls (Actions.HandleActions env os e h)
    ∧ TerminateProcess (PID pt) ∈ calls (Actions.HandleActions env os e h).

(** The sentence "termination never happens before the memory-dump-completed
    marker is set or the bounded wait has elapsed", read on the state in
    which a handler leaves the agent: if the log holds a termination of
    [pid], then [g] is marked as dumped or the log holds 60 sleeps of one
    second. *)
Definition kill_waited_for_dump (g : string) (pid : Z) (h : HIDS) : Prop :=
  TerminateProcess pid ∈ calls h →
  g ∈ memdumped h ∨ (60 ≤ length (filter (λ c, c = Sleep 1) (calls h)))%nat.

(** The state after [n] sleeps of one second. *)
Fixpoint wait_memdumped_calls (h : HIDS) (n : nat) : HIDS :=
  match n with
  | O => h
  | S n' => wait_memdumped_calls (call (Sleep 1) h) n'
  end.

(** *** Memory dumps by concurrent workers

    [Run] (lines 413-431) hands every queued event to a goroutine of its
    own, two of them at a time, and the hooks start [dumpProcessRtn] in a
    goroutine as well: the statements of [memdump] run by two workers
    interleave on the sets of the agent.  A worker goes through [memdump]
    in five steps: the guard of line 239, read on the state at hand;
    [dumping.Add] of line 242; the call of the snapshot, line 247; what
    follows its answer, lines 248-253; and the deferred [dumping.Del]. *)
Record Job := mkJob {
  j_guid : string;
  j_pid : Z;
  j_path : string;
  j_result : option string
}.

(** Where a worker stands: its guard has passed; its GUID is in [dumping];
    its snapshot is called; the answer is handled and the deferred removal
    is left to run. *)
Inductive Stage :=
  | Passed
  | Added
  | Called
  | Leaving.

(** Line 239: the job of the worker when the guard passes. *)
Definition memdump_guard (env : Env) (os : OS) (e : Event) (h : HIDS) : option Job :=
  match processTrackFromEvent env h e with
  | Some pt =>
      let g := srcGUIDFromEvent env e in
      let pid := PID pt in
      if IsPIDRunning os pid && bool_decide (pid ≠ getpid env)
         && negb (bool_decide (g ∈ memdumped h)) && negb (bool_decide (g ∈ dumping h))
      then
        let dumpPath := Actions.prepare env e (Actions.dumpFilename env os pt) in
        Some (mkJob g pid dumpPath (minidump os pid dumpPath))
      else None
  | None => None
  end.

(** One step of a worker on the shared state: the state it leaves, the
    stage it reaches ([None] when it has returned) and whether the step was
    a successful snapshot. *)
Definition memdump_step (env : Env) (j : Job) (st : Stage) (h : HIDS)
  : HIDS * option Stage * bool :=
  let g := j_guid j in
  match st with
  | Passed => (with_dumping ({[g]} ∪ dumping h) h, Some Added, false)
  | Added => (call (FullMemoryMiniDump (j_pid j) (j_path j)) h, Some Called, false)
  | Called =>
      match j_result j with
      | None => (h, Some Leaving, false)
      | Some snapshot =>
          let h3 := with_disk (<[j_path j := snapshot]> (disk h)) h in
          (* dump was successfull *)
          let h4 := with_memdumped ({[g]} ∪ memdumped h3) h3 in
          (compress env (j_path j) h4, Some Leaving, true)
      end
  | Leaving => (with_dumping (dumping h ∖ {[g]}) h, None, false)
  end.

(** The agent, the workers that are inside [memdump], and the GUIDs of the
    snapshots that have succeeded so far, in their order. *)
Record Pool := mkPool {
  p_hids : HIDS;
  p_workers : list (Job * Stage);
  p_taken : list string
}.

(** A worker reaches the guard of [memdump] for an event, or the [i]-th
    worker inside [memdump] makes its next step. *)
Inductive Move :=
  | Arrive (os : OS) (e : Event)
  | Step (i : nat).

Definition move (env : Env) (p : Pool) (m : Move) : Pool :=
  match m with
  | Arrive os e =>
      match memdump_guard env os e (p_hids p) with
      | Some j => mkPool (p_hids p) (p_workers p ++ [(j, Passed)])%list (p_taken p)
      | None => p
      end
  | Step i =>
      match p_workers p !! i with
      | Some (j, st) =>
          let '(h', next, taken) := memdump_step env j st (p_hids p) in
          mkPool h'
            match next with
            | Some st' => <[i := (j, st')]> (p_workers p)
            | None => delete i (p_workers p)
            end
            (p_taken p ++ if taken then [j_guid j] else [])%list
      | None => p
      end
  end.

(** A worker that goes through [memdump] with no other worker running. *)
Definition alone (os : OS) (e : Event) : list Move :=
  [Arrive os e; Step 0; Step 0; Step 0; Step 0].

Module RaceExamples.

(** A second detection asking a memory dump of process [G1], and the host
    as it answers a moment later. *)
Definition detected_again : Event :=
  {| EventID := SysmonProcessCreate; Channel := sysmonChannel; Hash := "e3";
     data := {[ pathSysmonProcessGUID := "G1" ]};
     detection := Some ["memdump"] |}.

Definition os_later : OS :=
  {| IsPIDRunning := λ _, true;
     terminate_ok := λ _, true;
     UnixNano := 2000;
     minidump := λ _ _, Some "MDMP";
     GetModuleFilenameFromPID := λ _, "app.exe";
     mkdir_ok := λ _, true;
     hash_ok := λ _, true;
     open_ok := λ _, true;
     write_ok := λ _, true;
     RegQuery := λ _ _, inl "00" |}.

(** Two workers, each with one of the two detections: both read the guard
    before either has put the GUID in [dumping], then each runs to its
    end. *)
Definition race : list Move :=
  [Arrive Examples.os_ok (Examples.detected "G1" ["memdump"]);
   Arrive os_later detected_again;
   Step 0; Step 1; Step 0; Step 1; Step 0; Step 1; Step 0; Step 0].

End RaceExamples.

(** The paths that the loop deleting the previous rule files goes through
    with [os.Remove], in the order of the walk: each name joined to the rules
    directory, when it has a rule extension. *)
Definition rule_paths (host : Api.Host) (dir : string) (names : list string)
  : list string :=
  filter (λ fp, Api.h_Ext host fp ∈ Api.DefaultRuleExtensions host)
    ((λ name, Api.h_Join host [dir; name]) <$> names).

(** The sentence "when a step of the rewrite fails, the original rule files
    are left untouched", for one call of [admAPIRulesSave]: if the answer is
    an error, every file with a rule extension has the content it had. *)
Definition rewrite_keeps_rule_files (host : Api.Host) (m : Api.Manager) (fs : Api.Files)
  : Prop :=
  let r := Api.admAPIRulesSave host m fs in
  r.2 ≠ Api.MsgOk →
  ∀ p, Api.h_Ext host p ∈ Api.DefaultRuleExtensions host →
       Api.content r.1 !! p = Api.content fs !! p.

(** ** [src/hids/hookdefs.go]: the other dump routines *)

Module HookDumps.

Definition SysmonFileTime : Z := 2.
Definition SysmonDriverLoad : Z := 6.
Definition SysmonAccessProcess : Z := 10.
Definition SysmonFileCreate : Z := 11.
Definition SysmonCreateStreamHash : Z := 15.
Definition pathSysmonCurrentDirectory : string := "/Event/EventData/CurrentDirectory".

(** The goroutine started by [dumpRegistryRtn] (lines 953-992). *)
Definition dumpRegistryRtn (env : Env) (os : OS) (e : Event) (h : HIDS) : HIDS :=
  match GetString e pathSysmonProcessGUID with
  | Some g =>
      (* check if we should go on *)
      let '(h1, ok) :=
        CheckDumpCountOrInc g (Dump_MaxDumps env) (Dump_DumpUntracked env) h in
      if negb ok then h1
      else
        match GetString e pathSysmonTargetObject, GetString e pathSysmonDetails with
        | Some targetObject, Some details =>
            (* We dump only if Details is "Binary Data" *)
            if bool_decide (details = "Binary Data") then
              let dumpPath := Join env [Dump_Dir env; g; Hash e; "reg.txt"] in
              let '(key, value) := Split env targetObject in
              let h2 := (Hooks.dumpEventAndCompress env os e g h1).1 in
              let content :=
                match RegQuery os key value with
                | inl c => c
                | inr err => "Error Dumping " +:+ targetObject +:+ ": " +:+ err
                end in
              match write_file os dumpPath content h2 with
              | (h3, Some _) => h3
              | (h3, None) => compress env dumpPath h3
              end
            else h1
        | _, _ => h1
        end
  | None => h
  end.

(** One argument of a command line, as handled by the loops of
    [dumpCommandLine] and [dumpParentCommandLine]: the argument is dumped when
    it names a file, and so is its path relative to the working directory;
    [rel] tells whether the relative path is tried. *)
Definition dump_argument (env : Env) (os : OS) (dumpPath cwd : string) (rel : bool)
  (h : HIDS) (arg : string) : HIDS :=
  let h1 :=
    if IsFile h arg && negb (IsPipePath env arg)
    then (Hooks.dumpFileAndCompress env os arg dumpPath h).1 else h in
  if rel then
    let relarg := Join env [cwd; arg] in
    if IsFile h1 relarg && negb (IsPipePath env relarg)
    then (Hooks.dumpFileAndCompress env os relarg dumpPath h1).1 else h1
  else h1.

(** [dumpCommandLine] (lines 994-1017). *)
Definition dumpCommandLine (env : Env) (os : OS) (e : Event) (dumpPath : string) (h : HIDS)
  : HIDS :=
  match GetString e pathSysmonCommandLine, GetString e pathSysmonCurrentDirectory with
  | Some cl, Some cwd =>
      match ArgvFromCommandLine env cl with
      | Some (_ :: args) => foldl (dump_argument env os dumpPath cwd true) h args
      | _ => h
      end
  | _, _ => h
  end.

(** [dumpParentCommandLine] (lines 1019-1044). *)
Definition dumpParentCommandLine (env : Env) (os : OS) (e : Event) (dumpPath : string)
  (h : HIDS) : HIDS :=
  match GetString e pathSysmonProcessGUID with
  | Some g =>
      match GetByGuid h g with
      | Some track =>
          match ArgvFromCommandLine env (ParentCommandLine track) with
          | Some (_ :: args) =>
              foldl (dump_argument env os dumpPath (ParentCurrentDirectory track)
                       (bool_decide (ParentCurrentDirectory track ≠ ""))) h args
          | _ => h
          end
      | None => h
      end
  | None => h
  end.

(** The file named by a field of the event, dumped when the field is there. *)
Definition dump_field (env : Env) (os : OS) (e : Event) (path dumpPath : string) (h : HIDS)
  : HIDS :=
  match GetString e path with
  | Some f => (Hooks.dumpFileAndCompress env os f dumpPath h).1
  | None => h
  end.

(** The goroutine started by [dumpFilesRtn] (lines 1066-1171).  [IsDir] is
    [fsutil.IsDir]: directories are not among the files of [disk]. *)
Definition dumpFilesRtn (env : Env) (os : OS) (IsDir : string → bool) (e : Event) (h : HIDS)
  : HIDS :=
  let g := srcGUIDFromEvent env e in
  (* check if we should go on *)
  let '(h1, ok) :=
    CheckDumpCountOrInc g (Dump_MaxDumps env) (Dump_DumpUntracked env) h in
  if negb ok then h1
  else
    (* build up dump path *)
    let dumpPath := Join env [Dump_Dir env; g; Hash e] in
    (* dump event who triggered the dump *)
    let h2 := (Hooks.dumpEventAndCompress env os e g h1).1 in
    (* dump CommandLine fields regardless of the event *)
    let h3 := dumpCommandLine env os e dumpPath h2 in
    let h4 := dumpParentCommandLine env os e dumpPath h3 in
    let id := EventID e in
    if bool_decide (id = SysmonFileTime) || bool_decide (id = SysmonFileCreate)
       || bool_decide (id = SysmonCreateStreamHash) then
      dump_field env os e pathSysmonTargetFilename dumpPath h4
    else if bool_decide (id = SysmonDriverLoad) then
      dump_field env os e pathSysmonImageLoaded dumpPath h4
    else if bool_decide (id = SysmonAccessProcess) then
      dump_field env os e pathSysmonSourceImage dumpPath h4
    else if bool_decide (id = SysmonRegSetValue) || bool_decide (id = SysmonWMIConsumer) then
      let path := if bool_decide (id = SysmonWMIConsumer)
                  then pathSysmonDestination else pathSysmonDetails in
      match GetString e path with
      | Some cl =>
          (* try to parse details as a command line *)
          match ArgvFromCommandLine env cl with
          | Some argv =>
              foldl (λ h' arg,
                       if IsFile h' arg && negb (IsPipePath env arg)
                       then (Hooks.dumpFileAndCompress env os arg dumpPath h').1 else h')
                h4 argv
          | None => h4
          end
      | None => h4
      end
    else if bool_decide (id = SysmonFileDelete) then
      let h5 := dump_field env os e pathSysmonImage dumpPath h4 in
      match GetBool e pathSysmonArchived with
      | Some true =>
          if negb (IsDir (Sysmon_ArchiveDirectory env)) then h5
          else
            match GetString e pathSysmonHashes, GetString e pathSysmonTargetFilename with
            | Some hashes, Some target =>
                let fname := sysmonArcFileRe_strip env hashes +:+ Ext env target in
                let path := Join env [Sysmon_ArchiveDirectory env; fname] in
                (Hooks.dumpFileAndCompress env os path dumpPath h5).1
            | _, _ => h5
            end
      | _ => h5
      end
    else
      let h5 := dump_field env os e pathSysmonImage dumpPath h4 in
      dump_field env os e pathSysmonParentImage dumpPath h5.

(** A goroutine started by [hookHandleActions], run to its end.  [seen]
    gives the answers of the set of dumped GUIDs to the polls of
    [KillAfterDump]. *)
Definition run_task (env : Env) (os : OS) (IsDir : string → bool) (seen : nat → bool)
  (t : Hooks.Task) (h : HIDS) : HIDS :=
  match t with
  | Hooks.DumpProcess e => Hooks.dumpProcessRtn env os e h
  | Hooks.DumpRegistry e => dumpRegistryRtn env os e h
  | Hooks.DumpFiles e => dumpFilesRtn env os IsDir e h
  | Hooks.DumpReport e => Hooks.dumpReportRtn env os e h
  | Hooks.KillAfterDump pt => Hooks.killAfterDump env os seen pt h
  end.

End HookDumps.

(** The process a call is aimed at. *)
Definition target (c : Call) : option Z :=
  match c with
  | SuspendProcess pid | FullMemoryMiniDump pid _ | TerminateProcess pid => Some pid
  | Sleep _ => None
  end.

(** No call of the log is aimed at the agent. *)
Definition spares_agent (env : Env) (h : HIDS) : Prop :=
  ∀ c, c ∈ calls h → target c ≠ Some (getpid env).

(** A step that only writes files: nothing is called, the store, the
    blacklist, the set of dumped GUIDs and the in-flight set are as before,
    and the set of dumped hashes and paths has not lost a member. *)
Definition quiet (h h' : HIDS) : Prop :=
  guid h' = guid h ∧ tracker h' = tracker h ∧ blacklisted h' = blacklisted h
  ∧ memdumped h' = memdumped h ∧ dumping h' = dumping h ∧ calls h' = calls h
  ∧ filedumped h ⊆ filedumped h'.

(** The log of [h'] is the log of [h] followed by calls none of which is
    aimed at the agent. *)
Definition extends_sparing (env : Env) (h h' : HIDS) : Prop :=
  ∃ l, calls h' = (calls h ++ l)%list
       ∧ Forall (λ c, target c ≠ Some (getpid env)) l.

Module RegExamples.

(** A host that refuses registry queries, and the event of a binary value
    set by process [G1]. *)
Definition os_noreg : OS :=
  {| IsPIDRunning := λ _, true;
     terminate_ok := λ _, true;
     UnixNano := 1000;
     minidump := λ _ _, Some "MDMP";
     GetModuleFilenameFromPID := λ _, "app.exe";
     mkdir_ok := λ _, true;
     hash_ok := λ _, true;
     open_ok := λ _, true;
     write_ok := λ _, true;
     RegQuery := λ _ _, inr "access denied" |}.

Definition reg_set : Event :=
  {| EventID := SysmonRegSetValue; Channel := sysmonChannel; Hash := "e5";
     data := {[ pathSysmonProcessGUID := "G1";
                pathSysmonTargetObject := "HKLM/Run/app";
                pathSysmonDetails := "Binary Data" ]};
     detection := Some ["regdump"] |}.

End RegExamples.

(** The dump routine an action name stands for in [hookHandleActions]. *)
Definition task_of_action (e : Event) (a : string) : option Hooks.Task :=
  if bool_decide (a = ActionMemdump) then Some (Hooks.DumpProcess e)
  else if bool_decide (a = ActionRegdump) then Some (Hooks.DumpRegistry e)
  else if bool_decide (a = ActionFiledump) then Some (Hooks.DumpFiles e)
  else if bool_decide (a = ActionReport) then Some (Hooks.DumpReport e)
  else None.

(** Two tracks that differ at most in their three signature fields. *)
Definition same_but_signature (t t' : ProcessTrack) : Prop :=
  Image t' = Image t ∧ ParentImage t' = ParentImage t
  ∧ CommandLine t' = CommandLine t ∧ ParentCommandLine t' = ParentCommandLine t
  ∧ CurrentDirectory t' = CurrentDirectory t
  ∧ ParentCurrentDirectory t' = ParentCurrentDirectory t
  ∧ PID t' = PID t ∧ ProcessGUID t' = ProcessGUID t ∧ DumpCount t' = DumpCount t.

(** The text of a file into which [lines] were written one after the other
    by the loop of [write_rules]. *)
Definition appended (old : string) (lines : list string) : string :=
  foldl (λ acc l, acc +:+ (l +:+ Api.newline)) old lines.

(** ** The [POST] case of [admAPIRules] (manager_admin_api.go, lines 1076-1160) *)

Module ApiPost.

(** The two kinds of error of the engine's [LoadReader] that the handler
    tells apart. *)
Inductive LoadError :=
  | ErrRuleExist
  | ErrLoadOther.

#[global] Instance LoadError_eq_dec : EqDecision LoadError.
Proof. solve_decision. Defined.

(** The request: its body as [ioutil.ReadAll] gives it, or [None] when the
    read fails, and its [update] parameter. *)
Record Request := mkRequest {
  body : option string;
  paramUpdate : string
}.

(** Functions of the rule engine and of [encoding/json].  [LoadReader rules b]
    gives the rules of the engine after the load and the error, if any;
    [Decode b] gives the rules decoded from the body, each with its name and
    the text of its [JSON()], or [None] when a value fails to decode;
    [range mp] is the order in which the [for range] loop visits the map. *)
Record Engine := mkEngine {
  LoadReader : list (string * string) → string → list (string * string) * option LoadError;
  Decode : string → option (list (string * string));
  range : gmap string string → list (string * string)
}.

Inductive PostResponse :=
  | MsgRulesAdded
  | ErrReadBody
  | ErrLoadingRule
  | ErrParseBody
  | Rewritten (r : Api.Response).

(** [newRules[jr.Name] = jr] for each rule decoded (lines 1100-1114). *)
Definition newRules_of (rules : list (string * string)) : gmap string string :=
  foldl (λ acc jr, <[jr.1 := jr.2]> acc) ∅ rules.

Definition admAPIRules_POST (host : Api.Host) (eng : Engine) (m : Api.Manager)
    (rq : Request) (fs : Api.Files) : Api.Manager * Api.Files * PostResponse :=
  match body rq with
  | None => (m, fs, ErrReadBody)
  | Some b =>
      (* LoadReader also asses that the rules are all compilable *)
      let loaded := LoadReader eng (Api.geneEng m) b in
      let m' := Api.mkManager (Api.RulesDir m) loaded.1 in
      match loaded.2 with
      | None => (m', fs, MsgRulesAdded)
      | Some err =>
          let update := default false (ParseBool (paramUpdate rq)) in
          (* if we have the correct error and we want to replace existing rules *)
          if bool_decide (err = ErrRuleExist) && update then
            let newRulesPath := Api.h_Join host [Api.RulesDir m'; Api.rulesBasename] in
            let tmp := newRulesPath +:+ ".tmp" in
            match Api.os_Create host tmp fs with
            | None => (m', fs, Rewritten Api.ErrCreateTemp)
            | Some fs1 =>
                (* we verify we can decode all the body *)
                match Decode eng b with
                | None => (m', fs1, ErrParseBody)
                | Some rules =>
                    let newRules := newRules_of rules in
                    (* we delete previous rule files *)
                    match Api.remove_rule_files host (Api.RulesDir m')
                            (concat (Api.Walk host (Api.content fs1) (Api.RulesDir m')))
                            fs1 with
                    | (fs2, false) => (m', fs2, Rewritten Api.ErrDeleteRuleFile)
                    | (fs2, true) =>
                        (* we write as is the rules not needing updates *)
                        let kept := filter (λ name, newRules !! name = None)
                                      (Api.GetRuleNames m') in
                        match Api.write_rules host tmp 0
                                (Api.GetRawRuleByName m' <$> kept) fs2 with
                        | (fs3, false) => (m', fs3, Rewritten Api.ErrWriteRule)
                        | (fs3, true) =>
                            match Api.write_rules host tmp (length kept)
                                    ((range eng newRules).*2) fs3 with
                            | (fs4, false) => (m', fs4, Rewritten Api.ErrWriteRule)
                            | (fs4, true) =>
                                (* close file before renaming *)
                                match Api.os_Rename host tmp newRulesPath fs4 with
                                | None => (m', fs4, Rewritten Api.ErrRename)
                                | Some fs5 => (m', fs5, Rewritten Api.MsgOk)
                                end
                            end
                        end
                    end
                end
            end
          else
            (* we return an error because we don't want to replace existing rules *)
            (m', fs, ErrLoadingRule)
      end
  end.

End ApiPost.

Module PostExamples.

(** An engine that refuses a body naming a rule it has and loads nothing of
    it; a body is a list of names separated by commas, and the new text of a
    rule is its name between brackets. *)
Fixpoint split_commas (cur : string) (s : string) : list string :=
  match s with
  | EmptyString => [String.rev cur]
  | String c s' =>
      if bool_decide (c = ","%char) then String.rev cur :: split_commas "" s'
      else split_commas (String c cur) s'
  end.

Definition engine0 : ApiPost.Engine :=
  {| ApiPost.LoadReader := λ rules b,
       if existsb (λ name, bool_decide (name ∈ rules.*1)) (split_commas "" b)
       then (rules, Some ApiPost.ErrRuleExist)
       else ((rules ++ ((λ name, (name, "[" +:+ name +:+ "]")) <$> split_commas "" b))%list,
             None);
     ApiPost.Decode := λ b,
       Some ((λ name, (name, "[" +:+ name +:+ "]")) <$> split_commas "" b);
     ApiPost.range := map_to_list |}.

End PostExamples.

(** ** The listing of the dumps of an endpoint
    (manager_admin_api.go, lines 780-860) *)

Module Artifacts.

(** A [time.Time] is modelled by its instant, counted from the zero time:
    [IsZero] is [= 0], [Before] is [<], and [UTC] keeps the instant. *)
Record FileInfo := mkFileInfo {
  info_Name : string;
  info_Size : Z;
  info_ModTime : Z
}.

(** An [fs.DirEntry]; [Info] is [None] when [dfi.Info()] fails. *)
Record DirEntry := mkDirEntry {
  Name : string;
  IsDir : bool;
  Info : option FileInfo
}.

Record DumpFile := mkDumpFile {
  df_Name : string;
  df_Size : Z;
  df_Timestamp : Z
}.

Record EndpointDumps := mkEndpointDumps {
  Created : Z;
  Modification : Z;
  ProcessGUID : string;
  EventHash : string;
  BaseURL : string;
  Files : list DumpFile
}.

(** [filepath.Join], [os.ReadDir] ([None] on error) and the two URL
    constants of the package. *)
Record Host := mkHost {
  Join : list string → string;
  ReadDir : string → option (list DirEntry);
  AdmAPIEndpointsPath : string;
  admAPIArtifactsPart : string
}.

Inductive ListError :=
  | ErrReadDir
  | ErrListEventHash
  | ErrListEventDump
  | ErrFileInfo.

(** [strings.Trim(s, "{}")]. *)
Definition in_cutset (c : ascii) : bool :=
  bool_decide (c = "{"%char) || bool_decide (c = "}"%char).

Fixpoint TrimLeft (s : string) : string :=
  match s with
  | EmptyString => ""
  | String c s' => if in_cutset c then TrimLeft s' else s
  end.

Fixpoint TrimRight (s : string) : string :=
  match s with
  | EmptyString => ""
  | String c s' =>
      match TrimRight s' with
      | EmptyString => if in_cutset c then "" else String c ""
      | t => String c t
      end
  end.

Definition Trim (s : string) : string := TrimRight (TrimLeft s).

(** The body of the loop over the files of a dump (lines 828-848). *)
Definition add_file (ed : EndpointDumps) (info : FileInfo) : EndpointDumps :=
  let f := mkDumpFile (info_Name info) (info_Size info) (info_ModTime info) in
  let files := (Files ed ++ [f])%list in
  (* update creation date *)
  let created :=
    if bool_decide (Created ed = 0) || bool_decide (info_ModTime info < Created ed)
    then info_ModTime info else Created ed in
  (* update modification date *)
  let modification :=
    if bool_decide (Modification ed < info_ModTime info)
    then info_ModTime info else Modification ed in
  mkEndpointDumps created modification (ProcessGUID ed) (EventHash ed) (BaseURL ed) files.

Fixpoint scan_files (ed : EndpointDumps) (eventDumps : list DirEntry)
  : option EndpointDumps :=
  match eventDumps with
  | [] => Some ed
  | dfi :: rest =>
      match Info dfi with
      | None => None
      | Some info => scan_files (add_file ed info) rest
      end
  end.

(** One entry of an event-hash directory (lines 815-849). *)
Definition scan_hash (host : Host) (urlPath evtHashDir pname : string) (efi : DirEntry)
  : EndpointDumps + ListError :=
  (* we remove the curly brackets of the process GUID *)
  let pguid := Trim pname in
  let ehash := Name efi in
  let baseURL := urlPath +:+ "/" +:+ pguid +:+ "/" +:+ ehash +:+ "/" in
  let ed := mkEndpointDumps 0 0 pguid ehash baseURL [] in
  if IsDir efi then
    match ReadDir host (Join host [evtHashDir; ehash]) with
    | None => inr ErrListEventDump
    | Some eventDumps =>
        match scan_files ed eventDumps with
        | None => inr ErrFileInfo
        | Some ed' => inl ed'
        end
    end
  else inl ed.

(** The loop over the event hashes of a process (lines 814-855); the dumps
    found so far are returned with the error. *)
Fixpoint scan_hashes (host : Host) (urlPath evtHashDir pname : string) (since : Z)
    (eventHashes : list DirEntry) (dumps : list EndpointDumps)
  : list EndpointDumps * option ListError :=
  match eventHashes with
  | [] => (dumps, None)
  | efi :: rest =>
      match scan_hash host urlPath evtHashDir pname efi with
      | inr err => (dumps, Some err)
      | inl ed =>
          (* we don't update if update timestamp is before since parameter *)
          scan_hashes host urlPath evtHashDir pname since rest
            (if bool_decide (since < Modification ed) then (dumps ++ [ed])%list else dumps)
      end
  end.

(** The loop over the process GUIDs (lines 806-857). *)
Fixpoint scan_procs (host : Host) (urlPath path : string) (since : Z)
    (procGUIDs : list DirEntry) (dumps : list EndpointDumps)
  : list EndpointDumps * option ListError :=
  match procGUIDs with
  | [] => (dumps, None)
  | pfi :: rest =>
      if IsDir pfi then
        let evtHashDir := Join host [path; Name pfi] in
        match ReadDir host evtHashDir with
        | None => (dumps, Some ErrListEventHash)
        | Some eventHashes =>
            match scan_hashes host urlPath evtHashDir (Name pfi) since eventHashes dumps with
            | (dumps', Some err) => (dumps', Some err)
            | (dumps', None) => scan_procs host urlPath path since rest dumps'
            end
        end
      else scan_procs host urlPath path since rest dumps
  end.

Definition listEndpointDumps (host : Host) (root uuid : string) (since : Z)
  : list EndpointDumps * option ListError :=
  let urlPath := AdmAPIEndpointsPath host +:+ "/" +:+ uuid +:+ admAPIArtifactsPart host in
  let path := Join host [root; uuid] in
  match ReadDir host path with
  | None => ([], Some ErrReadDir)
  | Some procGUIDs => scan_procs host urlPath path since procGUIDs []
  end.

(** A dump as the agent leaves it in [<root>/<uuid>/<guid>/<hash>/]. *)
Definition dump_of (host : Host) (root uuid : string) (d : EndpointDumps) : Prop :=
  ∃ procGUIDs pfi eventHashes efi,
    ReadDir host (Join host [root; uuid]) = Some procGUIDs
    ∧ pfi ∈ procGUIDs ∧ IsDir pfi = true
    ∧ ReadDir host (Join host [Join host [root; uuid]; Name pfi]) = Some eventHashes
    ∧ efi ∈ eventHashes
    ∧ ProcessGUID d = Trim (Name pfi)
    ∧ EventHash d = Name efi
    ∧ scan_hash host
        (AdmAPIEndpointsPath host +:+ "/" +:+ uuid +:+ admAPIArtifactsPart host)
        (Join host [Join host [root; uuid]; Name pfi]) (Name pfi) efi = inl d.

(** Every file that the host lists is dated after the zero time. *)
Definition dated (host : Host) : Prop :=
  ∀ path entries dfi info,
    ReadDir host path = Some entries → dfi ∈ entries → Info dfi = Some info →
    0 < info_ModTime info.

End Artifacts.

Module ArtifactExamples.

(** The dumps of endpoint [E1]: process [{G1}] with event [e1] holding two
    files, and event [e2] still empty. *)
Definition host0 : Artifacts.Host :=
  {| Artifacts.Join := λ l,
       foldr (λ a b, if bool_decide (b = "") then a else a +:+ "/" +:+ b) "" l;
     Artifacts.ReadDir := λ p,
       if bool_decide (p = "dumps/E1") then
         Some [Artifacts.mkDirEntry "{G1}" true None]
       else if bool_decide (p = "dumps/E1/{G1}") then
         Some [Artifacts.mkDirEntry "e1" true None; Artifacts.mkDirEntry "e2" true None]
       else if bool_decide (p = "dumps/E1/{G1}/e1") then
         Some [Artifacts.mkDirEntry "event.json" false
                 (Some (Artifacts.mkFileInfo "event.json" 120 5000));
               Artifacts.mkDirEntry "42_app.dmp" false
                 (Some (Artifacts.mkFileInfo "42_app.dmp" 9000 4000))]
       else if bool_decide (p = "dumps/E1/{G1}/e2") then Some []
       else None;
     Artifacts.AdmAPIEndpointsPath := "/endpoints";
     Artifacts.admAPIArtifactsPart := "/artifacts" |}.

End ArtifactExamples.

(** ** The time window of a log search
    (manager_admin_api.go, [admAPIEndpointLogs], lines 516-655) *)

Module Logs.

Definition MaxLimitLogAPI : Z := 10000.

(** [time.Hour] and [time.Minute], in nanoseconds. *)
Definition Hour : Z := 3600000000000.
Definition Minute : Z := 60000000000.

(** Arithmetic on [time.Duration], an [int64]. *)
Definition wrap64 (z : Z) : Z := (z + 2 ^ 63) `mod` 2 ^ 64 - 2 ^ 63.

(** The parameters of the request; [euuid] is [None] when the route has no
    such variable. *)
Record Query := mkQuery {
  pStart : string;
  pStop : string;
  pLast : string;
  pPivot : string;
  pDelta : string;
  pLimit : string;
  pSkip : string;
  euuid : option string
}.

(** The [time] and [fmt] packages.  A [time.Time] is its instant in
    nanoseconds from the zero time, so that [IsZero] is [= 0], [After] is
    [>] and [t.Add(d)] is [t + d].  [Sscanf_days s] is the number scanned by
    [fmt.Sscanf(s, "%dd", &d)] when it scans one item without error. *)
Record Clock := mkClock {
  now : Z;
  ParseTime : string → option Z;
  ParseDuration : string → option Z;
  Sscanf_days : string → option Z
}.

Inductive LogsError :=
  | ErrStart
  | ErrStop
  | ErrLast
  | ErrPivot
  | ErrDelta
  | ErrSkip
  | ErrStartAfterStop
  | ErrMuxVar.

(** The call [searcher.Events(start, stop, euuid, limit, skip)]. *)
Record Search := mkSearch {
  s_start : Z;
  s_stop : Z;
  s_euuid : string;
  s_limit : Z;
  s_skip : Z
}.

(** A time parameter: the zero time when absent. *)
Definition parse_time (clk : Clock) (p : string) : option Z :=
  if bool_decide (p = "") then Some 0 else ParseTime clk p.

(** The [last] parameter (lines 554-563): a Go duration, or a number of
    days. *)
Definition parse_last (clk : Clock) (p : string) : option Z :=
  if bool_decide (p = "") then Some 0
  else
    match ParseDuration clk p with
    | Some d => Some d
    | None =>
        match Sscanf_days clk p with
        | Some n => Some (wrap64 (n * wrap64 (24 * Hour)))
        | None => None
        end
    end.

Definition parse_delta (clk : Clock) (p : string) : option Z :=
  if bool_decide (p = "") then Some 0 else ParseDuration clk p.

Definition parse_skip (p : string) : option Z :=
  if bool_decide (p = "") then Some 0 else ParseInt p.

(** The limit (lines 586-595): a bad conversion is not an error. *)
Definition parse_limit (p : string) : Z :=
  if bool_decide (p ≠ "") then
    match ParseInt p with
    | Some l => if bool_decide (l ≤ MaxLimitLogAPI) then l else MaxLimitLogAPI
    | None => 1000
    end
  else 1000.

(** The window, once the parameters are parsed (lines 597-622). *)
Definition window (clk : Clock) (q : Query) (start stop last pivot delta : Z) : Z * Z :=
  (* Default settings last hour *)
  let last :=
    if bool_decide (pStart q = "") && bool_decide (pStop q = "")
       && bool_decide (pPivot q = "") && bool_decide (pDelta q = "")
       && bool_decide (pLast q = "")
    then Hour else last in
  (* Using last parameter *)
  if bool_decide (last ≠ 0) then (now clk + wrap64 (- last), now clk)
  else
    (* 10 min delta if delta is not provided *)
    let delta :=
      if bool_decide (pPivot q ≠ "") && bool_decide (pDelta q = "")
      then wrap64 (Minute * 10) else delta in
    (* computing start and stop from pivot and delta *)
    let '(start, stop) :=
      if bool_decide (pivot ≠ 0) && bool_decide (delta ≠ 0)
      then (pivot + wrap64 (- delta), pivot + delta) else (start, stop) in
    let stop :=
      if bool_decide (start ≠ 0) && bool_decide (stop = 0) then now clk else stop in
    (start, stop).

Definition admAPIEndpointLogs (clk : Clock) (q : Query) : LogsError + Search :=
  match parse_time clk (pStart q) with
  | None => inl ErrStart
  | Some start =>
  match parse_time clk (pStop q) with
  | None => inl ErrStop
  | Some stop =>
  match parse_last clk (pLast q) with
  | None => inl ErrLast
  | Some last =>
  match parse_time clk (pPivot q) with
  | None => inl ErrPivot
  | Some pivot =>
  match parse_delta clk (pDelta q) with
  | None => inl ErrDelta
  | Some delta =>
  match parse_skip (pSkip q) with
  | None => inl ErrSkip
  | Some skip =>
      let limit := parse_limit (pLimit q) in
      let '(start, stop) := window clk q start stop last pivot delta in
      (* Controlling parameters *)
      if bool_decide (start > stop) then inl ErrStartAfterStop
      else
        match euuid q with
        | None => inl ErrMuxVar
        | Some euuid => inr (mkSearch start stop euuid limit skip)
        end
  end end end end end end.

End Logs.

Module LogsExamples.

(** A clock whose instants and durations are written as plain numbers of
    nanoseconds, and days as a number followed by [d]. *)
Definition clock0 : Logs.Clock :=
  {| Logs.now := 1000000000000000000;
     Logs.ParseTime := ParseInt;
     Logs.ParseDuration := ParseInt;
     Logs.Sscanf_days := λ s,
       match String.rev s with
       | String "d" r => ParseInt (String.rev r)
       | _ => None
       end |}.

Definition query0 : Logs.Query :=
  {| Logs.pStart := "5"; Logs.pStop := ""; Logs.pLast := "2d"; Logs.pPivot := "";
     Logs.pDelta := ""; Logs.pLimit := "50000"; Logs.pSkip := "";
     Logs.euuid := Some "E1" |}.

End LogsExamples.

(** What the loop over the files keeps true of a dump. *)
Definition dump_inv (ed : Artifacts.EndpointDumps) : Prop :=
  0 ≤ Artifacts.Modification ed
  ∧ (∀ f, f ∈ Artifacts.Files ed → Artifacts.df_Timestamp f ≤ Artifacts.Modification ed)
  ∧ (Artifacts.Files ed = [] → Artifacts.Modification ed = 0).

Definition dated_inv (ed : Artifacts.EndpointDumps) : Prop :=
  (Artifacts.Files ed = [] → Artifacts.Created ed = 0)
  ∧ (∀ f, f ∈ Artifacts.Files ed → Artifacts.Created ed ≤ Artifacts.df_Timestamp f)
  ∧ (Artifacts.Files ed ≠ [] →
       0 < Artifacts.Created ed
       ∧ (∃ f, f ∈ Artifacts.Files ed ∧ Artifacts.df_Timestamp f = Artifacts.Created ed)
       ∧ ∃ f, f ∈ Artifacts.Files ed
              ∧ Artifacts.df_Timestamp f = Artifacts.Modification ed).


(** * Properties *)

(** ** Self-protection of the handlers of [actions.go] *)

(** C2. When the track resolved for an event has the PID of the agent,
    [suspend_process], [kill_process] and [memdump] leave the whole state as
    it was: in particular no suspend, terminate or memory-snapshot call is
    added to the log of calls. *)
Theorem self_pid_handlers_inert (env : Env) (os : OS) (h : HIDS) (e : Event)
    (pt : ProcessTrack) :
  processTrackFromEvent env h e = Some pt →
  PID pt = getpid env →
  Actions.suspend_process env e h = h
  ∧ (Actions.kill_process env os e h).1 = h
  ∧ (Actions.memdump env os e h).1 = h
  ∧ calls (Actions.suspend_process env e h) = calls h
  ∧ calls (Actions.kill_process env os e h).1 = calls h
  ∧ calls (Actions.memdump env os e h).1 = calls h.
Proof.
  intros Hpt Hpid.
  assert (Hs : Actions.suspend_process env e h = h).
  { unfold Actions.suspend_process. rewrite Hpt.
    rewrite bool_decide_eq_false_2; [done | by intros []]. }
  assert (Hk : (Actions.kill_process env os e h).1 = h).
  { unfold Actions.kill_process. rewrite Hpt.
    rewrite bool_decide_eq_false_2; [done | by intros []]. }
  assert (Hm : (Actions.memdump env os e h).1 = h).
  { unfold Actions.memdump. rewrite Hpt. cbv zeta.
    rewrite (bool_decide_eq_false_2 (PID pt ≠ getpid env)); [| by intros []].
    by rewrite andb_false_r. }
  by rewrite Hs, Hk, Hm.
Qed.

Lemma self_pid_handlers_inert_witness :
  processTrackFromEvent Examples.env0 (Examples.agent 0) (Examples.detected "G0" ["kill"])
    = Some (Examples.track "C:/whids/whids.exe" 4 "G0" 0)
  ∧ Actions.suspend_process Examples.env0 (Examples.detected "G0" ["kill"]) (Examples.agent 0)
    = Examples.agent 0
  ∧ calls (Actions.memdump Examples.env0 Examples.os_ok
             (Examples.detected "G0" ["kill"]) (Examples.agent 0)).1 = [].
Proof.
  pose proof (self_pid_handlers_inert Examples.env0 Examples.os_ok (Examples.agent 0)
                (Examples.detected "G0" ["kill"])
                (Examples.track "C:/whids/whids.exe" 4 "G0" 0)
                eq_refl eq_refl) as (Hs & _ & _ & _ & _ & Hm).
  split; [reflexivity | split; [exact Hs | exact Hm]].
Defined.

(** ** The agent's own GUID *)

Lemma hookSelfGUID_frame (env : Env) (h : HIDS) (e : Event) :
  guid h ≠ "" → Hooks.hookSelfGUID env h e = h.
Proof.
  intros Hg. unfold Hooks.hookSelfGUID.
  by rewrite (bool_decide_eq_false_2 _ Hg).
Qed.

Lemma hookSelfGUID_run_frame (env : Env) (events : list Event) (h : HIDS) :
  guid h ≠ "" → foldl (Hooks.hookSelfGUID env) h events = h.
Proof.
  intros Hg. induction events as [| e events IH]; [done |].
  simpl. by rewrite hookSelfGUID_frame.
Qed.

Lemma guid_writes_set (env : Env) (events : list Event) (h : HIDS) :
  guid h ≠ "" → guid_writes env h events = 0%nat.
Proof.
  intros Hg. induction events as [| e events IH]; [done |].
  simpl. rewrite hookSelfGUID_frame by done.
  rewrite bool_decide_eq_true_2 by done. exact IH.
Qed.

Lemma guid_writes_le_1 (env : Env) (events : list Event) (h : HIDS) :
  (guid_writes env h events ≤ 1)%nat.
Proof.
  revert h. induction events as [| e events IH]; intros h; simpl; [lia |].
  case_bool_decide as Heq.
  - apply IH.
  - destruct (decide (guid h = "")) as [Hempty | Hset].
    + rewrite guid_writes_set; [lia |]. congruence.
    + rewrite hookSelfGUID_frame in Heq by done. done.
Qed.

(** The value written comes from the parent fields when the parent image is
    the agent's executable, and from the process fields otherwise. *)
Lemma hookSelfGUID_parent_first (env : Env) (h : HIDS) (e : Event) (pguid : string) :
  guid h = "" →
  EventID e = SysmonProcessCreate →
  GetString e pathSysmonParentImage = Some (selfPath env) →
  GetString e pathSysmonParentProcessGUID = Some pguid →
  guid (Hooks.hookSelfGUID env h e) = pguid.
Proof.
  intros Hg Hid Hpi Hpg. unfold Hooks.hookSelfGUID.
  rewrite !bool_decide_eq_true_2 by done.
  rewrite Hpi, bool_decide_eq_true_2 by done. by rewrite Hpg.
Qed.

(** C10. Along any run of events [hookSelfGUID] changes [h.guid] at most
    once; it changes it only when it is the empty string; and once it is not
    empty, no later event changes it (nor anything else of the state). *)
Theorem self_guid_assigned_once (env : Env) (h : HIDS) (e : Event)
    (events : list Event) :
  (guid_writes env h events ≤ 1)%nat
  ∧ (guid (Hooks.hookSelfGUID env h e) ≠ guid h → guid h = "")
  ∧ (guid h ≠ "" → foldl (Hooks.hookSelfGUID env) h events = h).
Proof.
  split; [apply guid_writes_le_1 |]. split.
  - intros Hchg. destruct (decide (guid h = "")) as [| Hset]; [done |].
    by rewrite hookSelfGUID_frame in Hchg.
  - apply hookSelfGUID_run_frame.
Qed.

Lemma self_guid_assigned_once_witness :
  guid (Examples.agent 0) ≠ ""
  ∧ foldl (Hooks.hookSelfGUID Examples.env0) (Examples.agent 0)
      [Examples.self_created "G7"; Examples.self_created "G8"] = Examples.agent 0.
Proof.
  assert (Hg : guid (Examples.agent 0) ≠ "") by (by vm_compute).
  split; [exact Hg |].
  exact (proj2 (proj2 (self_guid_assigned_once Examples.env0 (Examples.agent 0)
                         (Examples.self_created "G7")
                         [Examples.self_created "G7"; Examples.self_created "G8"])) Hg).
Defined.

(** ** Image-load enrichment *)

(** What [hookImageLoad] does: the signature fields of the track are written
    only when the [Image] field of the event is the image of the track. *)
Lemma hookImageLoad_other_image_frame (h : HIDS) (e : Event) (g : string)
    (track : ProcessTrack) :
  GetString e pathSysmonProcessGUID = Some g →
  GetByGuid h g = Some track →
  GetString e pathSysmonImage ≠ Some (Image track) →
  (Hooks.hookImageLoad h e).1 = h.
Proof.
  intros Hg Ht Hi. unfold Hooks.hookImageLoad.
  assert (Hget : ∀ p, p ≠ pathImageLoadParentImage → p ≠ pathImageLoadParentCommandLine →
            GetString (Set_ (Set_ e pathImageLoadParentImage "?")
                         pathImageLoadParentCommandLine "?") p = GetString e p).
  { intros p H1 H2. unfold GetString, Set_; simpl.
    by rewrite !lookup_insert_ne. }
  rewrite !Hget by done. rewrite Hg, Ht. simpl.
  assert (Hsame : with_tracker (<[g := track]> (tracker h)) h = h).
  { unfold with_tracker. rewrite insert_id by exact Ht. by destruct h. }
  destruct (GetString e pathSysmonImage) as [image |] eqn:Himg; [| done].
  by rewrite bool_decide_eq_false_2 by congruence.
Qed.

(** The event of a tracked process receives the parent image and the parent
    command line of the track, whatever its images are. *)
Lemma hookImageLoad_parent_fields (h : HIDS) (e : Event) (g : string)
    (track : ProcessTrack) :
  GetString e pathSysmonProcessGUID = Some g →
  GetByGuid h g = Some track →
  GetString (Hooks.hookImageLoad h e).2 pathImageLoadParentImage
    = Some (ParentImage track)
  ∧ GetString (Hooks.hookImageLoad h e).2 pathImageLoadParentCommandLine
    = Some (ParentCommandLine track).
Proof.
  intros Hg Ht. unfold Hooks.hookImageLoad.
  assert (Hget : ∀ p, p ≠ pathImageLoadParentImage → p ≠ pathImageLoadParentCommandLine →
            GetString (Set_ (Set_ e pathImageLoadParentImage "?")
                         pathImageLoadParentCommandLine "?") p = GetString e p).
  { intros p H1 H2. unfold GetString, Set_; simpl.
    by rewrite !lookup_insert_ne. }
  unfold GetBool. rewrite !Hget by done. rewrite Hg, Ht. simpl.
  set (t' := match GetString e pathSysmonImage with Some _ => _ | None => _ end).
  assert (Hp : ParentImage t' = ParentImage track
               ∧ ParentCommandLine t' = ParentCommandLine track).
  { subst t'. destruct (GetString e pathSysmonImage); [| done].
    case_bool_decide; [| done].
    by destruct (GetString e pathSysmonSigned ≫= ParseBool),
         (GetString e pathSysmonSignature),
         (GetString e pathSysmonSignatureStatus). }
  destruct Hp as [-> ->].
  unfold GetString, Set_; simpl. split.
  - rewrite lookup_insert_ne by done. by rewrite lookup_insert_eq.
  - by rewrite lookup_insert_eq.
Qed.

(** C9, evaluated on the event of a library loaded by a tracked process.
    The loaded image ([ImageLoaded]) is not the image of the track, yet the
    three signature fields of the track are replaced by those of the library:
    the test of [hookImageLoad] reads the [Image] field, which names the
    process.  The parent fields of the event are set from the track. *)
Theorem image_load_library_overwrites_signature :
  let h := Examples.agent 0 in
  let e := Examples.library_loaded in
  let sig := λ h : HIDS,
    (λ t, (Signed t, Signature t, SignatureStatus t)) <$> GetByGuid h "G1" in
  Image <$> GetByGuid h "G1" = Some "C:/app.exe"
  ∧ GetString e pathSysmonImageLoaded = Some "C:/Windows/System32/kernel32.dll"
  ∧ sig h = Some (false, "?", "?")
  ∧ sig (Hooks.hookImageLoad h e).1 = Some (true, "Microsoft Windows", "Valid")
  ∧ GetString (Hooks.hookImageLoad h e).2 pathImageLoadParentImage
      = Some "C:/explorer.exe".
Proof. by vm_compute. Qed.

(** ** The terminator *)

(** C7. On a process-creation event whose command line is in the blacklist
    and whose PID is not the agent's, [hookTerminator] issues exactly one
    call, the termination of the created process; and on no event does it
    issue a termination of the agent's own PID. *)
Theorem terminator_kills_blacklisted (env : Env) (os : OS) (h : HIDS) (e : Event) :
  (∀ cl pid,
     EventID e = SysmonProcessCreate →
     GetString e pathSysmonCommandLine = Some cl →
     GetInt e pathSysmonProcessId = Some pid →
     cl ∈ blacklisted h →
     pid ≠ getpid env →
     calls (Hooks.hookTerminator env os h e) = (calls h ++ [TerminateProcess pid])%list)
  ∧ (∃ l, calls (Hooks.hookTerminator env os h e) = (calls h ++ l)%list
          ∧ TerminateProcess (getpid env) ∉ l).
Proof.
  split.
  - intros cl pid Hid Hcl Hpid Hbl Hne. unfold Hooks.hookTerminator.
    rewrite bool_decide_eq_true_2 by done. rewrite Hcl, Hpid.
    unfold IsBlacklisted. rewrite bool_decide_eq_true_2 by done.
    unfold terminate. by rewrite bool_decide_eq_false_2.
  - unfold Hooks.hookTerminator.
    assert (Hnil : ∃ l, calls h = (calls h ++ l)%list
                        ∧ TerminateProcess (getpid env) ∉ l).
    { exists []. rewrite app_nil_r. split; [done | apply not_elem_of_nil]. }
    case_bool_decide; [| done].
    destruct (GetString e pathSysmonCommandLine) as [cl |]; [| done].
    destruct (GetInt e pathSysmonProcessId) as [pid |]; [| done].
    destruct (IsBlacklisted h cl); [| done].
    unfold terminate. case_bool_decide as Hself; [done |].
    exists [TerminateProcess pid]. split; [done |].
    rewrite list_elem_of_singleton. congruence.
Qed.

Lemma terminator_kills_blacklisted_witness :
  let h := Blacklist "evil.exe -x" (Examples.agent 0) in
  let e := Examples.created "77" "evil.exe -x" in
  GetInt e pathSysmonProcessId = Some 77
  ∧ "evil.exe -x" ∈ blacklisted h
  ∧ calls (Hooks.hookTerminator Examples.env0 Examples.os_ok h e) = [TerminateProcess 77].
Proof.
  assert (Hbl : "evil.exe -x" ∈ blacklisted (Blacklist "evil.exe -x" (Examples.agent 0))).
  { apply (bool_decide_unpack _). by vm_compute. }
  split; [reflexivity |]. split; [exact Hbl |].
  apply (proj1 (terminator_kills_blacklisted Examples.env0 Examples.os_ok
                  (Blacklist "evil.exe -x" (Examples.agent 0))
                  (Examples.created "77" "evil.exe -x")) "evil.exe -x" 77);
    [reflexivity | reflexivity | reflexivity | exact Hbl | by vm_compute].
Defined.

(** ** Which part of the state each function of [actions.go] touches *)

Lemma files_only_refl (h : HIDS) : files_only h h.
Proof. by repeat split. Qed.

Lemma files_only_trans (h1 h2 h3 : HIDS) :
  files_only h1 h2 → files_only h2 h3 → files_only h1 h3.
Proof.
  unfold files_only. intros (? & ? & ? & ? & ? & ?) (? & ? & ? & ? & ? & ?).
  repeat split; congruence.
Qed.

Lemma write_file_files_only (os : OS) (path c : string) (h : HIDS) :
  files_only h (write_file os path c h).1.
Proof. unfold write_file. destruct (write_ok os path); by repeat split. Qed.

Lemma writeReader_write_file (env : Env) (os : OS) (dst c : string) (h : HIDS) :
  Actions.writeReader env os dst c h
  = write_file os (written env dst c).1 (written env dst c).2 h.
Proof. reflexivity. Qed.

Lemma dumpAsJson_files_only (env : Env) (os : OS) (path : string) (i : option string)
    (h : HIDS) :
  files_only h (Actions.dumpAsJson env os path i h).1.
Proof.
  unfold Actions.dumpAsJson.
  destruct i; [rewrite writeReader_write_file; apply write_file_files_only
              | apply files_only_refl].
Qed.

Lemma dumpFile_files_only (env : Env) (os : OS) (src dst : string) (h : HIDS) :
  files_only h (Actions.dumpFile env os src dst h).1.
Proof.
  unfold Actions.dumpFile.
  destruct (negb (IsFile h src) || IsPipePath env src); [apply files_only_refl |].
  destruct (negb (mkdir_ok os (Dir env dst))); [apply files_only_refl |].
  destruct (file_Sha256 env os h src) as [sha |]; [| apply files_only_refl].
  pose proof (write_file_files_only os (dst +:+ ".sha256") sha h) as H1.
  set (h1 := (write_file os (dst +:+ ".sha256") sha h).1) in *.
  case_bool_decide; [done |].
  destruct (read_file os h1 src) as [f |]; [| done].
  rewrite writeReader_write_file.
  pose proof (write_file_files_only os (written env dst f).1 (written env dst f).2 h1)
    as H2.
  destruct (write_file os _ _ h1) as [h2 [err |]]; simpl in *.
  - by eapply files_only_trans.
  - eapply files_only_trans; [exact H1 |].
    eapply files_only_trans; [exact H2 |]. by repeat split.
Qed.

Lemma filedump_files_only (env : Env) (os : OS) (e : Event) (h : HIDS) :
  files_only h (Actions.filedump env os e h).
Proof.
  unfold Actions.filedump, Actions.dumpBinFile.
  generalize (Actions.filedumpSet env h e) as l. intros l.
  assert (Hgen : ∀ h', files_only h h' →
            files_only h
              (foldl (λ h'' filename,
                        (Actions.dumpFile env os filename
                           (Actions.prepare env e (Actions.dumpname env os filename)) h'').1)
                 h' l)).
  { induction l as [| f l IH]; intros h' Hh'; simpl; [done |].
    apply IH. eapply files_only_trans; [exact Hh' |]. apply dumpFile_files_only. }
  apply Hgen, files_only_refl.
Qed.

Lemma regdump_files_only (env : Env) (os : OS) (e : Event) (h : HIDS) :
  files_only h (Actions.regdump env os e h).
Proof.
  unfold Actions.regdump.
  destruct (_ && _); [| apply files_only_refl].
  destruct (GetString e pathSysmonTargetObject); [| apply files_only_refl].
  destruct (GetString e pathSysmonDetails); [| apply files_only_refl].
  case_bool_decide; [| apply files_only_refl].
  destruct (Split env _). rewrite writeReader_write_file. apply write_file_files_only.
Qed.

(** The track of an event depends on the store alone. *)
Lemma processTrackFromEvent_tracker (env : Env) (h h' : HIDS) (e : Event) :
  tracker h' = tracker h →
  processTrackFromEvent env h' e = processTrackFromEvent env h e.
Proof. intros Ht. unfold processTrackFromEvent, GetByGuid. by rewrite Ht. Qed.

Lemma memdump_effect (env : Env) (os : OS) (e : Event) (h : HIDS) (pt : ProcessTrack) :
  processTrackFromEvent env h e = Some pt →
  let g := srcGUIDFromEvent env e in
  let path := Actions.prepare env e (Actions.dumpFilename env os pt) in
  let h' := (Actions.memdump env os e h).1 in
  guid h' = guid h ∧ tracker h' = tracker h ∧ blacklisted h' = blacklisted h
  ∧ filedumped h' = filedumped h
  ∧ calls h' = (calls h ++ if memdump_runs env os e h pt
                           then [FullMemoryMiniDump (PID pt) path] else [])%list
  ∧ memdumped h' = (if memdump_runs env os e h pt && bool_decide (is_Some (minidump os (PID pt) path))
                    then {[g]} ∪ memdumped h else memdumped h)
  ∧ dumping h' = (if memdump_runs env os e h pt then ({[g]} ∪ dumping h) ∖ {[g]}
                  else dumping h).
Proof.
  intros Hpt g path h'. subst h'. unfold Actions.memdump. rewrite Hpt. cbv zeta.
  fold g. fold path. unfold memdump_runs. fold g.
  destruct (_ && _ && _ && _); simpl.
  - destruct (minidump os (PID pt) path) as [snap |]; simpl.
    + unfold compress. destruct (Dump_Compression env); simpl; by repeat split.
    + by repeat split.
  - rewrite app_nil_r. by repeat split.
Qed.

Lemma memdump_untracked (env : Env) (os : OS) (e : Event) (h : HIDS) :
  processTrackFromEvent env h e = None → (Actions.memdump env os e h).1 = h.
Proof. intros Hpt. unfold Actions.memdump. by rewrite Hpt. Qed.


Lemma suspend_process_effect (env : Env) (e : Event) (h : HIDS) :
  let h' := Actions.suspend_process env e h in
  guid h' = guid h ∧ tracker h' = tracker h ∧ blacklisted h' = blacklisted h
  ∧ memdumped h' = memdumped h ∧ dumping h' = dumping h
  ∧ calls h' = (calls h ++ match processTrackFromEvent env h e with
                            | Some pt => if bool_decide (PID pt ≠ getpid env)
                                         then [SuspendProcess (PID pt)] else []
                            | None => []
                            end)%list.
Proof.
  unfold Actions.suspend_process.
  destruct (processTrackFromEvent env h e) as [pt |]; simpl.
  - case_bool_decide; simpl; rewrite ?app_nil_r; by repeat split.
  - rewrite app_nil_r. by repeat split.
Qed.

Lemma kill_process_effect (env : Env) (os : OS) (e : Event) (h : HIDS) :
  let h' := (Actions.kill_process env os e h).1 in
  guid h' = guid h ∧ tracker h' = tracker h ∧ blacklisted h' = blacklisted h
  ∧ memdumped h' = memdumped h ∧ dumping h' = dumping h
  ∧ calls h' = (calls h ++ match processTrackFromEvent env h e with
                            | Some pt => if bool_decide (PID pt ≠ getpid env)
                                         then [TerminateProcess (PID pt)] else []
                            | None => []
                            end)%list.
Proof.
  unfold Actions.kill_process, Track_TerminateProcess, terminate.
  destruct (processTrackFromEvent env h e) as [pt |]; simpl.
  - case_bool_decide as Hne; simpl.
    + rewrite bool_decide_eq_false_2 by done.
      destruct (terminate_ok os (PID pt)); simpl; by repeat split.
    + rewrite app_nil_r. by repeat split.
  - rewrite app_nil_r. by repeat split.
Qed.

(** The state after the dumps of reports, files, registry values and of the
    event itself differs from the state after the kill in files only. *)
Lemma handle_tail_files_only (env : Env) (os : OS) (e : Event) (actions : list string)
    (h4 : HIDS) :
  let report := Actions.Contains actions ActionReport in
  let brief := Actions.Contains actions ActionBrief in
  let h5 :=
    if (report || brief) && Report_EnableReporting env then
      (Actions.dumpAsJson env os (Actions.prepare env e "report.json")
         (Report env h4 brief) h4).1
    else h4 in
  let h6 := if Actions.Contains actions ActionFiledump
            then Actions.filedump env os e h5 else h5 in
  let h7 := if Actions.Contains actions ActionRegdump
            then Actions.regdump env os e h6 else h6 in
  files_only h4
    (Actions.dumpAsJson env os (Actions.prepare env e "event.json") (ToJSON env e) h7).1.
Proof.
  intros report brief h5 h6 h7.
  assert (H5 : files_only h4 h5).
  { subst h5. destruct (_ && _); [apply dumpAsJson_files_only | apply files_only_refl]. }
  assert (H6 : files_only h5 h6).
  { subst h6. destruct (Actions.Contains actions ActionFiledump);
      [apply filedump_files_only | apply files_only_refl]. }
  assert (H7 : files_only h6 h7).
  { subst h7. destruct (Actions.Contains actions ActionRegdump);
      [apply regdump_files_only | apply files_only_refl]. }
  eapply files_only_trans; [exact H5 |].
  eapply files_only_trans; [exact H6 |].
  eapply files_only_trans; [exact H7 |]. apply dumpAsJson_files_only.
Qed.

(** The calls issued by the body of [HandleActions] for a tracked process
    that is not the agent, in order: the suspension when [kill] is asked,
    the snapshot when [memdump] is asked and its guard lets it run, the
    termination when [kill] is asked; with the blacklist and the set of
    dumped GUIDs afterwards. *)
Lemma handle_effect (env : Env) (os : OS) (e : Event) (actions : list string) (h : HIDS)
    (pt : ProcessTrack) :
  processTrackFromEvent env h e = Some pt →
  PID pt ≠ getpid env →
  let g := srcGUIDFromEvent env e in
  let path := Actions.prepare env e (Actions.dumpFilename env os pt) in
  let kill := Actions.Contains actions ActionKill in
  let dump := Actions.Contains actions ActionMemdump && memdump_runs env os e h pt in
  let h' := Actions.handle env os e actions h in
  calls h' = (calls h
              ++ (if kill then [SuspendProcess (PID pt)] else [])
              ++ (if dump then [FullMemoryMiniDump (PID pt) path] else [])
              ++ (if kill then [TerminateProcess (PID pt)] else []))%list
  ∧ blacklisted h' = (if Actions.Contains actions ActionBlacklist
                      then {[CommandLine pt]} ∪ blacklisted h else blacklisted h)
  ∧ memdumped h' = (if dump && bool_decide (is_Some (minidump os (PID pt) path))
                    then {[g]} ∪ memdumped h else memdumped h)
  ∧ tracker h' = tracker h.
Proof.
  intros Hpt Hne g path kill dump h'. subst h'. unfold Actions.handle.
  pose proof (handle_tail_files_only env os e actions) as Htail. cbv zeta in Htail.
  cbv zeta.
  set (h1 := if Actions.Contains actions ActionBlacklist then _ else h).
  set (h2 := if Actions.Contains actions ActionKill then _ else h1).
  set (h3 := if Actions.Contains actions ActionMemdump then _ else h2).
  set (h4 := if Actions.Contains actions ActionKill then _ else h3).
  destruct (Htail h4) as (_ & Ht & Hb & Hm & _ & Hc).
  rewrite Hc, Hb, Hm, Ht. clear Htail Hc Hb Hm Ht.
  (* blacklist *)
  assert (H1 : tracker h1 = tracker h ∧ calls h1 = calls h ∧ memdumped h1 = memdumped h
               ∧ dumping h1 = dumping h
               ∧ blacklisted h1 = (if Actions.Contains actions ActionBlacklist
                                   then {[CommandLine pt]} ∪ blacklisted h
                                   else blacklisted h)).
  { subst h1. destruct (Actions.Contains actions ActionBlacklist); [| done].
    rewrite Hpt. by rewrite bool_decide_eq_true_2. }
  destruct H1 as (Ht1 & Hc1 & Hm1 & Hd1 & Hb1).
  assert (Hpt1 : processTrackFromEvent env h1 e = Some pt).
  { by rewrite (processTrackFromEvent_tracker env h h1). }
  (* suspend *)
  assert (H2 : tracker h2 = tracker h ∧ memdumped h2 = memdumped h
               ∧ dumping h2 = dumping h ∧ blacklisted h2 = blacklisted h1
               ∧ calls h2 = (calls h ++ if kill then [SuspendProcess (PID pt)] else [])%list).
  { subst h2 kill. destruct (Actions.Contains actions ActionKill).
    - destruct (suspend_process_effect env e h1) as (_ & ? & ? & ? & ? & Hc).
      rewrite Hc, Hpt1. rewrite bool_decide_eq_true_2 by done.
      repeat split; congruence.
    - rewrite app_nil_r. repeat split; congruence. }
  destruct H2 as (Ht2 & Hm2 & Hd2 & Hb2 & Hc2).
  assert (Hpt2 : processTrackFromEvent env h2 e = Some pt).
  { by rewrite (processTrackFromEvent_tracker env h h2). }
  assert (Hruns : memdump_runs env os e h2 pt = memdump_runs env os e h pt).
  { unfold memdump_runs. by rewrite Hm2, Hd2. }
  (* memdump *)
  assert (H3 : tracker h3 = tracker h ∧ blacklisted h3 = blacklisted h1
               ∧ calls h3 = (calls h2 ++ if dump then [FullMemoryMiniDump (PID pt) path]
                                         else [])%list
               ∧ memdumped h3 = (if dump && bool_decide (is_Some (minidump os (PID pt) path))
                                 then {[g]} ∪ memdumped h else memdumped h)).
  { subst h3 dump. destruct (Actions.Contains actions ActionMemdump); simpl.
    - destruct (memdump_effect env os e h2 pt Hpt2) as (_ & ? & ? & _ & Hc & Hm & _).
      rewrite Hc, Hm, Hruns, Hm2. repeat split; congruence.
    - rewrite app_nil_r. repeat split; congruence. }
  destruct H3 as (Ht3 & Hb3 & Hc3 & Hm3).
  assert (Hpt3 : processTrackFromEvent env h3 e = Some pt).
  { by rewrite (processTrackFromEvent_tracker env h h3). }
  (* kill *)
  assert (H4 : tracker h4 = tracker h ∧ blacklisted h4 = blacklisted h1
               ∧ memdumped h4 = memdumped h3
               ∧ calls h4 = (calls h3 ++ if kill then [TerminateProcess (PID pt)] else [])%list).
  { subst h4 kill. destruct (Actions.Contains actions ActionKill).
    - destruct (kill_process_effect env os e h3) as (_ & ? & ? & ? & _ & Hc).
      rewrite Hc, Hpt3. rewrite bool_decide_eq_true_2 by done.
      repeat split; congruence.
    - rewrite app_nil_r. repeat split; congruence. }
  destruct H4 as (Ht4 & Hb4 & Hm4 & Hc4).
  rewrite Hc4, Hc3, Hc2, Hb4, Hb1, Hm4, Hm3, Ht4.
  rewrite <- !app_assoc. done.
Qed.

(** ** The dump budget *)



(** An accepted dump adds exactly one to the counter of the track; a refused
    one changes nothing. *)
Lemma CheckDumpCountOrInc_counts (g : string) (max : Z) (deflt : bool) (h : HIDS)
    (t : ProcessTrack) :
  tracker h !! g = Some t →
  let r := CheckDumpCountOrInc g max deflt h in
  if r.2
  then DumpCount <$> (tracker r.1 !! g) = Some (DumpCount t + 1) ∧ DumpCount t < max
  else r.1 = h ∧ max ≤ DumpCount t.
Proof.
  intros Ht. unfold CheckDumpCountOrInc, with_tracker. rewrite Ht.
  case_bool_decide; simpl.
  - by rewrite lookup_insert_eq.
  - split; [done | lia].
Qed.














(** ** Kill, suspend and blacklist behind the guard of [HandleActions] *)

Lemma CheckDumpCountOrInc_frame (g : string) (max : Z) (deflt : bool) (h : HIDS) :
  let h' := (CheckDumpCountOrInc g max deflt h).1 in
  guid h' = guid h ∧ blacklisted h' = blacklisted h ∧ memdumped h' = memdumped h
  ∧ dumping h' = dumping h ∧ filedumped h' = filedumped h
  ∧ compressionQueue h' = compressionQueue h ∧ disk h' = disk h ∧ calls h' = calls h.
Proof.
  unfold CheckDumpCountOrInc. destruct (tracker h !! g); [| done].
  by case_bool_decide.
Qed.

(** C6 as stated does not hold: with the dump budget of [G1] spent, a
    detection asking to kill and blacklist [G1] (PID 42, not the agent) goes
    through [HandleActions] without any call and without any change. *)
Lemma kill_refused_when_budget_spent :
  let h := Examples.agent 4 in
  let e := Examples.detected "G1" ["kill"; "blacklist"] in
  budget_spent Examples.env0 "G1" h
  ∧ Actions.HandleActions Examples.env0 Examples.os_ok e h = h
  ∧ ¬ kill_regardless_of_budget Examples.env0 Examples.os_ok e h.
Proof.
  intros h e. split; [| split].
  - exists (Examples.track "C:/app.exe" 42 "G1" 4). split; [reflexivity | by vm_compute].
  - reflexivity.
  - intros Hclaim.
    destruct (Hclaim ["kill"; "blacklist"] (Examples.track "C:/app.exe" 42 "G1" 4))
      as [Hs _]; [reflexivity | | reflexivity | by vm_compute |].
    + apply list_elem_of_here.
    + change (calls (Actions.HandleActions Examples.env0 Examples.os_ok e h))
        with (@nil Call) in Hs.
      by apply not_elem_of_nil in Hs.
Qed.

(** C6, amended.  When the guard of [HandleActions] passes (the dump-budget
    check accepts, the event is not the agent's, a detection is attached) and
    the target is a tracked process other than the agent, the call itself
    suspends and then terminates the target when [kill] is asked, and
    blacklists its command line when [blacklist] is asked.  When the budget
    check refuses, the call issues nothing and returns the state left by the
    check. *)
Theorem kill_blacklist_behind_guard (env : Env) (os : OS) (e : Event) (h : HIDS) :
  (∀ h0 actions pt,
     Actions.shouldDump env e h = (h0, true) →
     IsHIDSEvent env h0 e = false →
     detection e = Some actions →
     processTrackFromEvent env h0 e = Some pt →
     PID pt ≠ getpid env →
     let h' := Actions.HandleActions env os e h in
     (ActionKill ∈ actions →
        ∃ mid, calls h' = (calls h ++ [SuspendProcess (PID pt)] ++ mid
                           ++ [TerminateProcess (PID pt)])%list)
     ∧ (ActionBlacklist ∈ actions → CommandLine pt ∈ blacklisted h'))
  ∧ ((Actions.shouldDump env e h).2 = false →
       Actions.HandleActions env os e h = (Actions.shouldDump env e h).1
       ∧ calls (Actions.HandleActions env os e h) = calls h
       ∧ blacklisted (Actions.HandleActions env os e h) = blacklisted h).
Proof.
  split.
  - intros h0 actions pt Hsd Hh Hdet Hpt Hne h'. subst h'.
    unfold Actions.HandleActions. rewrite Hsd, Hh, Hdet. simpl.
    destruct (handle_effect env os e actions h0 pt Hpt Hne) as (Hc & Hb & _).
    assert (Hc0 : calls h0 = calls h).
    { pose proof (CheckDumpCountOrInc_frame (srcGUIDFromEvent env e) (Dump_MaxDumps env)
                    (Dump_DumpUntracked env) h) as Hf.
      unfold Actions.shouldDump in Hsd. rewrite Hsd in Hf. simpl in Hf.
      by destruct Hf as (_ & _ & _ & _ & _ & _ & _ & ?). }
    split.
    + intros Hk. rewrite Hc, Hc0. unfold Actions.Contains.
      rewrite (bool_decide_eq_true_2 _ Hk). eauto.
    + intros Hbl. rewrite Hb. unfold Actions.Contains.
      rewrite (bool_decide_eq_true_2 _ Hbl).
      apply elem_of_union. left. by apply elem_of_singleton.
  - intros Hsd. unfold Actions.HandleActions.
    pose proof (CheckDumpCountOrInc_frame (srcGUIDFromEvent env e) (Dump_MaxDumps env)
                  (Dump_DumpUntracked env) h) as Hf.
    unfold Actions.shouldDump in *.
    destruct (CheckDumpCountOrInc _ _ _ h) as [h0 ok]. simpl in *. subst ok. simpl.
    by destruct Hf as (_ & ? & _ & _ & _ & _ & _ & ?).
Qed.

Lemma kill_blacklist_behind_guard_witness :
  let h := Examples.agent 0 in
  let e := Examples.detected "G1" ["kill"; "blacklist"] in
  let h' := Actions.HandleActions Examples.env0 Examples.os_ok e h in
  (Actions.shouldDump Examples.env0 e h).2 = true
  ∧ (∃ mid, calls h' = ([] ++ [SuspendProcess 42] ++ mid ++ [TerminateProcess 42])%list)
  ∧ "C:/app.exe -x" ∈ blacklisted h'.
Proof.
  intros h e h'.
  pose proof (proj1 (kill_blacklist_behind_guard Examples.env0 Examples.os_ok e h)
                (Actions.shouldDump Examples.env0 e h).1
                ["kill"; "blacklist"]
                (Examples.track "C:/app.exe" 42 "G1" 1)
                eq_refl eq_refl eq_refl eq_refl) as Hw.
  assert (Hne : 42 ≠ 4) by done.
  destruct (Hw Hne) as [Hk Hb].
  split; [reflexivity |]. split.
  - apply Hk. apply list_elem_of_here.
  - apply Hb. apply list_elem_of_further, list_elem_of_here.
Defined.

(** ** Kill ordering *)

(** C1 as stated does not hold for [HandleActions]: when the snapshot fails,
    the target is terminated right after the failed attempt, with the marker
    unset and without any wait. *)
Lemma kill_after_failed_dump :
  let h := Examples.agent 0 in
  let e := Examples.detected "G1" ["kill"; "memdump"] in
  let h' := Actions.HandleActions Examples.env0 Examples.os_nodump e h in
  calls h' = [SuspendProcess 42;
              FullMemoryMiniDump 42 "dumps/G1/e1/C:/app.exe_42_1000.dmp";
              TerminateProcess 42]
  ∧ ("G1" ∉ memdumped h')
  ∧ ¬ kill_waited_for_dump "G1" 42 h'.
Proof.
  intros h e h'.
  assert (Hc : calls h' = [SuspendProcess 42;
              FullMemoryMiniDump 42 "dumps/G1/e1/C:/app.exe_42_1000.dmp";
              TerminateProcess 42]) by reflexivity.
  assert (Hm : "G1" ∉ memdumped h').
  { apply (bool_decide_unpack _). by vm_compute. }
  split; [exact Hc |]. split; [exact Hm |].
  intros Hclaim. destruct Hclaim as [Hin | Hwait].
  - rewrite Hc. do 2 apply list_elem_of_further. apply list_elem_of_here.
  - exact (Hm Hin).
  - rewrite Hc in Hwait. vm_compute in Hwait. lia.
Qed.

(** The waiting loop of [KillAfterDump]: it sleeps [n] times, [n] at most
    the bound; the marker was not seen at the polls before, and either the
    bound is reached or the marker is seen at poll [n]. *)
Lemma wait_memdumped_effect (seen : nat → bool) (fuel i : nat) (h : HIDS) :
  ∃ n, (n ≤ fuel)%nat
       ∧ wait_memdumped_calls h n = Hooks.wait_memdumped seen fuel i h
       ∧ (∀ j, (j < n)%nat → seen (i + j)%nat = false)
       ∧ (n = fuel ∨ seen (i + n)%nat = true).
Proof.
  revert i h. induction fuel as [| fuel IH]; intros i h; simpl.
  - exists 0%nat. repeat split; [lia | intros; lia | by left].
  - destruct (seen i) eqn:Hs.
    + exists 0%nat. repeat split; [lia | intros; lia |].
      right. by rewrite Nat.add_0_r.
    + destruct (IH (S i) (call (Sleep 1) h)) as (n & Hn & Heq & Hbefore & Hend).
      exists (S n). split; [lia |]. split; [exact Heq |]. split.
      * intros [| j] Hj; [by rewrite Nat.add_0_r |].
        replace (i + S j)%nat with (S i + j)%nat by lia. apply Hbefore. lia.
      * destruct Hend as [-> | Hend]; [by left | right].
        by replace (i + S n)%nat with (S i + n)%nat by lia.
Qed.

Lemma wait_memdumped_calls_log (n : nat) (h : HIDS) :
  calls (wait_memdumped_calls h n) = (calls h ++ replicate n (Sleep 1))%list
  ∧ memdumped (wait_memdumped_calls h n) = memdumped h
  ∧ tracker (wait_memdumped_calls h n) = tracker h.
Proof.
  revert h. induction n as [| n IH]; intros h; simpl.
  - by rewrite app_nil_r.
  - destruct (IH (call (Sleep 1) h)) as (-> & -> & ->). simpl.
    by rewrite <- app_assoc.
Qed.

(** The routine [KillAfterDump] sleeps [n] times and then terminates the
    process of the track: [n] is at most 60, the marker was absent at every
    poll before the [n]-th, and either 60 polls have gone by or the marker is
    present at the [n]-th. *)
Lemma killAfterDump_effect (env : Env) (os : OS) (seen : nat → bool) (pt : ProcessTrack)
    (h : HIDS) :
  PID pt ≠ getpid env →
  ∃ n, (n ≤ 60)%nat
       ∧ calls (Hooks.killAfterDump env os seen pt h)
         = (calls h ++ replicate n (Sleep 1) ++ [TerminateProcess (PID pt)])%list
       ∧ (∀ j, (j < n)%nat → seen j = false)
       ∧ (n = 60%nat ∨ seen n = true).
Proof.
  intros Hne. unfold Hooks.killAfterDump, Track_TerminateProcess, terminate.
  destruct (wait_memdumped_effect seen 60 0 h) as (n & Hn & <- & Hbefore & Hend).
  exists n. split; [exact Hn |]. rewrite bool_decide_eq_false_2 by done. simpl.
  destruct (wait_memdumped_calls_log n h) as (-> & _). split; [| split].
  - by rewrite <- app_assoc.
  - exact Hbefore.
  - exact Hend.
Qed.

(** The loop of [hookHandleActions] over the actions, for a tracked process
    that is not the agent: one suspension for each [kill] met, no other
    call, and the two flags telling whether [kill] and [memdump] were met. *)
Lemma handle_actions_loop (env : Env) (e : Event) (pt : ProcessTrack)
    (actions : list string) (st : Hooks.LoopState) :
  processTrackFromEvent env (Hooks.l_hids st) e = Some pt →
  PID pt ≠ getpid env →
  let st' := foldl (Hooks.handle_action env e) st actions in
  tracker (Hooks.l_hids st') = tracker (Hooks.l_hids st)
  ∧ memdumped (Hooks.l_hids st') = memdumped (Hooks.l_hids st)
  ∧ calls (Hooks.l_hids st')
    = (calls (Hooks.l_hids st)
       ++ replicate (length (filter (λ a, a = ActionKill) actions))
            (SuspendProcess (PID pt)))%list
  ∧ Hooks.l_kill st' = Hooks.l_kill st || bool_decide (ActionKill ∈ actions)
  ∧ Hooks.l_memdump st' = Hooks.l_memdump st || bool_decide (ActionMemdump ∈ actions)
  ∧ ∃ more, Hooks.l_spawned st' = (Hooks.l_spawned st ++ more)%list
            ∧ ∀ pt', Hooks.KillAfterDump pt' ∉ more.
Proof.
  revert st. induction actions as [| a actions IH]; intros st Hpt Hne; simpl.
  - rewrite app_nil_r, !orb_false_r. repeat (split; [done |]).
    exists []. rewrite app_nil_r. split; [done |]. intros pt'. apply not_elem_of_nil.
  - set (st1 := Hooks.handle_action env e st a).
    assert (H1 : tracker (Hooks.l_hids st1) = tracker (Hooks.l_hids st)
                 ∧ memdumped (Hooks.l_hids st1) = memdumped (Hooks.l_hids st)
                 ∧ calls (Hooks.l_hids st1)
                   = (calls (Hooks.l_hids st)
                      ++ if bool_decide (a = ActionKill)
                         then [SuspendProcess (PID pt)] else [])%list
                 ∧ Hooks.l_kill st1 = Hooks.l_kill st || bool_decide (a = ActionKill)
                 ∧ Hooks.l_memdump st1
                   = Hooks.l_memdump st || bool_decide (a = ActionMemdump)
                 ∧ ∃ more, Hooks.l_spawned st1 = (Hooks.l_spawned st ++ more)%list
                           ∧ ∀ pt', Hooks.KillAfterDump pt' ∉ more).
    { clear IH. subst st1. unfold Hooks.handle_action. rewrite Hpt.
      rewrite (bool_decide_eq_true_2 (PID pt ≠ getpid env)) by done.
      assert (Hnone : ∀ l : list Hooks.Task, ∃ more, l = (l ++ more)%list
                        ∧ ∀ pt', Hooks.KillAfterDump pt' ∉ more).
      { intros l. exists []. rewrite app_nil_r. split; [done |].
        intros pt'. apply not_elem_of_nil. }
      assert (Hone : ∀ (l : list Hooks.Task) t, (∀ pt', t ≠ Hooks.KillAfterDump pt') →
                ∃ more, (l ++ [t])%list = (l ++ more)%list
                        ∧ ∀ pt', Hooks.KillAfterDump pt' ∉ more).
      { intros l t Ht. exists [t]. split; [done |]. intros pt'.
        rewrite list_elem_of_singleton. intros Heq. by apply (Ht pt'). }
      destruct (decide (a = ActionKill)) as [-> | Hk].
      { simpl. rewrite orb_true_r, orb_false_r. repeat (split; [done |]). apply Hnone. }
      rewrite (bool_decide_eq_false_2 (a = ActionKill)) by done.
      rewrite app_nil_r, orb_false_r.
      destruct (decide (a = ActionBlacklist)) as [-> | Hb].
      { simpl. rewrite orb_false_r. repeat (split; [done |]). apply Hnone. }
      rewrite (bool_decide_eq_false_2 (a = ActionBlacklist)) by done.
      destruct (decide (a = ActionMemdump)) as [-> | Hm].
      { simpl. rewrite orb_true_r. repeat (split; [done |]). by apply Hone. }
      rewrite !(bool_decide_eq_false_2 (a = ActionMemdump)) by done.
      rewrite orb_false_r.
      case_bool_decide; [simpl; repeat (split; [done |]); by apply Hone |].
      case_bool_decide; [simpl; repeat (split; [done |]); by apply Hone |].
      case_bool_decide; [simpl; repeat (split; [done |]); by apply Hone |].
      repeat (split; [done |]). apply Hnone. }
    destruct H1 as (Ht1 & Hm1 & Hc1 & Hk1 & Hd1 & more1 & Hs1 & Hn1).
    destruct (IH st1) as (Ht & Hm & Hc & Hk & Hd & more & Hs & Hn);
      [by rewrite (processTrackFromEvent_tracker env (Hooks.l_hids st)) | done |].
    rewrite Ht, Hm, Hc, Hk, Hd, Hs, Ht1, Hm1, Hc1, Hk1, Hd1, Hs1.
    split; [done |]. split; [done |]. split; [| split; [| split]].
    + rewrite <- app_assoc. f_equal. rewrite filter_cons.
      destruct (decide (a = ActionKill)) as [-> | Hk'].
      * by rewrite bool_decide_eq_true_2.
      * by rewrite bool_decide_eq_false_2.
    + rewrite <- orb_assoc. f_equal.
      destruct (decide (a = ActionKill)) as [-> | Hk'].
      * rewrite (bool_decide_eq_true_2 (ActionKill = ActionKill)) by done.
        by rewrite (bool_decide_eq_true_2 (ActionKill ∈ ActionKill :: actions))
          by apply list_elem_of_here.
      * rewrite (bool_decide_eq_false_2 (a = ActionKill)) by done. simpl.
        apply bool_decide_ext. rewrite elem_of_cons.
        split; [by right | by intros [<- | ?]].
    + rewrite <- orb_assoc. f_equal.
      destruct (decide (a = ActionMemdump)) as [-> | Hm'].
      * rewrite (bool_decide_eq_true_2 (ActionMemdump = ActionMemdump)) by done.
        by rewrite (bool_decide_eq_true_2 (ActionMemdump ∈ ActionMemdump :: actions))
          by apply list_elem_of_here.
      * rewrite (bool_decide_eq_false_2 (a = ActionMemdump)) by done. simpl.
        apply bool_decide_ext. rewrite elem_of_cons.
        split; [by right | by intros [<- | ?]].
    + exists (more1 ++ more)%list. rewrite <- app_assoc. split; [done |].
      intros pt'. rewrite elem_of_app. intros [? | ?]; [by eapply Hn1 | by eapply Hn].
Qed.

Lemma filter_eq_length_pos (x : string) (l : list string) :
  x ∈ l → (1 ≤ length (filter (λ a, a = x) l))%nat.
Proof.
  induction l as [| a l IH]; [by intros ?%not_elem_of_nil |].
  rewrite elem_of_cons, filter_cons. intros [-> | Hin].
  - rewrite decide_True by done. simpl. lia.
  - destruct (decide (a = x)); simpl; [lia | by apply IH].
Qed.

(** C1, amended.  For a detection asking both [kill] and [memdump] on a
    tracked process other than the agent:
    - [HandleActions], once its guard has passed, issues the suspension,
      then the snapshot when the guard of [memdump] lets it run, then the
      termination, in this order and nothing else; the termination follows
      the return of the dump attempt whatever its outcome, and the marker of
      the GUID is set at that point exactly when it was set before or the
      snapshot succeeded;
    - [hookHandleActions] itself only suspends (once for each [kill] of the
      action list) and leaves the termination to the routine it starts last;
      that routine sleeps one second at a time while the marker is absent, at
      most 60 times, and then terminates the process. *)
Theorem kill_after_suspend_and_dump (env : Env) (os : OS) (e : Event) (h : HIDS) :
  (∀ h0 actions pt,
     Actions.shouldDump env e h = (h0, true) →
     IsHIDSEvent env h0 e = false →
     detection e = Some actions →
     ActionKill ∈ actions → ActionMemdump ∈ actions →
     processTrackFromEvent env h0 e = Some pt →
     PID pt ≠ getpid env →
     let g := srcGUIDFromEvent env e in
     let path := Actions.prepare env e (Actions.dumpFilename env os pt) in
     let attempt := memdump_runs env os e h pt in
     let h' := Actions.HandleActions env os e h in
     calls h' = (calls h ++ [SuspendProcess (PID pt)]
                 ++ (if attempt then [FullMemoryMiniDump (PID pt) path] else [])
                 ++ [TerminateProcess (PID pt)])%list
     ∧ (g ∈ memdumped h'
        ↔ g ∈ memdumped h ∨ (attempt = true ∧ is_Some (minidump os (PID pt) path))))
  ∧ (∀ actions pt,
       IsHIDSEvent env h e = false →
       srcGUIDFromEvent env e ≠ nullGUID →
       detection e = Some actions →
       ActionKill ∈ actions → ActionMemdump ∈ actions →
       processTrackFromEvent env h e = Some pt →
       PID pt ≠ getpid env →
       let r := Hooks.hookHandleActions env os h e in
       (∃ k, (1 ≤ k)%nat
             ∧ calls r.1 = (calls h ++ replicate k (SuspendProcess (PID pt)))%list)
       ∧ (∃ dumps, r.2 = (dumps ++ [Hooks.KillAfterDump pt])%list
                   ∧ ∀ pt', Hooks.KillAfterDump pt' ∉ dumps)
       ∧ ∀ os' seen h2,
           ∃ n, (n ≤ 60)%nat
                ∧ calls (Hooks.killAfterDump env os' seen pt h2)
                  = (calls h2 ++ replicate n (Sleep 1)
                     ++ [TerminateProcess (PID pt)])%list
                ∧ (∀ j, (j < n)%nat → seen j = false)
                ∧ (n = 60%nat ∨ seen n = true)).
Proof.
  split.
  - intros h0 actions pt Hsd Hh Hdet Hk Hm Hpt Hne g path attempt h'. subst h'.
    unfold Actions.HandleActions. rewrite Hsd, Hh, Hdet. simpl.
    destruct (handle_effect env os e actions h0 pt Hpt Hne) as (Hc & _ & Hmd & _).
    pose proof (CheckDumpCountOrInc_frame (srcGUIDFromEvent env e) (Dump_MaxDumps env)
                  (Dump_DumpUntracked env) h) as Hf.
    unfold Actions.shouldDump in Hsd. rewrite Hsd in Hf. simpl in Hf.
    destruct Hf as (_ & _ & Hm0 & Hd0 & _ & _ & _ & Hc0).
    assert (Hruns : memdump_runs env os e h0 pt = attempt).
    { subst attempt. unfold memdump_runs. by rewrite Hm0, Hd0. }
    unfold Actions.Contains in Hc, Hmd.
    rewrite (bool_decide_eq_true_2 _ Hk), (bool_decide_eq_true_2 _ Hm) in Hc.
    rewrite (bool_decide_eq_true_2 _ Hm) in Hmd. simpl in Hc, Hmd.
    rewrite Hruns, Hc0 in Hc. rewrite Hruns, Hm0 in Hmd.
    split; [exact Hc |]. rewrite Hmd. fold g. fold path.
    destruct attempt; simpl.
    + destruct (minidump os (PID pt) path) as [snap |] eqn:Hsnap.
      * rewrite bool_decide_eq_true_2 by eauto. split.
        -- intros _. right. eauto.
        -- intros _. apply elem_of_union. left. by apply elem_of_singleton.
      * rewrite bool_decide_eq_false_2 by (by intros [? ?]). split.
        -- by left.
        -- by intros [? | [_ [? ?]]].
    + split; [by left | by intros [? | [? _]]].
  - intros actions pt Hh Hg Hdet Hk Hm Hpt Hne r. subst r.
    unfold Hooks.hookHandleActions. rewrite Hh, Hdet.
    rewrite (bool_decide_eq_true_2 _ Hg).
    destruct (handle_actions_loop env e pt actions (Hooks.mkLoop h false false [])
                Hpt Hne) as (Ht & _ & Hc & Hkill & Hmem & more & Hs & Hnk).
    simpl in Ht, Hc, Hkill, Hmem, Hs.
    rewrite (bool_decide_eq_true_2 _ Hk) in Hkill.
    rewrite (bool_decide_eq_true_2 _ Hm) in Hmem.
    rewrite Hkill, Hmem.
    rewrite (processTrackFromEvent_tracker env h) by exact Ht. rewrite Hpt.
    rewrite (bool_decide_eq_true_2 _ Hne). simpl. split; [| split].
    + eexists. split; [| exact Hc]. by apply filter_eq_length_pos.
    + exists more. by rewrite Hs.
    + intros os' seen h2. by apply killAfterDump_effect.
Qed.

Lemma kill_after_suspend_and_dump_witness :
  let h := Examples.agent 0 in
  let e := Examples.detected "G1" ["kill"; "memdump"] in
  let h' := Actions.HandleActions Examples.env0 Examples.os_ok e h in
  (Actions.shouldDump Examples.env0 e h).2 = true
  ∧ calls h' = [SuspendProcess 42;
                FullMemoryMiniDump 42 "dumps/G1/e1/C:/app.exe_42_1000.dmp";
                TerminateProcess 42]
  ∧ ("G1" ∈ memdumped h' ↔
     "G1" ∈ memdumped h
     ∨ (true = true
        ∧ is_Some (minidump Examples.os_ok 42 "dumps/G1/e1/C:/app.exe_42_1000.dmp"))).
Proof.
  intros h e h'.
  assert (Hk : ActionKill ∈ ["kill"; "memdump"]) by apply list_elem_of_here.
  assert (Hm : ActionMemdump ∈ ["kill"; "memdump"]).
  { apply list_elem_of_further, list_elem_of_here. }
  assert (Hne : 42 ≠ 4) by done.
  pose proof (proj1 (kill_after_suspend_and_dump Examples.env0 Examples.os_ok e h)
                (Actions.shouldDump Examples.env0 e h).1
                ["kill"; "memdump"]
                (Examples.track "C:/app.exe" 42 "G1" 1)
                eq_refl eq_refl eq_refl Hk Hm eq_refl Hne) as Hw.
  split; [reflexivity |]. exact Hw.
Defined.

(** ** File dumps are deduplicated by content *)

Lemma append_ne_self (s t : string) : t ≠ "" → s ≠ s +:+ t.
Proof.
  intros Ht. induction s as [| c s IH]; simpl.
  - intros Heq. by apply Ht.
  - intros [= Heq]. by apply IH.
Qed.

Lemma file_Sha256_IsFile (env : Env) (os : OS) (h : HIDS) (src sha : string) :
  file_Sha256 env os h src = Some sha → IsFile h src = true.
Proof.
  unfold file_Sha256, IsFile. destruct (disk h !! src); [| done].
  intros _. by apply bool_decide_eq_true_2.
Qed.

(** A file whose digest is already in the set of dumped hashes: the sidecar
    is written, nothing else changes and no error is returned. *)
Lemma dumpFile_known_hash (env : Env) (os : OS) (src dst sha : string) (h : HIDS) :
  IsPipePath env src = false →
  mkdir_ok os (Dir env dst) = true →
  file_Sha256 env os h src = Some sha →
  sha ∈ filedumped h →
  Actions.dumpFile env os src dst h = ((write_file os (dst +:+ ".sha256") sha h).1, None).
Proof.
  intros Hp Hm Hs Hin. unfold Actions.dumpFile.
  rewrite (file_Sha256_IsFile env os h src sha Hs), Hp, Hm, Hs. simpl.
  assert (Hf : filedumped (write_file os (dst +:+ ".sha256") sha h).1 = filedumped h).
  { unfold write_file. by destruct (write_ok os _). }
  by rewrite bool_decide_eq_true_2 by (by rewrite Hf).
Qed.

(** A request on a regular file that can be hashed, ending without error:
    the sidecar holds the digest and the digest is in the set of dumped
    hashes; if the digest was new, the file that [writeReader] makes of the
    body of the source is stored. *)
Lemma dumpFile_success (env : Env) (os : OS) (src dst sha : string) (h : HIDS) :
  IsPipePath env src = false →
  mkdir_ok os (Dir env dst) = true →
  file_Sha256 env os h src = Some sha →
  write_ok os (dst +:+ ".sha256") = true →
  (∀ f, (written env dst f).1 ≠ dst +:+ ".sha256") →
  let r := Actions.dumpFile env os src dst h in
  r.2 = None →
  disk r.1 !! (dst +:+ ".sha256") = Some sha
  ∧ sha ∈ filedumped r.1
  ∧ (sha ∉ filedumped h → src ≠ dst +:+ ".sha256" →
       ∃ f, disk h !! src = Some f
            ∧ disk r.1 !! (written env dst f).1 = Some (written env dst f).2).
Proof.
  intros Hp Hm Hs Hw Hsep. unfold Actions.dumpFile.
  rewrite (file_Sha256_IsFile env os h src sha Hs), Hp, Hm, Hs. simpl.
  assert (Hwf : (write_file os (dst +:+ ".sha256") sha h).1
                = with_disk (<[dst +:+ ".sha256" := sha]> (disk h)) h).
  { unfold write_file. by rewrite Hw. }
  rewrite Hwf. clear Hwf.
  set (h1 := with_disk (<[dst +:+ ".sha256" := sha]> (disk h)) h).
  assert (Hside : disk h1 !! (dst +:+ ".sha256") = Some sha)
    by (simpl; apply lookup_insert_eq).
  case_bool_decide as Hin; simpl.
  - intros _. split; [done |]. split; [done |]. intros Hn. by destruct Hn.
  - unfold read_file. destruct (open_ok os src); [| done].
    destruct (disk h1 !! src) as [f |] eqn:Hf; [| done].
    rewrite writeReader_write_file.
    unfold write_file. destruct (write_ok os (written env dst f).1); [| done].
    simpl. intros _.
    split; [| split].
    + rewrite lookup_insert_ne by apply Hsep. exact Hside.
    + apply elem_of_union. left. by apply elem_of_singleton.
    + intros _ Hne. exists f. split; [| apply lookup_insert_eq].
      subst h1. simpl in Hf. by rewrite lookup_insert_ne in Hf.
Qed.

(** C5. Two requests of [dumpFile] on regular files with the same digest,
    the first ending without error, where the file written for a body is not
    the sidecar: each writes its sidecar with the digest; the digest is in
    the set of dumped hashes after the first; the second returns no error,
    leaves the set as it is and changes no file but its own sidecar.  The
    body stored by the first request, for a digest that was new, is the file
    that [utils.HidsWriteReader] makes of the content of the source under
    the configured compression flag. *)
Theorem file_body_dumped_once (env : Env) (os1 os2 : OS) (src1 dst1 src2 dst2 sha : string)
    (h : HIDS) :
  let r1 := Actions.dumpFile env os1 src1 dst1 h in
  let r2 := Actions.dumpFile env os2 src2 dst2 r1.1 in
  IsPipePath env src1 = false →
  mkdir_ok os1 (Dir env dst1) = true →
  file_Sha256 env os1 h src1 = Some sha →
  write_ok os1 (dst1 +:+ ".sha256") = true →
  (∀ f, (written env dst1 f).1 ≠ dst1 +:+ ".sha256") →
  r1.2 = None →
  IsPipePath env src2 = false →
  mkdir_ok os2 (Dir env dst2) = true →
  file_Sha256 env os2 r1.1 src2 = Some sha →
  write_ok os2 (dst2 +:+ ".sha256") = true →
  disk r1.1 !! (dst1 +:+ ".sha256") = Some sha
  ∧ disk r2.1 !! (dst2 +:+ ".sha256") = Some sha
  ∧ disk r2.1 !! (dst1 +:+ ".sha256") = Some sha
  ∧ sha ∈ filedumped r1.1
  ∧ r2.2 = None
  ∧ filedumped r2.1 = filedumped r1.1
  ∧ (∀ p, p ≠ dst2 +:+ ".sha256" → disk r2.1 !! p = disk r1.1 !! p)
  ∧ (sha ∉ filedumped h → src1 ≠ dst1 +:+ ".sha256" →
       ∃ f, disk h !! src1 = Some f
            ∧ disk r1.1 !! (written env dst1 f).1 = Some (written env dst1 f).2).
Proof.
  intros r1 r2 Hp1 Hm1 Hs1 Hw1 Hsep Hr1 Hp2 Hm2 Hs2 Hw2.
  destruct (dumpFile_success env os1 src1 dst1 sha h Hp1 Hm1 Hs1 Hw1 Hsep Hr1)
    as (Hside1 & Hin & Hbody).
  fold r1 in Hside1, Hin, Hbody.
  assert (Hr2 : r2 = ((write_file os2 (dst2 +:+ ".sha256") sha r1.1).1, None)).
  { subst r2. by apply dumpFile_known_hash. }
  rewrite Hr2. unfold write_file. rewrite Hw2. simpl.
  split; [done |]. split; [apply lookup_insert_eq |]. split.
  { destruct (decide (dst2 +:+ ".sha256" = dst1 +:+ ".sha256")) as [-> | Hne].
    - apply lookup_insert_eq.
    - by rewrite lookup_insert_ne. }
  split; [done |]. split; [done |]. split; [done |]. split; [| done].
  intros p Hne. by rewrite lookup_insert_ne.
Qed.

Lemma file_body_dumped_once_witness :
  let h := Examples.agent_with_files in
  let r1 := Actions.dumpFile Examples.env_gz Examples.os_ok "C:/a.exe" "d/1_a.exe.bin" h in
  let r2 := Actions.dumpFile Examples.env_gz Examples.os_ok "C:/tmp/copy.exe"
              "d/2_copy.exe.bin" r1.1 in
  file_Sha256 Examples.env_gz Examples.os_ok h "C:/a.exe" = Some "sha256:MZ-payload"
  ∧ file_Sha256 Examples.env_gz Examples.os_ok r1.1 "C:/tmp/copy.exe"
    = Some "sha256:MZ-payload"
  ∧ disk r2.1 !! "d/1_a.exe.bin.sha256" = Some "sha256:MZ-payload"
  ∧ disk r2.1 !! "d/2_copy.exe.bin.sha256" = Some "sha256:MZ-payload"
  ∧ (∃ f, disk h !! "C:/a.exe" = Some f
          ∧ disk r1.1 !! (written Examples.env_gz "d/1_a.exe.bin" f).1
            = Some (written Examples.env_gz "d/1_a.exe.bin" f).2)
  ∧ disk r2.1 !! "d/1_a.exe.bin.gz" = Some "gzip(MZ-payload)"
  ∧ disk r2.1 !! "d/2_copy.exe.bin.gz" = None
  ∧ disk r2.1 !! "d/2_copy.exe.bin" = None
  ∧ r2.2 = None.
Proof.
  intros h r1 r2.
  assert (Hsep : ∀ f, (written Examples.env_gz "d/1_a.exe.bin" f).1
                      ≠ "d/1_a.exe.bin" +:+ ".sha256") by (intros f; discriminate).
  assert (Hnew : "sha256:MZ-payload" ∉ filedumped h) by apply not_elem_of_empty.
  assert (Hne : "C:/a.exe" ≠ "d/1_a.exe.bin" +:+ ".sha256") by discriminate.
  pose proof (file_body_dumped_once Examples.env_gz Examples.os_ok Examples.os_ok
                "C:/a.exe" "d/1_a.exe.bin" "C:/tmp/copy.exe" "d/2_copy.exe.bin"
                "sha256:MZ-payload" h
                eq_refl eq_refl eq_refl eq_refl Hsep eq_refl eq_refl eq_refl eq_refl
                eq_refl)
    as (_ & Hs2 & Hs1 & _ & Hr2 & _ & _ & Hbody).
  split; [reflexivity |]. split; [reflexivity |].
  split; [exact Hs1 |]. split; [exact Hs2 |].
  split; [exact (Hbody Hnew Hne) |].
  split; [reflexivity |]. split; [reflexivity |]. split; [reflexivity |]. exact Hr2.
Defined.

(** The same holds for [dumpFileAndCompress] of [hookdefs.go]: for a digest
    already dumped the sidecar is written and the file is not copied. *)
Lemma dumpFileAndCompress_known_hash (env : Env) (os : OS) (src path sha : string)
    (h : HIDS) :
  file_Sha256 env os h src = Some sha →
  sha ∈ filedumped h →
  let dst := Join env [path; pretty (UnixNano os) +:+ "_"
                             +:+ replace_colons (Base env src) +:+ ".bin"] in
  Hooks.dumpFileAndCompress env os src path h
  = ((write_file os (dst +:+ ".sha256") sha h).1, None).
Proof.
  intros Hs Hin dst. unfold Hooks.dumpFileAndCompress. rewrite Hs. fold dst.
  assert (Hf : filedumped (write_file os (dst +:+ ".sha256") sha h).1 = filedumped h).
  { unfold write_file. by destruct (write_ok os _). }
  by rewrite bool_decide_eq_true_2 by (by rewrite Hf).
Qed.

(** ** Memory dumps of one process by two workers *)

(** A request for a GUID that is marked as dumped, or whose dump is in
    flight, changes nothing: the guard fails and no snapshot is called. *)
Lemma memdump_skips (env : Env) (os : OS) (e : Event) (h : HIDS) :
  srcGUIDFromEvent env e ∈ memdumped h ∨ srcGUIDFromEvent env e ∈ dumping h →
  (Actions.memdump env os e h).1 = h ∧ memdump_guard env os e h = None.
Proof.
  intros Hin. unfold Actions.memdump, memdump_guard.
  destruct (processTrackFromEvent env h e) as [pt |]; [| done]. cbv zeta.
  destruct Hin as [Hin | Hin].
  - rewrite (bool_decide_eq_true_2 _ Hin). simpl. by rewrite andb_false_r.
  - rewrite (bool_decide_eq_true_2 (_ ∈ dumping h) Hin). simpl.
    by rewrite andb_false_r.
Qed.

Lemma dumpPidAndCompress_skips (env : Env) (os : OS) (pid : Z) (g id : string) (h : HIDS) :
  g ∈ memdumped h ∨ g ∈ dumping h → Hooks.dumpPidAndCompress env os pid g id h = h.
Proof.
  intros Hin. unfold Hooks.dumpPidAndCompress. destruct Hin as [Hin | Hin].
  - rewrite (bool_decide_eq_true_2 _ Hin). simpl. by rewrite andb_false_r.
  - rewrite (bool_decide_eq_true_2 (_ ∈ dumping h) Hin). simpl.
    by rewrite andb_false_r.
Qed.

(** The steps of a worker, made with no other worker running, are the
    function [memdump]: the worker leaves the agent in the state [memdump]
    returns, and a snapshot is counted exactly when [memdump] returns no
    error. *)
Lemma memdump_alone (env : Env) (os : OS) (e : Event) (h : HIDS) (taken : list string) :
  foldl (move env) (mkPool h [] taken) (alone os e)
  = mkPool (Actions.memdump env os e h).1 []
      (taken ++ match (Actions.memdump env os e h).2 with
                | None => [srcGUIDFromEvent env e]
                | Some _ => []
                end)%list.
Proof.
  unfold alone, Actions.memdump. simpl. unfold memdump_guard.
  destruct (processTrackFromEvent env h e) as [pt |]; simpl;
    [| by rewrite app_nil_r].
  destruct (_ && _ && _ && _); simpl; [| by rewrite app_nil_r].
  destruct (minidump os (PID pt) _) as [snapshot |]; simpl.
  - by rewrite !app_nil_r.
  - by rewrite !app_nil_r.
Qed.

Lemma memdumps_one_by_one (env : Env) (reqs : list (OS * Event)) (h : HIDS)
    (taken : list string) :
  p_hids (foldl (move env) (mkPool h [] taken) (flat_map (λ r, alone r.1 r.2) reqs))
  = foldl (λ h r, (Actions.memdump env r.1 r.2 h).1) h reqs.
Proof.
  revert h taken. induction reqs as [| [os e] reqs IH]; intros h taken; [done |].
  cbn [flat_map fst snd]. rewrite foldl_app, memdump_alone. cbn [foldl fst snd].
  apply IH.
Qed.

(** C3.  Two detections for process [G1] reach [memdump] in two workers.
    Both workers read the guard of line 239 before either has run
    [dumping.Add] of line 242; each then takes its snapshot.  The process is
    memory-dumped twice: two snapshot calls for its PID, two [.dmp] files,
    and the GUID counted twice among the successful snapshots, although the
    GUID is marked as dumped after the first.  Served one after the other,
    the same two detections give one snapshot. *)
Theorem memdump_race_two_snapshots :
  let e1 := Examples.detected "G1" ["memdump"] in
  let e2 := RaceExamples.detected_again in
  let start := mkPool (Examples.agent 0) [] [] in
  let p := foldl (move Examples.env0) start RaceExamples.race in
  let q := foldl (move Examples.env0) start
             (alone Examples.os_ok e1 ++ alone RaceExamples.os_later e2) in
  srcGUIDFromEvent Examples.env0 e1 = "G1"
  ∧ srcGUIDFromEvent Examples.env0 e2 = "G1"
  ∧ p_workers p = []
  ∧ p_taken p = ["G1"; "G1"]
  ∧ ¬ NoDup (p_taken p)
  ∧ calls (p_hids p)
    = [FullMemoryMiniDump 42 "dumps/G1/e1/C:/app.exe_42_1000.dmp";
       FullMemoryMiniDump 42 "dumps/G1/e3/C:/app.exe_42_2000.dmp"]
  ∧ disk (p_hids p) !! "dumps/G1/e1/C:/app.exe_42_1000.dmp" = Some "MDMP"
  ∧ disk (p_hids p) !! "dumps/G1/e3/C:/app.exe_42_2000.dmp" = Some "MDMP"
  ∧ "G1" ∈ memdumped (p_hids p)
  ∧ p_taken q = ["G1"]
  ∧ calls (p_hids q) = [FullMemoryMiniDump 42 "dumps/G1/e1/C:/app.exe_42_1000.dmp"].
Proof.
  intros e1 e2 start p q.
  assert (Hw : p_workers p = []) by (vm_compute; reflexivity).
  assert (Ht : p_taken p = ["G1"; "G1"]) by (vm_compute; reflexivity).
  assert (Hc : calls (p_hids p)
               = [FullMemoryMiniDump 42 "dumps/G1/e1/C:/app.exe_42_1000.dmp";
                  FullMemoryMiniDump 42 "dumps/G1/e3/C:/app.exe_42_2000.dmp"])
    by (vm_compute; reflexivity).
  assert (Hd1 : disk (p_hids p) !! "dumps/G1/e1/C:/app.exe_42_1000.dmp" = Some "MDMP")
    by (vm_compute; reflexivity).
  assert (Hd2 : disk (p_hids p) !! "dumps/G1/e3/C:/app.exe_42_2000.dmp" = Some "MDMP")
    by (vm_compute; reflexivity).
  assert (Hm : "G1" ∈ memdumped (p_hids p)).
  { apply (bool_decide_unpack _). vm_compute. reflexivity. }
  assert (Hq : p_taken q = ["G1"]) by (vm_compute; reflexivity).
  assert (Hcq : calls (p_hids q)
                = [FullMemoryMiniDump 42 "dumps/G1/e1/C:/app.exe_42_1000.dmp"])
    by (vm_compute; reflexivity).
  split; [reflexivity |]. split; [reflexivity |]. split; [exact Hw |].
  split; [exact Ht |]. split.
  { rewrite Ht. intros Hnd. apply NoDup_cons in Hnd as [Hnot _].
    apply Hnot, list_elem_of_here. }
  split; [exact Hc |]. split; [exact Hd1 |]. split; [exact Hd2 |].
  split; [exact Hm |]. split; [exact Hq | exact Hcq].
Qed.

(** ** Rewriting the rule files *)

(** C8 as stated does not hold: when the second rule cannot be written,
    [admAPIRulesSave] answers with an error after the rule file that was on
    disk has been removed. *)
Lemma rule_files_removed_before_failed_write :
  let host := Examples.host_failing_write 1 in
  let r := Api.admAPIRulesSave host Examples.manager0 Examples.files0 in
  Api.writestring_ok host 1 = false
  ∧ r.2 = Api.ErrWriteRule
  ∧ Api.content Examples.files0 !! "rules/old.gen" = Some "{rule 0}"
  ∧ Api.content r.1 !! "rules/old.gen" = None
  ∧ ¬ rewrite_keeps_rule_files host Examples.manager0 Examples.files0.
Proof.
  intros host r.
  assert (Hr : r.2 = Api.ErrWriteRule) by (vm_compute; reflexivity).
  assert (Hold : Api.content Examples.files0 !! "rules/old.gen" = Some "{rule 0}")
    by (vm_compute; reflexivity).
  assert (Hgone : Api.content r.1 !! "rules/old.gen" = None)
    by (vm_compute; reflexivity).
  split; [vm_compute; reflexivity |]. split; [exact Hr |].
  split; [exact Hold |]. split; [exact Hgone |].
  intros Hclaim. unfold rewrite_keeps_rule_files in Hclaim. fold r in Hclaim.
  assert (Hext : Api.h_Ext host "rules/old.gen" ∈ Api.DefaultRuleExtensions host).
  { vm_compute. apply list_elem_of_here. }
  assert (Herr : r.2 ≠ Api.MsgOk) by (rewrite Hr; discriminate).
  specialize (Hclaim Herr "rules/old.gen" Hext).
  rewrite Hgone, Hold in Hclaim. discriminate.
Qed.

Lemma remove_rule_files_ops (host : Api.Host) (dir : string) (names : list string)
    (fs : Api.Files) :
  ∃ removed,
    Api.ops (Api.remove_rule_files host dir names fs).1
    = (Api.ops fs ++ (Api.OpRemove <$> removed))%list.
Proof.
  revert fs. induction names as [| name names IH]; intros fs; simpl.
  - exists []. by rewrite app_nil_r.
  - case_bool_decide; [| apply IH].
    unfold Api.os_Remove.
    destruct (Api.content fs !! _) as [c |];
      [| exists []; by rewrite app_nil_r].
    destruct (Api.remove_ok host _); [| exists []; by rewrite app_nil_r].
    destruct (IH (Api.mkFiles (delete (Api.h_Join host [dir; name]) (Api.content fs))
                    (Api.ops fs ++ [Api.OpRemove (Api.h_Join host [dir; name])])%list))
      as [removed Hr].
    exists (Api.h_Join host [dir; name] :: removed).
    rewrite Hr. simpl. by rewrite <- app_assoc.
Qed.

(** The loop writing the rules stops at the first write that fails: it has
    then written the lines before it, and it reports success only when no
    write failed. *)
Lemma write_rules_ops (host : Api.Host) (tmp : string) (lines : list string) (k : nat)
    (fs : Api.Files) :
  let r := Api.write_rules host tmp k lines fs in
  ∃ n, (n ≤ length lines)%nat
       ∧ Api.ops r.1
         = (Api.ops fs
            ++ (Api.OpWriteString tmp <$> ((λ l, l +:+ Api.newline) <$> take n lines)))%list
       ∧ (∀ i, (i < n)%nat → Api.writestring_ok host (k + i) = true)
       ∧ (if r.2 then n = length lines
          else (n < length lines)%nat ∧ Api.writestring_ok host (k + n) = false).
Proof.
  revert k fs. induction lines as [| line lines IH]; intros k fs; simpl.
  - exists 0%nat. rewrite app_nil_r. repeat split; [lia | intros; lia].
  - unfold Api.fd_WriteString.
    destruct (Api.writestring_ok host k) eqn:Hk.
    + destruct (IH (S k)
                  (Api.mkFiles
                     (alter (λ old, old +:+ (line +:+ Api.newline)) tmp (Api.content fs))
                     (Api.ops fs ++ [Api.OpWriteString tmp (line +:+ Api.newline)])%list))
        as (n & Hn & Hops & Hok & Hend).
      exists (S n). split; [lia |]. split; [| split].
      * rewrite Hops. simpl. by rewrite <- app_assoc.
      * intros [| i] Hi; [by rewrite Nat.add_0_r |].
        replace (k + S i)%nat with (S k + i)%nat by lia. apply Hok. lia.
      * destruct (Api.write_rules host tmp (S k) lines _).2.
        -- by rewrite Hend.
        -- destruct Hend as [Hlt Hfail]. split; [lia |].
           by replace (k + S n)%nat with (S k + n)%nat by lia.
    + exists 0%nat. simpl. rewrite app_nil_r, Nat.add_0_r.
      repeat split; [lia | intros; lia | lia | done].
Qed.

(** The loop deleting the previous rule files: the files it has removed
    are a prefix of the rule files met by the walk, all of them when the
    loop ends without error; each was there and is gone; no other file has
    changed. *)
Lemma remove_rule_files_spec (host : Api.Host) (dir : string) (names : list string) :
  ∀ fs,
    let r := Api.remove_rule_files host dir names fs in
    ∃ removed,
      Api.ops r.1 = (Api.ops fs ++ (Api.OpRemove <$> removed))%list
      ∧ removed `prefix_of` rule_paths host dir names
      ∧ (if r.2 then removed = rule_paths host dir names
         else (length removed < length (rule_paths host dir names))%nat)
      ∧ (∀ p, p ∈ removed → is_Some (Api.content fs !! p) ∧ Api.content r.1 !! p = None)
      ∧ (∀ p, p ∉ removed → Api.content r.1 !! p = Api.content fs !! p).
Proof.
  induction names as [| name names IH]; intros fs; simpl.
  - exists []. rewrite app_nil_r. split; [done |]. split; [done |]. split; [done |].
    split; [by intros p ?%elem_of_nil | done].
  - unfold rule_paths. rewrite fmap_cons, filter_cons. fold (rule_paths host dir names).
    set (fp := Api.h_Join host [dir; name]).
    destruct (decide (Api.h_Ext host fp ∈ Api.DefaultRuleExtensions host)) as [Hext | Hext].
    + rewrite bool_decide_eq_true_2 by done. unfold Api.os_Remove.
      assert (Hstop : ∃ removed : list string,
                Api.ops fs = (Api.ops fs ++ (Api.OpRemove <$> removed))%list
                ∧ removed `prefix_of` fp :: rule_paths host dir names
                ∧ (length removed < length (fp :: rule_paths host dir names))%nat
                ∧ (∀ p, p ∈ removed →
                     is_Some (Api.content fs !! p) ∧ Api.content fs !! p = None)
                ∧ (∀ p, p ∉ removed → Api.content fs !! p = Api.content fs !! p)).
      { exists []. rewrite app_nil_r. split; [done |]. split; [apply prefix_nil |].
        split; [simpl; lia |]. split; [by intros p ?%elem_of_nil | done]. }
      destruct (Api.content fs !! fp) as [c |] eqn:Hfp; [| exact Hstop].
      destruct (Api.remove_ok host fp); [| exact Hstop]. clear Hstop.
      set (fs' := Api.mkFiles (delete fp (Api.content fs))
                    (Api.ops fs ++ [Api.OpRemove fp])%list).
      destruct (IH fs') as (removed & Hops & Hpre & Hall & Hgone & Hkept).
      assert (Hnot : fp ∉ removed).
      { intros Hin. destruct (Hgone fp Hin) as [[x Hx] _].
        subst fs'. simpl in Hx. by rewrite lookup_delete_eq in Hx. }
      exists (fp :: removed). split; [| split; [| split; [| split]]].
      * rewrite Hops. subst fs'. simpl. by rewrite <- app_assoc.
      * by apply prefix_cons.
      * destruct (Api.remove_rule_files host dir names fs').2; [by rewrite Hall |].
        simpl. lia.
      * intros p [-> | Hin]%elem_of_cons.
        -- split; [by rewrite Hfp |]. rewrite (Hkept fp Hnot). subst fs'. simpl.
           apply lookup_delete_eq.
        -- destruct (Hgone p Hin) as [[x Hx] Hnone]. split; [| done].
           subst fs'. simpl in Hx. apply lookup_delete_Some in Hx as [_ Hx]. by eexists.
      * intros p Hp. apply not_elem_of_cons in Hp as [Hne Hp].
        rewrite (Hkept p Hp). subst fs'. simpl. by rewrite lookup_delete_ne.
    + rewrite bool_decide_eq_false_2 by done. apply IH.
Qed.

Lemma write_rules_none (host : Api.Host) (tmp : string) (lines : list string) (p : string) :
  ∀ k fs, Api.content fs !! p = None →
          Api.content (Api.write_rules host tmp k lines fs).1 !! p = None.
Proof.
  induction lines as [| line lines IH]; intros k fs Hnone; simpl; [done |].
  unfold Api.fd_WriteString. destruct (Api.writestring_ok host k); [| done].
  apply IH. simpl. by apply lookup_alter_None.
Qed.

(** C8, amended.  Both handlers rewrite the rules through [rewrite_rules].
    If the temporary file cannot be created, the answer is an error and
    nothing has been touched.  Otherwise the operations are, in order: the
    creation of the temporary file, the removal of rule files, the writes of
    the first [n] rules into the temporary file and, last, the rename over
    the rule file; the rename is there exactly when the answer is the
    success message, and then every rule has been written and no write has
    failed.  The files removed are the rule files that the walk of the rules
    directory meets, in its order: all of them unless a removal fails, which
    stops the handler before any write.  Each of them was on disk and is
    gone when the handler answers, whatever the answer, except the rule file
    itself when the rename has put the new content there: a write that
    fails gives an error without rename, and the rule files stay removed. *)
Theorem rules_rewrite_discipline (host : Api.Host) (m : Api.Manager) (keep : list string)
    (fs : Api.Files) :
  let new := Api.h_Join host [Api.RulesDir m; Api.rulesBasename] in
  let tmp := new +:+ ".tmp" in
  let lines := Api.GetRawRuleByName m <$> keep in
  let r := Api.rewrite_rules host m keep fs in
  let walked :=
    rule_paths host (Api.RulesDir m)
      (concat (Api.Walk host (<[tmp := ""]> (Api.content fs)) (Api.RulesDir m))) in
  Api.admAPIRulesSave host m fs = Api.rewrite_rules host m (Api.GetRuleNames m) fs
  ∧ (Api.create_ok host tmp = false → r = (fs, Api.ErrCreateTemp))
  ∧ (Api.create_ok host tmp = true →
       ∃ removed n,
         (n ≤ length lines)%nat
         ∧ Api.ops r.1
           = (Api.ops fs ++ [Api.OpCreate tmp] ++ (Api.OpRemove <$> removed)
              ++ (Api.OpWriteString tmp <$> ((λ l, l +:+ Api.newline) <$> take n lines))
              ++ match r.2 with Api.MsgOk => [Api.OpRename tmp new] | _ => [] end)%list
         ∧ (r.2 = Api.MsgOk →
              n = length lines
              ∧ ∀ k, (k < length lines)%nat → Api.writestring_ok host k = true)
         ∧ (∀ k, (k < length lines)%nat → Api.writestring_ok host k = false →
              r.2 ≠ Api.MsgOk)
         ∧ removed `prefix_of` walked
         ∧ (r.2 ≠ Api.ErrDeleteRuleFile → removed = walked)
         ∧ (r.2 = Api.ErrDeleteRuleFile →
              (length removed < length walked)%nat ∧ n = 0%nat)
         ∧ (∀ p, p ∈ removed →
              is_Some (<[tmp := ""]> (Api.content fs) !! p)
              ∧ (Api.content r.1 !! p = None ∨ (p = new ∧ r.2 = Api.MsgOk)))).
Proof.
  intros new tmp lines r walked. split; [done |]. split.
  - intros Hc. subst r. unfold Api.rewrite_rules, Api.os_Create. fold new. fold tmp.
    by rewrite Hc.
  - intros Hc.
    assert (Hmain : ∃ removed n,
              (n ≤ length lines)%nat
              ∧ Api.ops r.1
                = (Api.ops fs ++ [Api.OpCreate tmp] ++ (Api.OpRemove <$> removed)
                   ++ (Api.OpWriteString tmp
                         <$> ((λ l, l +:+ Api.newline) <$> take n lines))
                   ++ match r.2 with Api.MsgOk => [Api.OpRename tmp new] | _ => [] end)%list
              ∧ (r.2 = Api.MsgOk →
                   n = length lines
                   ∧ ∀ k, (k < length lines)%nat → Api.writestring_ok host k = true)
              ∧ removed `prefix_of` walked
              ∧ (r.2 ≠ Api.ErrDeleteRuleFile → removed = walked)
              ∧ (r.2 = Api.ErrDeleteRuleFile →
                   (length removed < length walked)%nat ∧ n = 0%nat)
              ∧ (∀ p, p ∈ removed →
                   is_Some (<[tmp := ""]> (Api.content fs) !! p)
                   ∧ (Api.content r.1 !! p = None ∨ (p = new ∧ r.2 = Api.MsgOk)))).
    { subst r walked. unfold Api.rewrite_rules, Api.os_Create. fold new. fold tmp.
      rewrite Hc.
      set (fs1 := Api.mkFiles (<[tmp := ""]> (Api.content fs))
                    (Api.ops fs ++ [Api.OpCreate tmp])%list).
      change (<[tmp := ""]> (Api.content fs)) with (Api.content fs1).
      set (names := concat (Api.Walk host (Api.content fs1) (Api.RulesDir m))).
      destruct (remove_rule_files_spec host (Api.RulesDir m) names fs1)
        as (removed & Hrm & Hpre & Hall & Hgone & _).
      destruct (Api.remove_rule_files host (Api.RulesDir m) names fs1) as [fs2 ok2].
      simpl in Hrm, Hall, Hgone. destruct ok2.
      - pose proof (write_rules_ops host tmp lines 0 fs2) as (n & Hn & Hw & Hok & Hend).
        assert (Hnone : ∀ p, p ∈ removed →
                  Api.content (Api.write_rules host tmp 0 lines fs2).1 !! p = None).
        { intros p Hp. apply write_rules_none. by destruct (Hgone p Hp). }
        fold lines.
        destruct (Api.write_rules host tmp 0 lines fs2) as [fs3 ok3].
        simpl in Hw, Hend, Hnone. destruct ok3.
        + unfold Api.os_Rename.
          destruct (Api.content fs3 !! tmp) as [c |].
          * destruct (Api.rename_ok host tmp new); simpl.
            -- exists removed, n. split; [done |]. split; [| split].
               ++ rewrite Hw, Hrm. subst fs1. simpl. by rewrite <- !app_assoc.
               ++ intros _. split; [done |]. intros k Hk. apply (Hok k). lia.
               ++ split; [done |]. split; [done |]. split; [done |].
                  intros p Hp. split; [by destruct (Hgone p Hp) |].
                  destruct (decide (p = new)) as [-> | Hne]; [by right |].
                  left. rewrite lookup_insert_ne by done.
                  destruct (decide (tmp = p)) as [<- | Hne'];
                    [apply lookup_delete_eq |].
                  rewrite lookup_delete_ne by done. by apply Hnone.
            -- exists removed, n. split; [done |]. split; [| split; [done |]].
               ++ rewrite Hw, Hrm. subst fs1. simpl. by rewrite <- !app_assoc, app_nil_r.
               ++ split; [done |]. split; [done |]. split; [done |].
                  intros p Hp. split; [by destruct (Hgone p Hp) |]. left. by apply Hnone.
          * simpl. exists removed, n. split; [done |]. split; [| split; [done |]].
            -- rewrite Hw, Hrm. subst fs1. simpl. by rewrite <- !app_assoc, app_nil_r.
            -- split; [done |]. split; [done |]. split; [done |].
               intros p Hp. split; [by destruct (Hgone p Hp) |]. left. by apply Hnone.
        + simpl. exists removed, n. split; [done |]. split; [| split; [done |]].
          * rewrite Hw, Hrm. subst fs1. simpl. by rewrite <- !app_assoc, app_nil_r.
          * split; [done |]. split; [done |]. split; [done |].
            intros p Hp. split; [by destruct (Hgone p Hp) |]. left. by apply Hnone.
      - simpl. exists removed, 0%nat. split; [lia |]. split; [| split; [done |]].
        + rewrite Hrm. subst fs1. simpl. by rewrite <- !app_assoc, app_nil_r.
        + split; [done |]. split; [done |]. split; [done |].
          intros p Hp. split; [by destruct (Hgone p Hp) |]. left.
          by destruct (Hgone p Hp). }
    destruct Hmain as (removed & n & Hn & Hops & Hok & Hpre & Hall & Hdel & Hgone).
    exists removed, n. split; [done |]. split; [done |]. split; [done |].
    split; [| done].
    intros k Hk Hfail Hmsg. destruct (Hok Hmsg) as [_ Hallw].
    rewrite (Hallw k Hk) in Hfail. done.
Qed.

Lemma rules_rewrite_discipline_witness :
  let host := Examples.host_failing_write 1 in
  let r := Api.rewrite_rules host Examples.manager0 ["r1"; "r2"] Examples.files0 in
  Api.create_ok host "rules/compiled-updated.gen.tmp" = true
  ∧ Api.writestring_ok host 1 = false
  ∧ r.2 ≠ Api.MsgOk
  ∧ (∃ removed n, Api.ops r.1
      = ([] ++ [Api.OpCreate "rules/compiled-updated.gen.tmp"]
         ++ (Api.OpRemove <$> removed)
         ++ (Api.OpWriteString "rules/compiled-updated.gen.tmp"
               <$> ((λ l, l +:+ Api.newline) <$> take n ["{rule 1}"; "{rule 2}"]))
         ++ [])%list
      ∧ removed = ["rules/old.gen"])
  ∧ Api.content Examples.files0 !! "rules/old.gen" = Some "{rule 0}"
  ∧ Api.content r.1 !! "rules/old.gen" = None.
Proof.
  intros host r.
  assert (Hr : r.2 = Api.ErrWriteRule) by (vm_compute; reflexivity).
  assert (Hwalk : rule_paths host (Api.RulesDir Examples.manager0)
                    (concat (Api.Walk host
                               (<["rules/compiled-updated.gen.tmp" := ""]>
                                  (Api.content Examples.files0))
                               (Api.RulesDir Examples.manager0)))
                  = ["rules/old.gen"]) by (vm_compute; reflexivity).
  assert (Hold : Api.content Examples.files0 !! "rules/old.gen" = Some "{rule 0}")
    by (vm_compute; reflexivity).
  destruct (rules_rewrite_discipline host Examples.manager0 ["r1"; "r2"] Examples.files0)
    as (_ & _ & Hw).
  destruct (Hw eq_refl) as (removed & n & _ & Hops & _ & Hfail & _ & Hall & _ & Hgone).
  assert (Hnd : r.2 ≠ Api.ErrDeleteRuleFile) by (rewrite Hr; discriminate).
  assert (Hnok : r.2 ≠ Api.MsgOk) by (rewrite Hr; discriminate).
  assert (Hrem : removed = ["rules/old.gen"]) by (rewrite (Hall Hnd); exact Hwalk).
  split; [reflexivity |]. split; [reflexivity |]. split; [exact Hnok |].
  split; [exists removed, n; split; [exact Hops | exact Hrem] |].
  split; [exact Hold |].
  assert (Hin : "rules/old.gen" ∈ removed) by (rewrite Hrem; apply list_elem_of_here).
  destruct (Hgone "rules/old.gen" Hin) as [_ [Hnone | [_ Hok]]]; [exact Hnone |].
  destruct (Hnok Hok).
Defined.

(** * Further properties of the embedded code *)

(** ** [dumpFile]: what is marked as dumped *)

Lemma write_file_disk (os : OS) (path c : string) (h : HIDS) :
  filedumped (write_file os path c h).1 = filedumped h
  ∧ compressionQueue (write_file os path c h).1 = compressionQueue h
  ∧ (∀ p, p ≠ path → disk (write_file os path c h).1 !! p = disk h !! p)
  ∧ ((write_file os path c h).2 = None →
       disk (write_file os path c h).1 !! path = Some c)
  ∧ ((write_file os path c h).2 ≠ None → (write_file os path c h).1 = h).
Proof.
  unfold write_file. destruct (write_ok os path); simpl.
  - split; [done |]. split; [done |]. split.
    + intros p Hp. by rewrite lookup_insert_ne.
    + split; [intros _; apply lookup_insert_eq | done].
  - by repeat split.
Qed.

(** X1. [dumpFile] adds a digest to the set of dumped hashes only in a call
    that returns no error and has stored the body: the file on disk is the
    one that [utils.HidsWriteReader] makes of the destination, the content
    read from the source and the configured compression flag, and (unless
    the source is the sidecar itself) that content is the content of the
    source when the call began, of which the digest added is the digest.  A
    call that returns an error, or that skips its source, leaves the set as
    it was. *)
Theorem dumpFile_marks_only_stored (env : Env) (os : OS) (src dst : string) (h : HIDS) :
  let r := Actions.dumpFile env os src dst h in
  (filedumped r.1 = filedumped h
   ∨ (r.2 = None
      ∧ ∃ sha body,
          file_Sha256 env os h src = Some sha
          ∧ filedumped r.1 = {[sha]} ∪ filedumped h
          ∧ disk r.1 !! (written env dst body).1 = Some (written env dst body).2
          ∧ (src ≠ dst +:+ ".sha256" →
               disk h !! src = Some body ∧ sha = Sha256 env body)))
  ∧ (r.2 ≠ None → filedumped r.1 = filedumped h)
  ∧ (IsFile h src = false ∨ IsPipePath env src = true → r = (h, None)).
Proof.
  unfold Actions.dumpFile.
  destruct (IsFile h src) eqn:Hf; simpl;
    [| split; [by left | split; [done | done]]].
  destruct (IsPipePath env src) eqn:Hp; simpl;
    [split; [by left | split; [done | done]] |].
  destruct (mkdir_ok os (Dir env dst)); simpl;
    [| split; [by left | split; [done | by intros [? | ?]]]].
  destruct (file_Sha256 env os h src) as [sha |] eqn:Hs;
    [| split; [by left | split; [done | by intros [? | ?]]]].
  destruct (write_file_disk os (dst +:+ ".sha256") sha h) as (Hfd1 & _ & Hd1 & _).
  set (h1 := (write_file os (dst +:+ ".sha256") sha h).1) in *.
  case_bool_decide as Hin; simpl;
    [split; [by left | split; [done | by intros [? | ?]]] |].
  destruct (read_file os h1 src) as [f |] eqn:Hread; simpl;
    [| split; [by left | split; [done | by intros [? | ?]]]].
  rewrite writeReader_write_file.
  destruct (write_file_disk os (written env dst f).1 (written env dst f).2 h1)
    as (Hfd2 & _ & _ & Hok & Hko).
  destruct (write_file os _ _ h1) as [h2 [err |]]; simpl in *.
  - split; [left; congruence |]. split; [congruence | by intros [? | ?]].
  - split; [| split; [done | by intros [? | ?]]].
    right. split; [done |]. exists sha, f. split; [done |]. split; [congruence |].
    split; [by apply Hok |]. intros Hne.
    assert (Hsrc : disk h !! src = Some f).
    { unfold read_file in Hread. destruct (open_ok os src); [| done].
      by rewrite Hd1 in Hread. }
    split; [done |]. unfold file_Sha256 in Hs. rewrite Hsrc in Hs.
    destruct (hash_ok os src); by simplify_eq.
Qed.

Lemma dumpFile_marks_only_stored_witness :
  let h := Examples.agent_with_files in
  let r := Actions.dumpFile Examples.env_gz Examples.os_ok "C:/a.exe" "d/1_a.exe.bin" h in
  let r' := Actions.dumpFile Examples.env_gz Examples.os_ok "C:/none.exe"
              "d/1_none.exe.bin" h in
  r.2 = None
  ∧ filedumped r.1 = {[ "sha256:MZ-payload" ]} ∪ filedumped h
  ∧ disk r.1 !! "d/1_a.exe.bin.gz" = Some "gzip(MZ-payload)"
  ∧ IsFile h "C:/none.exe" = false
  ∧ r' = (h, None).
Proof.
  intros h r r'.
  assert (Hf : IsFile h "C:/none.exe" = false) by (vm_compute; reflexivity).
  assert (Hsrc : disk h !! "C:/a.exe" = Some "MZ-payload") by (vm_compute; reflexivity).
  assert (Hsha : file_Sha256 Examples.env_gz Examples.os_ok h "C:/a.exe"
                 = Some "sha256:MZ-payload") by (vm_compute; reflexivity).
  assert (Hne : "C:/a.exe" ≠ "d/1_a.exe.bin" +:+ ".sha256") by discriminate.
  assert (Hin : "sha256:MZ-payload" ∈ filedumped r.1).
  { apply (bool_decide_unpack _). vm_compute. reflexivity. }
  destruct (dumpFile_marks_only_stored Examples.env_gz Examples.os_ok "C:/a.exe"
              "d/1_a.exe.bin" h) as (Hmark & _ & _).
  destruct (dumpFile_marks_only_stored Examples.env_gz Examples.os_ok "C:/none.exe"
              "d/1_none.exe.bin" h) as (_ & _ & Hskip).
  fold r in Hmark.
  destruct Hmark as [Hsame | (Hok & sha & body & Hs & Hfd & Hstored & Hbody)].
  - exfalso. rewrite Hsame in Hin. revert Hin. apply not_elem_of_empty.
  - destruct (Hbody Hne) as [Hb _].
    assert (Hbeq : body = "MZ-payload") by congruence.
    assert (Hseq : sha = "sha256:MZ-payload") by congruence.
    subst body sha.
    split; [exact Hok |]. split; [exact Hfd |]. split; [exact Hstored |].
    split; [exact Hf |]. exact (Hskip (or_introl Hf)).
Defined.

(** ** [filedump] and its candidate files *)

Lemma dumpFile_filedumped_mono (env : Env) (os : OS) (src dst : string) (h : HIDS) :
  filedumped h ⊆ filedumped (Actions.dumpFile env os src dst h).1
  ∧ compressionQueue (Actions.dumpFile env os src dst h).1 = compressionQueue h.
Proof.
  unfold Actions.dumpFile.
  destruct (negb (IsFile h src) || IsPipePath env src); [done |].
  destruct (negb (mkdir_ok os (Dir env dst))); [done |].
  destruct (file_Sha256 env os h src) as [sha |]; [| done].
  destruct (write_file_disk os (dst +:+ ".sha256") sha h) as (Hfd1 & Hq1 & _).
  set (h1 := (write_file os (dst +:+ ".sha256") sha h).1) in *.
  case_bool_decide as Hin; simpl; [by rewrite Hfd1, Hq1 |].
  destruct (read_file os h1 src) as [f |]; simpl; [| by rewrite Hfd1, Hq1].
  rewrite writeReader_write_file.
  destruct (write_file_disk os (written env dst f).1 (written env dst f).2 h1)
    as (Hfd2 & Hq2 & _).
  destruct (write_file os _ _ h1) as [h2 [err |]]; simpl in *.
  - by rewrite Hfd2, Hfd1, Hq2, Hq1.
  - rewrite Hfd2, Hfd1, Hq2, Hq1. split; [| done].
    intros x Hx. apply elem_of_union. by right.
Qed.

(** X2. [filedump] acts on files only: it issues no call, leaves the store,
    the blacklist, the set of dumped GUIDs and the in-flight set as they
    were, queues nothing for compression, and the set of dumped hashes can
    only grow. *)
Theorem filedump_touches_files_only (env : Env) (os : OS) (e : Event) (h : HIDS) :
  let h' := Actions.filedump env os e h in
  calls h' = calls h ∧ tracker h' = tracker h ∧ blacklisted h' = blacklisted h
  ∧ memdumped h' = memdumped h ∧ dumping h' = dumping h
  ∧ compressionQueue h' = compressionQueue h
  ∧ filedumped h ⊆ filedumped h'.
Proof.
  intros h'. destruct (filedump_files_only env os e h) as (_ & Ht & Hb & Hm & Hd & Hc).
  fold h' in Ht, Hb, Hm, Hd, Hc. repeat (split; [done |]).
  subst h'. unfold Actions.filedump, Actions.dumpBinFile.
  generalize (Actions.filedumpSet env h e) as l. intros l.
  assert (Hgen : ∀ h0, compressionQueue h0 = compressionQueue h →
            filedumped h ⊆ filedumped h0 →
            let hn := foldl (λ h'' filename,
                        (Actions.dumpFile env os filename
                           (Actions.prepare env e (Actions.dumpname env os filename)) h'').1)
                        h0 l in
            compressionQueue hn = compressionQueue h ∧ filedumped h ⊆ filedumped hn).
  { induction l as [| f l IH]; intros h0 Hq Hsub; simpl; [done |].
    destruct (dumpFile_filedumped_mono env os f
                (Actions.prepare env e (Actions.dumpname env os f)) h0) as [Hm0 Hq0].
    apply IH; [congruence |]. by etrans. }
  by apply Hgen.
Qed.

Lemma listFiles_elem (env : Env) (h : HIDS) (cmdLine cwd f : string) :
  f ∈ Actions.listFilesFromCommandLine env h cmdLine cwd →
  ∃ prog args arg,
    ArgvFromCommandLine env cmdLine = Some (prog :: args)
    ∧ arg ∈ args ∧ IsFile h arg = true ∧ IsPipePath env arg = false
    ∧ (f = arg ∨ (cwd ≠ "" ∧ f = Join env [cwd; arg])).
Proof.
  unfold Actions.listFilesFromCommandLine.
  destruct (ArgvFromCommandLine env cmdLine) as [[| prog args] |];
    [by intros ?%not_elem_of_nil | | by intros ?%not_elem_of_nil].
  intros Hin. apply list_elem_of_In, in_flat_map in Hin as (arg & Harg & Hin).
  apply list_elem_of_In in Harg, Hin.
  exists prog, args, arg. split; [done |]. split; [done |].
  destruct (IsFile h arg); simpl in Hin.
  - destruct (IsPipePath env arg); simpl in Hin.
    + case_bool_decide; by apply not_elem_of_nil in Hin.
    + split; [done |]. split; [done |].
      apply elem_of_cons in Hin as [-> | Hin]; [by left |].
      case_bool_decide as Hcwd; [| by apply not_elem_of_nil in Hin].
      apply list_elem_of_singleton in Hin. by right.
  - case_bool_decide; by apply not_elem_of_nil in Hin.
Qed.

(** X3. [listFilesFromCommandLine]: a command line that cannot be split, or
    that has no argument after the program, gives no file.  Without working
    directory every path returned is an argument (never the program) at which
    a regular file that is not a pipe exists.  With a working directory, every
    such argument is returned together with its path joined to the directory,
    whether or not a file exists at the joined path. *)
Theorem listFilesFromCommandLine_spec (env : Env) (h : HIDS) (cmdLine cwd : string) :
  (ArgvFromCommandLine env cmdLine = None →
     Actions.listFilesFromCommandLine env h cmdLine cwd = [])
  ∧ (∀ prog, ArgvFromCommandLine env cmdLine = Some [prog] →
       Actions.listFilesFromCommandLine env h cmdLine cwd = [])
  ∧ (∀ f, f ∈ Actions.listFilesFromCommandLine env h cmdLine "" →
       IsFile h f = true ∧ IsPipePath env f = false
       ∧ ∃ prog args, ArgvFromCommandLine env cmdLine = Some (prog :: args) ∧ f ∈ args)
  ∧ (∀ prog args arg,
       ArgvFromCommandLine env cmdLine = Some (prog :: args) →
       arg ∈ args → IsFile h arg = true → IsPipePath env arg = false →
       arg ∈ Actions.listFilesFromCommandLine env h cmdLine cwd
       ∧ (cwd ≠ "" → Join env [cwd; arg] ∈ Actions.listFilesFromCommandLine env h cmdLine cwd)).
Proof.
  split; [| split; [| split]].
  - intros Hn. unfold Actions.listFilesFromCommandLine. by rewrite Hn.
  - intros prog Hp. unfold Actions.listFilesFromCommandLine. by rewrite Hp.
  - intros f Hin.
    destruct (listFiles_elem env h cmdLine "" f Hin)
      as (prog & args & arg & Hargv & Harg & Hfile & Hpipe & [-> | [Hne _]]); [| done].
    split; [done |]. split; [done |]. by exists prog, args.
  - intros prog args arg Hargv Harg Hfile Hpipe.
    unfold Actions.listFilesFromCommandLine. rewrite Hargv.
    assert (Hflat : ∀ f,
              f ∈ ((if IsFile h arg && negb (IsPipePath env arg) then [arg] else [])
                   ++ (if bool_decide (cwd ≠ "") then
                         if IsFile h arg && negb (IsPipePath env arg)
                         then [Join env [cwd; arg]] else []
                       else []))%list →
              f ∈ flat_map (λ arg,
                    ((if IsFile h arg && negb (IsPipePath env arg) then [arg] else [])
                     ++ (if bool_decide (cwd ≠ "") then
                           let relarg := Join env [cwd; arg] in
                           if IsFile h arg && negb (IsPipePath env arg) then [relarg] else []
                         else []))%list) args).
    { intros f Hf. apply list_elem_of_In, in_flat_map. exists arg.
      split; by apply list_elem_of_In. }
    rewrite Hfile, Hpipe in Hflat. simpl in Hflat. split.
    + apply Hflat. apply list_elem_of_here.
    + intros Hcwd. apply Hflat. rewrite bool_decide_eq_true_2 by done.
      apply list_elem_of_further, list_elem_of_here.
Qed.

Lemma listFilesFromCommandLine_spec_witness :
  let h := Examples.agent_with_files in
  ArgvFromCommandLine Examples.env0 "C:/a.exe" = Some ["C:/a.exe"]
  ∧ Actions.listFilesFromCommandLine Examples.env0 h "C:/a.exe" "C:/tmp" = [].
Proof.
  split; [reflexivity |].
  exact (proj1 (proj2 (listFilesFromCommandLine_spec Examples.env0 Examples.agent_with_files
                         "C:/a.exe" "C:/tmp")) "C:/a.exe" eq_refl).
Defined.

(** X4. The candidate files of an event have no duplicate; they include the
    image and the parent image of the tracked process, and the value of each
    of the five image and target fields the event carries. *)
Theorem filedumpSet_members (env : Env) (h : HIDS) (e : Event) :
  NoDup (Actions.filedumpSet env h e)
  ∧ (∀ pt, processTrackFromEvent env h e = Some pt →
       Image pt ∈ Actions.filedumpSet env h e
       ∧ ParentImage pt ∈ Actions.filedumpSet env h e)
  ∧ (∀ p f, p ∈ Actions.filedumpXPaths → GetString e p = Some f →
       f ∈ Actions.filedumpSet env h e).
Proof.
  unfold Actions.filedumpSet. split; [apply NoDup_remove_dups |]. split.
  - intros pt Hpt. rewrite Hpt. rewrite !elem_of_remove_dups. split.
    + apply elem_of_app. left. apply list_elem_of_here.
    + apply elem_of_app. left. apply list_elem_of_further, list_elem_of_here.
  - intros p f Hp Hf. rewrite elem_of_remove_dups.
    apply elem_of_app. right. apply elem_of_app. right.
    apply list_elem_of_omap. by exists p.
Qed.

Lemma filedumpSet_members_witness :
  let h := Examples.agent 0 in
  let e := Examples.detected "G1" ["filedump"] in
  processTrackFromEvent Examples.env0 h e = Some (Examples.track "C:/app.exe" 42 "G1" 0)
  ∧ "C:/app.exe" ∈ Actions.filedumpSet Examples.env0 h e
  ∧ "C:/explorer.exe" ∈ Actions.filedumpSet Examples.env0 h e.
Proof.
  split; [reflexivity |].
  exact (proj1 (proj2 (filedumpSet_members Examples.env0 (Examples.agent 0)
                         (Examples.detected "G1" ["filedump"])))
           (Examples.track "C:/app.exe" 42 "G1" 0) eq_refl).
Defined.

(** ** [memdump]: the in-flight marker and the outcome *)

Lemma scoped_marker (g : string) (d : gset string) : g ∉ d → ({[g]} ∪ d) ∖ {[g]} = d.
Proof.
  intros Hg. apply set_eq. intros x.
  rewrite elem_of_difference, elem_of_union, !elem_of_singleton.
  split; [by intros [[-> | ?] ?] |].
  intros Hx. split; [by right |]. by intros ->.
Qed.

Lemma memdump_runs_not_dumping (env : Env) (os : OS) (e : Event) (h : HIDS)
    (pt : ProcessTrack) :
  memdump_runs env os e h pt = true →
  PID pt ≠ getpid env ∧ IsPIDRunning os (PID pt) = true
  ∧ (srcGUIDFromEvent env e ∉ memdumped h) ∧ (srcGUIDFromEvent env e ∉ dumping h).
Proof.
  unfold memdump_runs. intros H.
  apply andb_prop in H as [H Hd]. apply andb_prop in H as [H Hm].
  apply andb_prop in H as [Hr Hp].
  apply bool_decide_eq_true_1 in Hp.
  apply negb_true_iff, bool_decide_eq_false_1 in Hm, Hd. done.
Qed.

(** X5. The in-flight set is left as it was found by [memdump], by
    [dumpPidAndCompress] and by [dumpEventAndCompress], on every way out:
    snapshot or write done, failed, or not attempted. *)
Theorem in_flight_marker_released (env : Env) (os : OS) (e : Event) (pid : Z)
    (g id : string) (h : HIDS) :
  dumping (Actions.memdump env os e h).1 = dumping h
  ∧ dumping (Hooks.dumpPidAndCompress env os pid g id h) = dumping h
  ∧ dumping (Hooks.dumpEventAndCompress env os e g h).1 = dumping h.
Proof.
  split; [| split].
  - destruct (processTrackFromEvent env h e) as [pt |] eqn:Hpt;
      [| by rewrite memdump_untracked].
    destruct (memdump_effect env os e h pt Hpt) as (_ & _ & _ & _ & _ & _ & ->).
    destruct (memdump_runs env os e h pt) eqn:Hr; [| done].
    apply scoped_marker. by apply (memdump_runs_not_dumping env os e h pt).
  - unfold Hooks.dumpPidAndCompress.
    destruct (IsPIDRunning os pid); [| done].
    destruct (bool_decide (pid ≠ getpid env)); [| done]. simpl.
    case_bool_decide as Hm; [done |]. case_bool_decide as Hd; [done |]. simpl.
    destruct (minidump os pid _); simpl.
    + unfold compress. destruct (Dump_Compression env); simpl; by apply scoped_marker.
    + by apply scoped_marker.
  - unfold Hooks.dumpEventAndCompress.
    case_bool_decide as Hd; [done |]. case_bool_decide as Hf; [done |]. simpl.
    unfold write_file. destruct (write_ok os _); simpl.
    + unfold compress. destruct (Dump_Compression env); simpl; by apply scoped_marker.
    + by apply scoped_marker.
Qed.

(** X6. The outcome of [memdump].  It returns no error exactly when the
    process is tracked, its guard lets the snapshot run and the snapshot
    succeeds; the GUID is then in the set of dumped GUIDs, the snapshot is on
    disk and its path is queued when compression is configured.  When it
    returns an error, the set of dumped GUIDs, the files and the compression
    queue are as before: a failed snapshot does not bar a later one. *)
Theorem memdump_outcome (env : Env) (os : OS) (e : Event) (h : HIDS) :
  let g := srcGUIDFromEvent env e in
  let r := Actions.memdump env os e h in
  (r.2 = None ↔
     ∃ pt, processTrackFromEvent env h e = Some pt
           ∧ memdump_runs env os e h pt = true
           ∧ is_Some (minidump os (PID pt)
                        (Actions.prepare env e (Actions.dumpFilename env os pt))))
  ∧ (r.2 = None →
       g ∈ memdumped r.1
       ∧ ∃ pt, processTrackFromEvent env h e = Some pt
               ∧ disk r.1 !! Actions.prepare env e (Actions.dumpFilename env os pt)
                 = minidump os (PID pt)
                     (Actions.prepare env e (Actions.dumpFilename env os pt))
               ∧ compressionQueue r.1
                 = (compressionQueue h
                    ++ if Dump_Compression env
                       then [Actions.prepare env e (Actions.dumpFilename env os pt)]
                       else [])%list)
  ∧ (r.2 ≠ None →
       memdumped r.1 = memdumped h ∧ disk r.1 = disk h
       ∧ compressionQueue r.1 = compressionQueue h).
Proof.
  intros g r. subst r. unfold Actions.memdump.
  destruct (processTrackFromEvent env h e) as [pt |] eqn:Hpt; simpl;
    [| split; [split; [done | by intros (? & ? & _)] | done]].
  fold g. unfold memdump_runs. fold g.
  set (path := Actions.prepare env e (Actions.dumpFilename env os pt)).
  destruct (_ && _ && _ && _) eqn:Hguard; simpl.
  - destruct (minidump os (PID pt) path) as [snap |] eqn:Hsnap; simpl.
    + split; [| split; [| done]].
      * split; [| done]. intros _. exists pt. split; [done |]. split; [done |]. by eexists.
      * intros _. unfold compress. destruct (Dump_Compression env); simpl.
        -- split; [apply elem_of_union; left; by apply elem_of_singleton |].
           exists pt. split; [done |]. split; [| done].
           fold path. rewrite Hsnap. apply lookup_insert_eq.
        -- split; [apply elem_of_union; left; by apply elem_of_singleton |].
           exists pt. split; [done |]. split; [| by rewrite app_nil_r].
           fold path. rewrite Hsnap. apply lookup_insert_eq.
    + split; [| split; [done | intros _; by repeat split]].
      split; [done |]. intros (pt' & [= <-] & _ & Hs). fold path in Hs.
      rewrite Hsnap in Hs. by destruct Hs.
  - split; [| split; [done | intros _; by repeat split]].
    split; [done |]. intros (pt' & [= <-] & Hg' & _). congruence.
Qed.

Lemma memdump_outcome_witness :
  let h := Examples.agent 0 in
  let e := Examples.detected "G1" ["memdump"] in
  let r := Actions.memdump Examples.env0 Examples.os_nodump e h in
  r.2 ≠ None ∧ memdumped r.1 = memdumped h ∧ disk r.1 = disk h.
Proof.
  intros h e r.
  assert (Hr : r.2 ≠ None) by (by vm_compute).
  destruct (proj2 (proj2 (memdump_outcome Examples.env0 Examples.os_nodump e h)) Hr)
    as (Hm & Hd & _).
  split; [exact Hr |]. split; [exact Hm | exact Hd].
Defined.

(** ** [regdump] *)

(** X7. [regdump] writes only for a Sysmon registry-value event whose
    details are "Binary Data": for any other event the state is unchanged.
    For such an event the artifact is the file that [utils.HidsWriteReader]
    makes of [reg.txt], of the text to dump and of the configured
    compression flag, where the text is the content of the registry value
    or, when the registry cannot be queried, the text of the error. *)
Theorem regdump_binary_only (env : Env) (os : OS) (e : Event) (h : HIDS) :
  (Channel e ≠ sysmonChannel ∨ EventID e ≠ SysmonRegSetValue
   ∨ GetString e pathSysmonTargetObject = None
   ∨ GetString e pathSysmonDetails ≠ Some "Binary Data" →
   Actions.regdump env os e h = h)
  ∧ (∀ target text,
       Channel e = sysmonChannel → EventID e = SysmonRegSetValue →
       GetString e pathSysmonTargetObject = Some target →
       GetString e pathSysmonDetails = Some "Binary Data" →
       RegQuery os (Split env target).1 (Split env target).2 = inl text
       ∨ (∃ err, RegQuery os (Split env target).1 (Split env target).2 = inr err
                 ∧ text = "HIDS error dumping " +:+ target +:+ ": " +:+ err) →
       write_ok os (written env (Actions.prepare env e "reg.txt") text).1 = true →
       disk (Actions.regdump env os e h)
         !! (written env (Actions.prepare env e "reg.txt") text).1
       = Some (written env (Actions.prepare env e "reg.txt") text).2).
Proof.
  unfold Actions.regdump. split.
  - intros Hcases.
    case_bool_decide as Hc; simpl; [| done].
    case_bool_decide as Hi; simpl; [| done].
    destruct Hcases as [? | [? | [Ht | Hd]]]; [done | done | by rewrite Ht |].
    destruct (GetString e pathSysmonTargetObject); [| done].
    destruct (GetString e pathSysmonDetails) as [d |]; [| done].
    case_bool_decide; [congruence | done].
  - intros target text Hc Hi Ht Hd Hq Hw.
    rewrite !bool_decide_eq_true_2 by done. simpl. rewrite Ht, Hd.
    rewrite bool_decide_eq_true_2 by done.
    destruct (Split env target) as [key value]. simpl in Hq.
    rewrite writeReader_write_file.
    assert (Htext : match RegQuery os key value with
                    | inl c => c
                    | inr err => "HIDS error dumping " +:+ target +:+ ": " +:+ err
                    end = text).
    { destruct Hq as [Hq | (err & Hq & ->)]; by rewrite Hq. }
    rewrite Htext. unfold write_file. rewrite Hw. simpl. apply lookup_insert_eq.
Qed.

Lemma regdump_binary_only_witness :
  let e := RegExamples.reg_set in
  let h' := Actions.regdump Examples.env_gz RegExamples.os_noreg e (Examples.agent 0) in
  GetString e pathSysmonDetails = Some "Binary Data"
  ∧ disk h' !! "dumps/G1/e5/reg.txt.gz"
    = Some "gzip(HIDS error dumping HKLM/Run/app: access denied)"
  ∧ Actions.regdump Examples.env_gz RegExamples.os_noreg (Examples.detected "G1" ["regdump"])
      (Examples.agent 0) = Examples.agent 0.
Proof.
  intros e h'.
  assert (Hd : GetString e pathSysmonDetails = Some "Binary Data")
    by (vm_compute; reflexivity).
  assert (Ht : GetString e pathSysmonTargetObject = Some "HKLM/Run/app")
    by (vm_compute; reflexivity).
  assert (Hid : EventID (Examples.detected "G1" ["regdump"]) ≠ SysmonRegSetValue)
    by (by vm_compute).
  split; [exact Hd |]. split.
  - exact (proj2 (regdump_binary_only Examples.env_gz RegExamples.os_noreg e
                    (Examples.agent 0))
             "HKLM/Run/app" "HIDS error dumping HKLM/Run/app: access denied"
             eq_refl eq_refl Ht Hd
             (or_intror (ex_intro _ "access denied" (conj eq_refl eq_refl))) eq_refl).
  - apply (proj1 (regdump_binary_only Examples.env_gz RegExamples.os_noreg
                    (Examples.detected "G1" ["regdump"]) (Examples.agent 0))).
    right. left. exact Hid.
Defined.

(** ** The dump routines of [hookdefs.go] write files and nothing else *)

Lemma quiet_refl (h : HIDS) : quiet h h.
Proof. by repeat split. Qed.

Lemma quiet_trans (h1 h2 h3 : HIDS) : quiet h1 h2 → quiet h2 h3 → quiet h1 h3.
Proof.
  unfold quiet. intros (? & ? & ? & ? & ? & ? & ?) (? & ? & ? & ? & ? & ? & ?).
  repeat (split; [congruence |]). by etrans.
Qed.

Lemma write_file_quiet (os : OS) (path c : string) (h : HIDS) :
  quiet h (write_file os path c h).1.
Proof. unfold write_file. destruct (write_ok os path); by repeat split. Qed.

Lemma compress_quiet (env : Env) (path : string) (h : HIDS) : quiet h (compress env path h).
Proof. unfold compress. destruct (Dump_Compression env); by repeat split. Qed.

Lemma dumpFileAndCompress_quiet (env : Env) (os : OS) (src path : string) (h : HIDS) :
  quiet h (Hooks.dumpFileAndCompress env os src path h).1.
Proof.
  unfold Hooks.dumpFileAndCompress.
  destruct (file_Sha256 env os h src) as [sha |]; [| apply quiet_refl].
  set (dst := Join env _).
  pose proof (write_file_quiet os (dst +:+ ".sha256") sha h) as H1.
  set (h1 := (write_file os (dst +:+ ".sha256") sha h).1) in *.
  case_bool_decide; [done |].
  destruct (read_file os h1 src) as [c |]; [| done].
  pose proof (write_file_quiet os dst c h1) as H2.
  destruct (write_file os dst c h1) as [h2 [err |]]; simpl in *.
  - by eapply quiet_trans.
  - eapply quiet_trans; [exact H1 |]. eapply quiet_trans; [exact H2 |].
    eapply quiet_trans; [apply (compress_quiet env dst) |].
    repeat (split; [done |]). simpl. intros x Hx. apply elem_of_union. by right.
Qed.

Lemma dumpEventAndCompress_quiet (env : Env) (os : OS) (e : Event) (g : string) (h : HIDS) :
  quiet h (Hooks.dumpEventAndCompress env os e g h).1.
Proof.
  unfold Hooks.dumpEventAndCompress.
  case_bool_decide as Hd; [apply quiet_refl |].
  case_bool_decide as Hf; [apply quiet_refl |]. simpl.
  unfold write_file. destruct (write_ok os _); simpl.
  - unfold compress. destruct (Dump_Compression env); simpl.
    + repeat (split; [done |]). split; [by apply scoped_marker |]. split; [done |].
      intros x Hx. apply elem_of_union. by right.
    + repeat (split; [done |]). split; [by apply scoped_marker |]. split; [done |].
      intros x Hx. apply elem_of_union. by right.
  - repeat (split; [done |]). split; [by apply scoped_marker |]. done.
Qed.

Lemma foldl_quiet (A : Type) (f : HIDS → A → HIDS) (l : list A) (h : HIDS) :
  (∀ h' a, quiet h' (f h' a)) → quiet h (foldl f h l).
Proof.
  intros Hf. revert h. induction l as [| a l IH]; intros h; simpl; [apply quiet_refl |].
  eapply quiet_trans; [apply Hf | apply IH].
Qed.

Lemma dump_argument_quiet (env : Env) (os : OS) (dumpPath cwd : string) (rel : bool)
    (h : HIDS) (arg : string) :
  quiet h (HookDumps.dump_argument env os dumpPath cwd rel h arg).
Proof.
  unfold HookDumps.dump_argument.
  set (h1 := if IsFile h arg && negb (IsPipePath env arg) then _ else h).
  assert (H1 : quiet h h1).
  { subst h1. destruct (_ && _); [apply dumpFileAndCompress_quiet | apply quiet_refl]. }
  destruct rel; [| exact H1]. cbv zeta.
  destruct (IsFile h1 _ && _); [| exact H1].
  eapply quiet_trans; [exact H1 | apply dumpFileAndCompress_quiet].
Qed.

Lemma dumpCommandLine_quiet (env : Env) (os : OS) (e : Event) (dumpPath : string)
    (h : HIDS) :
  quiet h (HookDumps.dumpCommandLine env os e dumpPath h).
Proof.
  unfold HookDumps.dumpCommandLine.
  destruct (GetString e pathSysmonCommandLine); [| apply quiet_refl].
  destruct (GetString e HookDumps.pathSysmonCurrentDirectory); [| apply quiet_refl].
  destruct (ArgvFromCommandLine env _) as [[| prog args] |]; try apply quiet_refl.
  apply foldl_quiet. intros h' a. apply dump_argument_quiet.
Qed.

Lemma dumpParentCommandLine_quiet (env : Env) (os : OS) (e : Event) (dumpPath : string)
    (h : HIDS) :
  quiet h (HookDumps.dumpParentCommandLine env os e dumpPath h).
Proof.
  unfold HookDumps.dumpParentCommandLine.
  destruct (GetString e pathSysmonProcessGUID); [| apply quiet_refl].
  destruct (GetByGuid h _) as [track |]; [| apply quiet_refl].
  destruct (ArgvFromCommandLine env _) as [[| prog args] |]; try apply quiet_refl.
  apply foldl_quiet. intros h' a. apply dump_argument_quiet.
Qed.

Lemma dump_field_quiet (env : Env) (os : OS) (e : Event) (path dumpPath : string)
    (h : HIDS) :
  quiet h (HookDumps.dump_field env os e path dumpPath h).
Proof.
  unfold HookDumps.dump_field.
  destruct (GetString e path); [apply dumpFileAndCompress_quiet | apply quiet_refl].
Qed.

Lemma dumpFilesRtn_quiet (env : Env) (os : OS) (IsDir : string → bool) (e : Event)
    (h : HIDS) :
  quiet (CheckDumpCountOrInc (srcGUIDFromEvent env e) (Dump_MaxDumps env)
           (Dump_DumpUntracked env) h).1
    (HookDumps.dumpFilesRtn env os IsDir e h).
Proof.
  unfold HookDumps.dumpFilesRtn.
  destruct (CheckDumpCountOrInc _ _ _ h) as [h1 ok]. simpl.
  destruct ok; simpl; [| apply quiet_refl].
  set (g := srcGUIDFromEvent env e).
  set (dumpPath := Join env _).
  pose proof (dumpEventAndCompress_quiet env os e g h1) as H2.
  set (h2 := (Hooks.dumpEventAndCompress env os e g h1).1) in *.
  pose proof (dumpCommandLine_quiet env os e dumpPath h2) as H3.
  set (h3 := HookDumps.dumpCommandLine env os e dumpPath h2) in *.
  pose proof (dumpParentCommandLine_quiet env os e dumpPath h3) as H4.
  set (h4 := HookDumps.dumpParentCommandLine env os e dumpPath h3) in *.
  assert (H14 : quiet h1 h4).
  { eapply quiet_trans; [exact H2 |]. by eapply quiet_trans. }
  assert (Hf : ∀ p h', quiet h1 h' →
            quiet h1 (HookDumps.dump_field env os e p dumpPath h')).
  { intros p h' Hh'. eapply quiet_trans; [exact Hh' | apply dump_field_quiet]. }
  destruct (_ || _ || _); [by apply Hf |].
  case_bool_decide; [by apply Hf |].
  case_bool_decide; [by apply Hf |].
  destruct (_ || _).
  { destruct (GetString e _); [| done].
    destruct (ArgvFromCommandLine env _) as [argv |]; [| done].
    eapply quiet_trans; [exact H14 |]. apply foldl_quiet. intros h' a.
    destruct (_ && _); [apply dumpFileAndCompress_quiet | apply quiet_refl]. }
  case_bool_decide.
  { destruct (GetBool e pathSysmonArchived) as [[|] |]; try by apply Hf.
    destruct (negb _); [by apply Hf |].
    destruct (GetString e pathSysmonHashes); [| by apply Hf].
    destruct (GetString e pathSysmonTargetFilename); [| by apply Hf].
    eapply quiet_trans; [by apply (Hf pathSysmonImage) |].
    apply dumpFileAndCompress_quiet. }
  apply Hf. by apply Hf.
Qed.

Lemma dumpRegistryRtn_quiet (env : Env) (os : OS) (e : Event) (h : HIDS) (g : string) :
  GetString e pathSysmonProcessGUID = Some g →
  quiet (CheckDumpCountOrInc g (Dump_MaxDumps env) (Dump_DumpUntracked env) h).1
    (HookDumps.dumpRegistryRtn env os e h).
Proof.
  intros Hg. unfold HookDumps.dumpRegistryRtn. rewrite Hg.
  destruct (CheckDumpCountOrInc _ _ _ h) as [h1 ok]. simpl.
  destruct ok; simpl; [| apply quiet_refl].
  destruct (GetString e pathSysmonTargetObject) as [target |]; [| apply quiet_refl].
  destruct (GetString e pathSysmonDetails) as [details |]; [| apply quiet_refl].
  case_bool_decide; [| apply quiet_refl].
  destruct (Split env target) as [key value].
  pose proof (dumpEventAndCompress_quiet env os e g h1) as H2.
  set (h2 := (Hooks.dumpEventAndCompress env os e g h1).1) in *.
  set (content := match RegQuery os key value with inl c => c | inr _ => _ end).
  set (dumpPath := Join env _).
  pose proof (write_file_quiet os dumpPath content h2) as H3.
  destruct (write_file os dumpPath content h2) as [h3 [err |]]; simpl in *.
  - by eapply quiet_trans.
  - eapply quiet_trans; [exact H2 |]. eapply quiet_trans; [exact H3 |].
    apply compress_quiet.
Qed.

Lemma dumpReportRtn_quiet (env : Env) (os : OS) (e : Event) (h : HIDS) :
  quiet (CheckDumpCountOrInc (srcGUIDFromEvent env e) (Dump_MaxDumps env)
           (Dump_DumpUntracked env) h).1
    (Hooks.dumpReportRtn env os e h).
Proof.
  unfold Hooks.dumpReportRtn.
  destruct (CheckDumpCountOrInc _ _ _ h) as [h1 ok]. simpl.
  destruct ok; simpl; [| apply quiet_refl].
  pose proof (dumpEventAndCompress_quiet env os e (srcGUIDFromEvent env e) h1) as H2.
  set (h2 := (Hooks.dumpEventAndCompress env os e _ h1).1) in *.
  destruct (Report_EnableReporting env); [| done].
  destruct (Report env h2 false) as [b |]; [| done].
  eapply quiet_trans; [exact H2 |].
  eapply quiet_trans; [apply write_file_quiet | apply compress_quiet].
Qed.

(** X8. The routines that dump files, registry values and reports, run to
    their end, write files and nothing else: the state they leave differs
    from the state left by their budget check in the files, the set of dumped
    hashes and paths, which has lost no member, and the compression queue;
    no call is issued, and the blacklist, the store, the set of dumped GUIDs
    and the in-flight set are as the check left them. *)
Theorem dump_routines_quiet (env : Env) (os : OS) (IsDir : string → bool) (e : Event)
    (h : HIDS) :
  let checked g :=
    (CheckDumpCountOrInc g (Dump_MaxDumps env) (Dump_DumpUntracked env) h).1 in
  quiet (checked (srcGUIDFromEvent env e)) (HookDumps.dumpFilesRtn env os IsDir e h)
  ∧ quiet (checked (srcGUIDFromEvent env e)) (Hooks.dumpReportRtn env os e h)
  ∧ quiet (default h (checked <$> GetString e pathSysmonProcessGUID))
      (HookDumps.dumpRegistryRtn env os e h)
  ∧ calls (HookDumps.dumpFilesRtn env os IsDir e h) = calls h
  ∧ calls (Hooks.dumpReportRtn env os e h) = calls h
  ∧ calls (HookDumps.dumpRegistryRtn env os e h) = calls h.
Proof.
  intros checked.
  pose proof (dumpFilesRtn_quiet env os IsDir e h) as Hf.
  pose proof (dumpReportRtn_quiet env os e h) as Hr.
  assert (Hg : quiet (default h (checked <$> GetString e pathSysmonProcessGUID))
                 (HookDumps.dumpRegistryRtn env os e h)).
  { destruct (GetString e pathSysmonProcessGUID) as [g |] eqn:Hg; simpl.
    - by apply dumpRegistryRtn_quiet.
    - unfold HookDumps.dumpRegistryRtn. rewrite Hg. apply quiet_refl. }
  assert (Hc : ∀ g, calls (checked g) = calls h).
  { intros g. subst checked. simpl.
    by destruct (CheckDumpCountOrInc_frame g (Dump_MaxDumps env) (Dump_DumpUntracked env) h)
      as (_ & _ & _ & _ & _ & _ & _ & ?). }
  split; [exact Hf |]. split; [exact Hr |]. split; [exact Hg |].
  destruct Hf as (_ & _ & _ & _ & _ & Hcf & _).
  destruct Hr as (_ & _ & _ & _ & _ & Hcr & _).
  destruct Hg as (_ & _ & _ & _ & _ & Hcg & _).
  split; [| split].
  - rewrite Hcf. apply Hc.
  - rewrite Hcr. apply Hc.
  - rewrite Hcg. destruct (GetString e pathSysmonProcessGUID); simpl; [apply Hc | done].
Qed.

(** ** [HandleActions]: missing or own track, the event artifact *)

Lemma memdump_runs_self (env : Env) (os : OS) (e : Event) (h : HIDS) (pt : ProcessTrack) :
  PID pt = getpid env → memdump_runs env os e h pt = false.
Proof.
  intros Hp. unfold memdump_runs.
  rewrite (bool_decide_eq_false_2 (PID pt ≠ getpid env)) by (by intros []).
  by rewrite andb_false_r.
Qed.

(** The body of [HandleActions] on an event without track, or whose track
    has the PID of the agent: no call, no blacklisting, no GUID marked. *)
Lemma handle_inert (env : Env) (os : OS) (e : Event) (actions : list string) (h : HIDS) :
  processTrackFromEvent env h e = None
  ∨ (∃ pt, processTrackFromEvent env h e = Some pt ∧ PID pt = getpid env) →
  let h' := Actions.handle env os e actions h in
  calls h' = calls h ∧ blacklisted h' = blacklisted h ∧ memdumped h' = memdumped h.
Proof.
  intros Hcase h'. subst h'. unfold Actions.handle.
  pose proof (handle_tail_files_only env os e actions) as Htail. cbv zeta in Htail.
  cbv zeta.
  set (h1 := if Actions.Contains actions ActionBlacklist then _ else h).
  set (h2 := if Actions.Contains actions ActionKill then _ else h1).
  set (h3 := if Actions.Contains actions ActionMemdump then _ else h2).
  set (h4 := if Actions.Contains actions ActionKill then _ else h3).
  destruct (Htail h4) as (_ & _ & Hb & Hm & _ & Hc).
  rewrite Hc, Hb, Hm. clear Htail Hc Hb Hm.
  assert (Hsame : ∀ hx, tracker hx = tracker h →
            processTrackFromEvent env hx e = None
            ∨ (∃ pt, processTrackFromEvent env hx e = Some pt ∧ PID pt = getpid env)).
  { intros hx Hx. by rewrite (processTrackFromEvent_tracker env h hx). }
  assert (H1 : h1 = h).
  { subst h1. destruct (Actions.Contains actions ActionBlacklist); [| done].
    destruct Hcase as [-> | (pt & -> & Hp)]; [done |].
    by rewrite bool_decide_eq_false_2 by (by intros []). }
  assert (H2 : h2 = h).
  { subst h2. rewrite H1. destruct (Actions.Contains actions ActionKill); [| done].
    unfold Actions.suspend_process.
    destruct Hcase as [-> | (pt & -> & Hp)]; [done |].
    by rewrite bool_decide_eq_false_2 by (by intros []). }
  assert (H3 : calls h3 = calls h ∧ blacklisted h3 = blacklisted h
               ∧ memdumped h3 = memdumped h ∧ tracker h3 = tracker h).
  { subst h3. rewrite H2. destruct (Actions.Contains actions ActionMemdump); [| done].
    destruct Hcase as [Hn | (pt & Hpt & Hp)].
    - by rewrite memdump_untracked.
    - destruct (memdump_effect env os e h pt Hpt) as (_ & Ht & Hb & _ & Hc & Hm & _).
      rewrite (memdump_runs_self env os e h pt Hp) in Hc, Hm. simpl in Hm.
      rewrite app_nil_r in Hc. done. }
  destruct H3 as (Hc3 & Hb3 & Hm3 & Ht3).
  assert (H4 : h4 = h3).
  { subst h4. destruct (Actions.Contains actions ActionKill); [| done].
    unfold Actions.kill_process.
    destruct (Hsame h3 Ht3) as [-> | (pt & -> & Hp)]; [done |].
    by rewrite bool_decide_eq_false_2 by (by intros []). }
  by rewrite H4.
Qed.

(** X9. [HandleActions] on an event whose process is not tracked, or whose
    track has the PID of the agent, issues no call, blacklists nothing and
    marks no GUID as dumped, whatever the actions of the detection. *)
Theorem HandleActions_untracked_or_self (env : Env) (os : OS) (e : Event) (h : HIDS) :
  let h0 := (Actions.shouldDump env e h).1 in
  processTrackFromEvent env h0 e = None
  ∨ (∃ pt, processTrackFromEvent env h0 e = Some pt ∧ PID pt = getpid env) →
  let h' := Actions.HandleActions env os e h in
  calls h' = calls h ∧ blacklisted h' = blacklisted h ∧ memdumped h' = memdumped h.
Proof.
  intros h0 Hcase h'. subst h' h0. unfold Actions.HandleActions.
  pose proof (CheckDumpCountOrInc_frame (srcGUIDFromEvent env e) (Dump_MaxDumps env)
                (Dump_DumpUntracked env) h) as Hf.
  unfold Actions.shouldDump in *.
  destruct (CheckDumpCountOrInc _ _ _ h) as [h0 ok]. simpl in *.
  destruct Hf as (_ & Hb & Hm & _ & _ & _ & _ & Hc).
  destruct (ok && _); [| done].
  destruct (detection e) as [actions |]; [| done].
  destruct (handle_inert env os e actions h0 Hcase) as (-> & -> & ->). done.
Qed.

Lemma HandleActions_untracked_or_self_witness :
  let h := Examples.agent 0 in
  let e := Examples.detected "G0" ["kill"; "blacklist"; "memdump"] in
  (∃ pt, processTrackFromEvent Examples.env0 (Actions.shouldDump Examples.env0 e h).1 e
         = Some pt ∧ PID pt = 4)
  ∧ calls (Actions.HandleActions Examples.env0 Examples.os_ok e h) = []
  ∧ blacklisted (Actions.HandleActions Examples.env0 Examples.os_ok e h) = ∅.
Proof.
  intros h e.
  assert (Hself : ∃ pt,
            processTrackFromEvent Examples.env0 (Actions.shouldDump Examples.env0 e h).1 e
            = Some pt ∧ PID pt = 4).
  { exists (Examples.track "C:/whids/whids.exe" 4 "G0" 1). split; reflexivity. }
  destruct (HandleActions_untracked_or_self Examples.env0 Examples.os_ok e h
              (or_intror Hself)) as (Hc & Hb & _).
  split; [exact Hself |]. split; [exact Hc | exact Hb].
Defined.

(** X10. Whenever the guard of [HandleActions] passes, the event that
    triggered the actions is itself dumped, whatever the actions are: when
    the event can be encoded and the write succeeds, the file that
    [utils.HidsWriteReader] makes of [event.json] in the directory of the
    event, of the encoded event and of the configured compression flag is on
    disk. *)
Theorem HandleActions_dumps_event (env : Env) (os : OS) (e : Event) (h h0 : HIDS)
    (actions : list string) (js : string) :
  Actions.shouldDump env e h = (h0, true) →
  IsHIDSEvent env h0 e = false →
  detection e = Some actions →
  ToJSON env e = Some js →
  write_ok os (written env (Actions.prepare env e "event.json") js).1 = true →
  disk (Actions.HandleActions env os e h)
    !! (written env (Actions.prepare env e "event.json") js).1
  = Some (written env (Actions.prepare env e "event.json") js).2.
Proof.
  intros Hsd Hh Hdet Hjs Hw. unfold Actions.HandleActions. rewrite Hsd, Hh, Hdet. simpl.
  unfold Actions.handle. cbv zeta.
  set (h7 := if Actions.Contains actions ActionRegdump then _ else _).
  rewrite Hjs. unfold Actions.dumpAsJson. rewrite writeReader_write_file.
  unfold write_file. rewrite Hw. simpl. apply lookup_insert_eq.
Qed.

Lemma HandleActions_dumps_event_witness :
  let h := Examples.agent 0 in
  let e := Examples.detected "G1" ["kill"] in
  (Actions.shouldDump Examples.env_gz e h).2 = true
  ∧ disk (Actions.HandleActions Examples.env_gz Examples.os_ok e h)
      !! "dumps/G1/e1/event.json.gz"
    = Some "gzip({})"
  ∧ disk (Actions.HandleActions Examples.env0 Examples.os_ok e h)
      !! "dumps/G1/e1/event.json"
    = Some "{}".
Proof.
  intros h e. split; [reflexivity |]. split.
  - exact (HandleActions_dumps_event Examples.env_gz Examples.os_ok e h
             (Actions.shouldDump Examples.env_gz e h).1 ["kill"] "{}"
             eq_refl eq_refl eq_refl eq_refl eq_refl).
  - exact (HandleActions_dumps_event Examples.env0 Examples.os_ok e h
             (Actions.shouldDump Examples.env0 e h).1 ["kill"] "{}"
             eq_refl eq_refl eq_refl eq_refl eq_refl).
Defined.

(** ** No call is ever aimed at the agent *)

Lemma extends_sparing_refl (env : Env) (h : HIDS) : extends_sparing env h h.
Proof. exists []. by rewrite app_nil_r. Qed.

Lemma extends_sparing_trans (env : Env) (h1 h2 h3 : HIDS) :
  extends_sparing env h1 h2 → extends_sparing env h2 h3 → extends_sparing env h1 h3.
Proof.
  intros (l1 & H1 & F1) (l2 & H2 & F2). exists (l1 ++ l2)%list.
  split; [by rewrite H2, H1, app_assoc | by apply Forall_app].
Qed.

Lemma extends_sparing_same (env : Env) (h h' : HIDS) :
  calls h' = calls h → extends_sparing env h h'.
Proof. intros Hc. exists []. by rewrite app_nil_r. Qed.

Lemma extends_sparing_spares (env : Env) (h h' : HIDS) :
  extends_sparing env h h' → spares_agent env h → spares_agent env h'.
Proof.
  intros (l & Hc & Hl) Hs c. rewrite Hc, elem_of_app. intros [Hin | Hin].
  - by apply Hs.
  - rewrite Forall_forall in Hl. by apply Hl.
Qed.

Lemma handle_extends_sparing (env : Env) (os : OS) (e : Event) (actions : list string)
    (h : HIDS) :
  extends_sparing env h (Actions.handle env os e actions h).
Proof.
  destruct (processTrackFromEvent env h e) as [pt |] eqn:Hpt.
  - destruct (decide (PID pt = getpid env)) as [Hself | Hne].
    + apply extends_sparing_same.
      by destruct (handle_inert env os e actions h) as (? & _); [right; eauto |].
    + destruct (handle_effect env os e actions h pt Hpt Hne) as (Hc & _).
      eexists. split; [exact Hc |].
      assert (Hp : Some (PID pt) ≠ Some (getpid env)) by congruence.
      repeat (apply Forall_app; split);
        repeat match goal with |- context [if ?b then _ else _] => destruct b end;
        repeat constructor; done.
  - apply extends_sparing_same.
    by destruct (handle_inert env os e actions h) as (? & _); [by left |].
Qed.

Lemma HandleActions_extends_sparing (env : Env) (os : OS) (e : Event) (h : HIDS) :
  extends_sparing env h (Actions.HandleActions env os e h).
Proof.
  unfold Actions.HandleActions, Actions.shouldDump.
  pose proof (CheckDumpCountOrInc_frame (srcGUIDFromEvent env e) (Dump_MaxDumps env)
                (Dump_DumpUntracked env) h) as Hf.
  destruct (CheckDumpCountOrInc _ _ _ h) as [h0 ok]. simpl in Hf.
  destruct Hf as (_ & _ & _ & _ & _ & _ & _ & Hc).
  assert (H0 : extends_sparing env h h0) by (by apply extends_sparing_same).
  destruct (ok && _); [| done].
  destruct (detection e) as [actions |]; [| done].
  eapply extends_sparing_trans; [exact H0 | apply handle_extends_sparing].
Qed.

(** X11. Along any run of detections through [HandleActions], tracked or
    not, no suspension, memory snapshot or termination is aimed at the PID of
    the agent: a log free of such calls stays free of them. *)
Theorem HandleActions_spares_agent (env : Env) (reqs : list (OS * Event)) (h : HIDS) :
  spares_agent env h →
  spares_agent env (foldl (λ h r, Actions.HandleActions env r.1 r.2 h) h reqs).
Proof.
  revert h. induction reqs as [| [os e] reqs IH]; intros h Hs; simpl; [done |].
  apply IH. eapply extends_sparing_spares; [apply HandleActions_extends_sparing | done].
Qed.

Lemma HandleActions_spares_agent_witness :
  let h := Examples.agent 0 in
  let reqs := [(Examples.os_ok, Examples.detected "G0" ["kill"; "memdump"]);
               (Examples.os_ok, Examples.detected "G1" ["kill"; "memdump"])] in
  spares_agent Examples.env0 h
  ∧ spares_agent Examples.env0
      (foldl (λ h r, Actions.HandleActions Examples.env0 r.1 r.2 h) h reqs).
Proof.
  intros h reqs.
  assert (Hs : spares_agent Examples.env0 h).
  { intros c Hin. by apply not_elem_of_nil in Hin. }
  split; [exact Hs |].
  exact (HandleActions_spares_agent Examples.env0 reqs h Hs).
Defined.

Lemma dump_routines_calls (env : Env) (os : OS) (IsDir : string → bool) (e : Event)
    (h : HIDS) :
  calls (HookDumps.dumpFilesRtn env os IsDir e h) = calls h
  ∧ calls (Hooks.dumpReportRtn env os e h) = calls h
  ∧ calls (HookDumps.dumpRegistryRtn env os e h) = calls h.
Proof.
  assert (Hc : ∀ g, calls (CheckDumpCountOrInc g (Dump_MaxDumps env)
                             (Dump_DumpUntracked env) h).1 = calls h).
  { intros g.
    by destruct (CheckDumpCountOrInc_frame g (Dump_MaxDumps env) (Dump_DumpUntracked env) h)
      as (_ & _ & _ & _ & _ & _ & _ & ?). }
  split; [| split].
  - destruct (dumpFilesRtn_quiet env os IsDir e h) as (_ & _ & _ & _ & _ & -> & _).
    apply Hc.
  - destruct (dumpReportRtn_quiet env os e h) as (_ & _ & _ & _ & _ & -> & _).
    apply Hc.
  - destruct (GetString e pathSysmonProcessGUID) as [g |] eqn:Hg.
    + destruct (dumpRegistryRtn_quiet env os e h g Hg) as (_ & _ & _ & _ & _ & -> & _).
      apply Hc.
    + unfold HookDumps.dumpRegistryRtn. by rewrite Hg.
Qed.

Lemma handle_action_sparing (env : Env) (e : Event) (st : Hooks.LoopState) (a : string) :
  let st' := Hooks.handle_action env e st a in
  extends_sparing env (Hooks.l_hids st) (Hooks.l_hids st')
  ∧ ∃ more, Hooks.l_spawned st' = (Hooks.l_spawned st ++ more)%list
            ∧ ∀ pt, Hooks.KillAfterDump pt ∉ more.
Proof.
  unfold Hooks.handle_action.
  assert (Hnone : ∀ l : list Hooks.Task, ∃ more, l = (l ++ more)%list
                    ∧ ∀ pt', Hooks.KillAfterDump pt' ∉ more).
  { intros l. exists []. rewrite app_nil_r. split; [done |].
    intros pt'. apply not_elem_of_nil. }
  assert (Hone : ∀ (l : list Hooks.Task) t, (∀ pt', t ≠ Hooks.KillAfterDump pt') →
            ∃ more, (l ++ [t])%list = (l ++ more)%list
                    ∧ ∀ pt', Hooks.KillAfterDump pt' ∉ more).
  { intros l t Ht. exists [t]. split; [done |]. intros pt'.
    rewrite list_elem_of_singleton. intros Heq. by apply (Ht pt'). }
  case_bool_decide.
  { simpl. split; [| apply Hnone].
    destruct (processTrackFromEvent env (Hooks.l_hids st) e) as [pt |];
      [| apply extends_sparing_refl].
    case_bool_decide as Hne; [| apply extends_sparing_refl].
    exists [SuspendProcess (PID pt)]. split; [done |].
    constructor; [simpl; congruence | constructor]. }
  case_bool_decide.
  { simpl. split; [| apply Hnone]. apply extends_sparing_same.
    destruct (processTrackFromEvent env (Hooks.l_hids st) e) as [pt |]; [| done].
    by case_bool_decide. }
  case_bool_decide; [simpl; split; [apply extends_sparing_refl | by apply Hone] |].
  case_bool_decide; [simpl; split; [apply extends_sparing_refl | by apply Hone] |].
  case_bool_decide; [simpl; split; [apply extends_sparing_refl | by apply Hone] |].
  case_bool_decide; [simpl; split; [apply extends_sparing_refl | by apply Hone] |].
  split; [apply extends_sparing_refl | apply Hnone].
Qed.

Lemma handle_actions_sparing (env : Env) (e : Event) (actions : list string)
    (st : Hooks.LoopState) :
  let st' := foldl (Hooks.handle_action env e) st actions in
  extends_sparing env (Hooks.l_hids st) (Hooks.l_hids st')
  ∧ ∃ more, Hooks.l_spawned st' = (Hooks.l_spawned st ++ more)%list
            ∧ ∀ pt, Hooks.KillAfterDump pt ∉ more.
Proof.
  revert st. induction actions as [| a actions IH]; intros st; simpl.
  - split; [apply extends_sparing_refl |]. exists []. rewrite app_nil_r.
    split; [done |]. intros pt. apply not_elem_of_nil.
  - destruct (handle_action_sparing env e st a) as (H1 & more1 & Hs1 & Hn1).
    destruct (IH (Hooks.handle_action env e st a)) as (H2 & more2 & Hs2 & Hn2).
    split; [by eapply extends_sparing_trans |].
    exists (more1 ++ more2)%list. split; [by rewrite Hs2, Hs1, app_assoc |].
    intros pt. rewrite elem_of_app. intros [? | ?]; [by eapply Hn1 | by eapply Hn2].
Qed.

Lemma terminate_sparing (env : Env) (os : OS) (pid : Z) (h : HIDS) :
  pid ≠ getpid env → extends_sparing env h (terminate env os pid h).1.
Proof.
  intros Hne. unfold terminate. rewrite bool_decide_eq_false_2 by done. simpl.
  exists [TerminateProcess pid]. split; [done |].
  constructor; [simpl; congruence | constructor].
Qed.

Lemma hookHandleActions_sparing (env : Env) (os : OS) (h : HIDS) (e : Event) :
  let r := Hooks.hookHandleActions env os h e in
  extends_sparing env h r.1
  ∧ ∀ pt, Hooks.KillAfterDump pt ∈ r.2 → PID pt ≠ getpid env.
Proof.
  unfold Hooks.hookHandleActions.
  assert (Hnil : extends_sparing env h h
                 ∧ ∀ pt, Hooks.KillAfterDump pt ∈ @nil Hooks.Task → PID pt ≠ getpid env).
  { split; [apply extends_sparing_refl |]. by intros pt ?%not_elem_of_nil. }
  destruct (IsHIDSEvent env h e); [done |].
  case_bool_decide; [| done].
  destruct (detection e) as [actions |]; [| done].
  destruct (handle_actions_sparing env e actions (Hooks.mkLoop h false false []))
    as (Hext & more & Hs & Hn). simpl in Hext, Hs.
  set (st := foldl (Hooks.handle_action env e) _ actions) in *.
  assert (Hplain : extends_sparing env h (Hooks.l_hids st)
                   ∧ ∀ pt, Hooks.KillAfterDump pt ∈ Hooks.l_spawned st →
                           PID pt ≠ getpid env).
  { split; [done |]. intros pt. rewrite Hs. intros Hin. by apply Hn in Hin. }
  destruct (Hooks.l_kill st); [| done].
  destruct (processTrackFromEvent env (Hooks.l_hids st) e) as [pt |]; [| done].
  case_bool_decide as Hne; [| done].
  destruct (Hooks.l_memdump st); simpl.
  - split; [done |]. intros pt'. rewrite Hs, elem_of_app.
    intros [Hin | Hin]; [by apply Hn in Hin |].
    apply list_elem_of_singleton in Hin. by injection Hin as ->.
  - split; [| by apply Hplain].
    eapply extends_sparing_trans; [exact Hext |]. by apply terminate_sparing.
Qed.

Lemma dumpPidAndCompress_sparing (env : Env) (os : OS) (pid : Z) (g id : string)
    (h : HIDS) :
  extends_sparing env h (Hooks.dumpPidAndCompress env os pid g id h).
Proof.
  unfold Hooks.dumpPidAndCompress.
  destruct (IsPIDRunning os pid); [| apply extends_sparing_refl].
  case_bool_decide as Hne; [| apply extends_sparing_refl]. simpl.
  destruct (negb _ && negb _); [| apply extends_sparing_refl].
  set (path := Join env _).
  exists [FullMemoryMiniDump pid path]. split.
  - destruct (minidump os pid path); [| done].
    unfold compress. by destruct (Dump_Compression env).
  - constructor; [simpl; congruence | constructor].
Qed.

Lemma dumpProcessRtn_sparing (env : Env) (os : OS) (e : Event) (h : HIDS) :
  extends_sparing env h (Hooks.dumpProcessRtn env os e h).
Proof.
  unfold Hooks.dumpProcessRtn.
  assert (Hev : ∀ g hx, extends_sparing env hx (Hooks.dumpEventAndCompress env os e g hx).1).
  { intros g hx. apply extends_sparing_same.
    by destruct (dumpEventAndCompress_quiet env os e g hx) as (_ & _ & _ & _ & _ & ? & _). }
  case_bool_decide; [| apply Hev].
  pose proof (CheckDumpCountOrInc_frame (srcGUIDFromEvent env e) (Dump_MaxDumps env)
                (Dump_DumpUntracked env) h) as Hf.
  destruct (CheckDumpCountOrInc _ _ _ h) as [h1 ok]. simpl in Hf.
  destruct Hf as (_ & _ & _ & _ & _ & _ & _ & Hc).
  assert (H1 : extends_sparing env h h1) by (by apply extends_sparing_same).
  destruct ok; simpl; [| done].
  eapply extends_sparing_trans; [exact H1 |].
  eapply extends_sparing_trans; [| apply Hev].
  destruct (GetByGuid h1 _); [apply dumpPidAndCompress_sparing | apply extends_sparing_refl].
Qed.

Lemma killAfterDump_sparing (env : Env) (os : OS) (seen : nat → bool) (pt : ProcessTrack)
    (h : HIDS) :
  PID pt ≠ getpid env → extends_sparing env h (Hooks.killAfterDump env os seen pt h).
Proof.
  intros Hne.
  destruct (killAfterDump_effect env os seen pt h Hne) as (n & _ & Hc & _).
  eexists. split; [exact Hc |]. apply Forall_app. split.
  - apply Forall_forall. intros c [-> _]%elem_of_replicate. done.
  - constructor; [simpl; congruence | constructor].
Qed.

(** X12. [hookHandleActions] and the goroutines it starts never aim a call
    at the agent: a log without suspension, snapshot or termination of the
    agent's PID is still without one when the hook returns, and after each
    goroutine it has started has run, in whatever state and with whatever
    answers of the host it runs. *)
Theorem hook_actions_spare_agent (env : Env) (os : OS) (h : HIDS) (e : Event) :
  let r := Hooks.hookHandleActions env os h e in
  (spares_agent env h → spares_agent env r.1)
  ∧ ∀ t os' IsDir seen h',
      t ∈ r.2 → spares_agent env h' →
      spares_agent env (HookDumps.run_task env os' IsDir seen t h').
Proof.
  intros r. destruct (hookHandleActions_sparing env os h e) as [Hext Hkill].
  fold r in Hext, Hkill. split.
  - by apply extends_sparing_spares.
  - intros t os' IsDir seen h' Hin. apply extends_sparing_spares.
    destruct t as [e' | e' | e' | e' | pt]; simpl.
    + apply dumpProcessRtn_sparing.
    + apply extends_sparing_same.
      by destruct (dump_routines_calls env os' IsDir e' h') as (_ & _ & ?).
    + apply extends_sparing_same.
      by destruct (dump_routines_calls env os' IsDir e' h') as (? & _ & _).
    + apply extends_sparing_same.
      by destruct (dump_routines_calls env os' IsDir e' h') as (_ & ? & _).
    + apply killAfterDump_sparing. by apply Hkill.
Qed.

Lemma hook_actions_spare_agent_witness :
  let h := Examples.agent 0 in
  let e := Examples.detected "G0" ["kill"; "memdump"] in
  let r := Hooks.hookHandleActions Examples.env0 Examples.os_ok h e in
  spares_agent Examples.env0 h
  ∧ spares_agent Examples.env0 r.1
  ∧ r.2 = [Hooks.DumpProcess e]
  ∧ spares_agent Examples.env0
      (HookDumps.run_task Examples.env0 Examples.os_ok (λ _, true) (λ _, false)
         (Hooks.DumpProcess e) r.1).
Proof.
  intros h e r.
  assert (Hs : spares_agent Examples.env0 h).
  { intros c Hin. by apply not_elem_of_nil in Hin. }
  destruct (hook_actions_spare_agent Examples.env0 Examples.os_ok h e) as [H1 H2].
  split; [exact Hs |]. split; [exact (H1 Hs) |]. split; [reflexivity |].
  apply H2; [apply list_elem_of_here | exact (H1 Hs)].
Defined.

(** ** The terminator acts on blacklisted creations only *)

(** X13. [hookTerminator] either leaves the state as it is, or the event is
    a process creation whose command line is in the blacklist and the only
    change is the termination call for the PID of the event. *)
Theorem terminator_only_blacklisted (env : Env) (os : OS) (h : HIDS) (e : Event) :
  Hooks.hookTerminator env os h e = h
  ∨ (EventID e = SysmonProcessCreate
     ∧ ∃ cl pid, GetString e pathSysmonCommandLine = Some cl
                 ∧ GetInt e pathSysmonProcessId = Some pid
                 ∧ cl ∈ blacklisted h
                 ∧ Hooks.hookTerminator env os h e = call (TerminateProcess pid) h).
Proof.
  unfold Hooks.hookTerminator. case_bool_decide as Hid; [| by left].
  destruct (GetString e pathSysmonCommandLine) as [cl |]; [| by left].
  destruct (GetInt e pathSysmonProcessId) as [pid |]; [| by left].
  unfold IsBlacklisted. case_bool_decide as Hbl; [| by left].
  unfold terminate. case_bool_decide; [by left |].
  right. split; [done |]. by exists cl, pid.
Qed.

(** ** Image-load enrichment: what is set and what is kept *)

Lemma Set_other (e : Event) (p q v : string) :
  q ≠ p → GetString (Set_ e p v) q = GetString e q.
Proof. intros Hne. unfold GetString, Set_. simpl. by rewrite lookup_insert_ne. Qed.

Lemma Set_same (e : Event) (p v : string) : GetString (Set_ e p v) p = Some v.
Proof. unfold GetString, Set_. simpl. apply lookup_insert_eq. Qed.

(** X14. After [hookImageLoad] the two parent fields of the event are always
    set, to "?" when the event has no GUID or the GUID is not tracked; no
    other field of the event changes.  In the store no track appears or
    disappears, and a track differs from what it was at most in its three
    signature fields; without track for the event the agent is unchanged. *)
Theorem image_load_sets_parent_fields (h : HIDS) (e : Event) :
  let r := Hooks.hookImageLoad h e in
  is_Some (GetString r.2 pathImageLoadParentImage)
  ∧ is_Some (GetString r.2 pathImageLoadParentCommandLine)
  ∧ (∀ p, p ≠ pathImageLoadParentImage → p ≠ pathImageLoadParentCommandLine →
       GetString r.2 p = GetString e p)
  ∧ (GetString e pathSysmonProcessGUID ≫= GetByGuid h = None →
       r.1 = h
       ∧ GetString r.2 pathImageLoadParentImage = Some "?"
       ∧ GetString r.2 pathImageLoadParentCommandLine = Some "?")
  ∧ (∀ g, match tracker h !! g, tracker r.1 !! g with
          | Some t, Some t' => same_but_signature t t'
          | None, None => True
          | _, _ => False
          end).
Proof.
  unfold Hooks.hookImageLoad.
  set (e2 := Set_ (Set_ e pathImageLoadParentImage "?") pathImageLoadParentCommandLine "?").
  assert (Hget : ∀ p, p ≠ pathImageLoadParentImage → p ≠ pathImageLoadParentCommandLine →
            GetString e2 p = GetString e p).
  { intros p H1 H2. subst e2. by rewrite !Set_other. }
  assert (Hdef : GetString e2 pathImageLoadParentImage = Some "?"
                 ∧ GetString e2 pathImageLoadParentCommandLine = Some "?").
  { subst e2. split; [| apply Set_same]. rewrite Set_other by done. apply Set_same. }
  assert (Hsame : ∀ g, match tracker h !! g, tracker h !! g with
                       | Some t, Some t' => same_but_signature t t'
                       | None, None => True
                       | _, _ => False
                       end).
  { intros g. destruct (tracker h !! g); [by repeat split | done]. }
  unfold GetBool. rewrite !Hget by done.
  destruct (GetString e pathSysmonProcessGUID) as [g |] eqn:Hg; simpl;
    [| destruct Hdef as [H1 H2]; rewrite H1, H2; by repeat split].
  destruct (GetByGuid h g) as [track |] eqn:Ht; simpl;
    [| destruct Hdef as [H1 H2]; rewrite H1, H2; by repeat split].
  set (t' := match GetString e pathSysmonImage with Some _ => _ | None => _ end).
  assert (Hsig : same_but_signature track t').
  { subst t'. destruct (GetString e pathSysmonImage); [| by repeat split].
    case_bool_decide; [| by repeat split].
    by destruct (GetString e pathSysmonSigned ≫= ParseBool),
         (GetString e pathSysmonSignature),
         (GetString e pathSysmonSignatureStatus). }
  split; [| split; [| split; [| split]]].
  - rewrite Set_other by done. rewrite Set_same. by eexists.
  - rewrite Set_same. by eexists.
  - intros p H1 H2. rewrite !Set_other by done. by apply Hget.
  - done.
  - intros g'. destruct (decide (g = g')) as [<- | Hne].
    + unfold GetByGuid in Ht. rewrite Ht, lookup_insert_eq. exact Hsig.
    + rewrite lookup_insert_ne by done. apply Hsame.
Qed.

Lemma image_load_sets_parent_fields_witness :
  let e := Examples.created "77" "x.exe" in
  let r := Hooks.hookImageLoad (Examples.agent 0) e in
  GetString e pathSysmonProcessGUID ≫= GetByGuid (Examples.agent 0) = None
  ∧ r.1 = Examples.agent 0
  ∧ GetString r.2 pathImageLoadParentImage = Some "?".
Proof.
  intros e r.
  assert (Hn : GetString e pathSysmonProcessGUID ≫= GetByGuid (Examples.agent 0) = None)
    by reflexivity.
  destruct (image_load_sets_parent_fields (Examples.agent 0) e) as (_ & _ & _ & Hu & _).
  destruct (Hu Hn) as (H1 & H2 & _).
  split; [exact Hn |]. split; [exact H1 | exact H2].
Defined.

(** ** [hookHandleActions]: goroutines started, kill without memory dump *)

Lemma handle_action_spawn (env : Env) (e : Event) (st : Hooks.LoopState) (a : string) :
  Hooks.l_spawned (Hooks.handle_action env e st a)
  = (Hooks.l_spawned st ++ option_list (task_of_action e a))%list.
Proof.
  unfold Hooks.handle_action, task_of_action.
  destruct (decide (a = ActionKill)) as [-> | ?].
  { rewrite bool_decide_eq_true_2 by done. simpl. by rewrite app_nil_r. }
  rewrite (bool_decide_eq_false_2 (a = ActionKill)) by done.
  destruct (decide (a = ActionBlacklist)) as [-> | ?].
  { rewrite bool_decide_eq_true_2 by done. simpl. by rewrite app_nil_r. }
  rewrite (bool_decide_eq_false_2 (a = ActionBlacklist)) by done.
  repeat (case_bool_decide; [done |]). simpl. by rewrite app_nil_r.
Qed.

Lemma handle_actions_spawn (env : Env) (e : Event) (actions : list string)
    (st : Hooks.LoopState) :
  Hooks.l_spawned (foldl (Hooks.handle_action env e) st actions)
  = (Hooks.l_spawned st ++ omap (task_of_action e) actions)%list.
Proof.
  revert st. induction actions as [| a actions IH]; intros st; simpl.
  - by rewrite app_nil_r.
  - rewrite IH, handle_action_spawn, <- app_assoc. f_equal.
    by destruct (task_of_action e a).
Qed.

(** X15. [hookHandleActions] starts one dump goroutine for each [memdump],
    [regdump], [filedump] and [report] of the action list, in the order of
    the list and as many times as the name occurs; any other name starts
    none.  A last goroutine, [KillAfterDump], may follow them.  For an event
    of the agent, without GUID or without actions, nothing is started and
    nothing changes. *)
Theorem hook_actions_goroutines (env : Env) (os : OS) (h : HIDS) (e : Event) :
  let r := Hooks.hookHandleActions env os h e in
  (IsHIDSEvent env h e = true ∨ srcGUIDFromEvent env e = nullGUID ∨ detection e = None →
     r = (h, []))
  ∧ (∀ actions,
       IsHIDSEvent env h e = false → srcGUIDFromEvent env e ≠ nullGUID →
       detection e = Some actions →
       r.2 = omap (task_of_action e) actions
       ∨ ∃ pt, r.2 = (omap (task_of_action e) actions ++ [Hooks.KillAfterDump pt])%list).
Proof.
  intros r. subst r. unfold Hooks.hookHandleActions. split.
  - intros [Hh | [Hg | Hd]].
    + by rewrite Hh.
    + destruct (IsHIDSEvent env h e); [done |].
      by rewrite bool_decide_eq_false_2 by (by intros []).
    + destruct (IsHIDSEvent env h e); [done |]. rewrite Hd. by case_bool_decide.
  - intros actions Hh Hg Hd. rewrite Hh, Hd. rewrite bool_decide_eq_true_2 by done.
    pose proof (handle_actions_spawn env e actions (Hooks.mkLoop h false false [])) as Hs.
    simpl in Hs. set (st := foldl (Hooks.handle_action env e) _ actions) in *.
    destruct (Hooks.l_kill st); [| by left].
    destruct (processTrackFromEvent env (Hooks.l_hids st) e) as [pt |]; [| by left].
    case_bool_decide; [| by left].
    destruct (Hooks.l_memdump st); simpl; [| by left].
    right. exists pt. by rewrite Hs.
Qed.

Lemma hook_actions_goroutines_witness :
  let e := Examples.detected "G1" ["report"; "brief"; "memdump"; "memdump"] in
  let r := Hooks.hookHandleActions Examples.env0 Examples.os_ok (Examples.agent 0) e in
  srcGUIDFromEvent Examples.env0 e ≠ nullGUID
  ∧ (r.2 = [Hooks.DumpReport e; Hooks.DumpProcess e; Hooks.DumpProcess e]
     ∨ ∃ pt, r.2 = ([Hooks.DumpReport e; Hooks.DumpProcess e; Hooks.DumpProcess e]
                    ++ [Hooks.KillAfterDump pt])%list).
Proof.
  intros e r.
  assert (Hg : srcGUIDFromEvent Examples.env0 e ≠ nullGUID) by done.
  split; [exact Hg |].
  exact (proj2 (hook_actions_goroutines Examples.env0 Examples.os_ok (Examples.agent 0) e)
           ["report"; "brief"; "memdump"; "memdump"] eq_refl Hg eq_refl).
Defined.

(** X16. [hookHandleActions] with [kill] and without [memdump], on a tracked
    process that is not the agent: the process is suspended, once for each
    [kill] of the list, and terminated before the hook returns; no goroutine
    is left to terminate it. *)
Theorem hook_kill_without_memdump (env : Env) (os : OS) (h : HIDS) (e : Event)
    (actions : list string) (pt : ProcessTrack) :
  IsHIDSEvent env h e = false →
  srcGUIDFromEvent env e ≠ nullGUID →
  detection e = Some actions →
  ActionKill ∈ actions → ActionMemdump ∉ actions →
  processTrackFromEvent env h e = Some pt →
  PID pt ≠ getpid env →
  let r := Hooks.hookHandleActions env os h e in
  (1 ≤ length (filter (λ a, a = ActionKill) actions))%nat
  ∧ calls r.1 = (calls h
                 ++ replicate (length (filter (λ a, a = ActionKill) actions))
                      (SuspendProcess (PID pt))
                 ++ [TerminateProcess (PID pt)])%list
  ∧ r.2 = omap (task_of_action e) actions
  ∧ ∀ pt', Hooks.KillAfterDump pt' ∉ r.2.
Proof.
  intros Hh Hg Hdet Hk Hm Hpt Hne r. subst r.
  unfold Hooks.hookHandleActions. rewrite Hh, Hdet.
  rewrite (bool_decide_eq_true_2 _ Hg).
  destruct (handle_actions_loop env e pt actions (Hooks.mkLoop h false false [])
              Hpt Hne) as (Ht & _ & Hc & Hkill & Hmem & more & Hs & Hnk).
  pose proof (handle_actions_spawn env e actions (Hooks.mkLoop h false false [])) as Hsp.
  simpl in Ht, Hc, Hkill, Hmem, Hs, Hsp.
  rewrite (bool_decide_eq_true_2 _ Hk) in Hkill.
  rewrite (bool_decide_eq_false_2 _ Hm) in Hmem.
  rewrite Hkill, Hmem.
  rewrite (processTrackFromEvent_tracker env h) by exact Ht. rewrite Hpt.
  rewrite (bool_decide_eq_true_2 _ Hne). simpl.
  unfold Track_TerminateProcess, terminate. rewrite bool_decide_eq_false_2 by done.
  simpl. split; [| split; [| split]].
  - by apply filter_eq_length_pos.
  - by rewrite Hc, <- app_assoc.
  - exact Hsp.
  - intros pt'. rewrite Hs. apply Hnk.
Qed.

Lemma hook_kill_without_memdump_witness :
  let e := Examples.detected "G1" ["kill"; "report"] in
  let r := Hooks.hookHandleActions Examples.env0 Examples.os_ok (Examples.agent 0) e in
  (ActionMemdump ∉ ["kill"; "report"])
  ∧ calls r.1 = [SuspendProcess 42; TerminateProcess 42]
  ∧ r.2 = [Hooks.DumpReport e].
Proof.
  intros e r.
  assert (Hk : ActionKill ∈ ["kill"; "report"]) by apply list_elem_of_here.
  assert (Hm : ActionMemdump ∉ ["kill"; "report"]).
  { intros Hin. apply elem_of_cons in Hin as [Heq | Hin]; [done |].
    apply list_elem_of_singleton in Hin. done. }
  assert (Hg : srcGUIDFromEvent Examples.env0 e ≠ nullGUID) by done.
  assert (Hne : 42 ≠ 4) by done.
  destruct (hook_kill_without_memdump Examples.env0 Examples.os_ok (Examples.agent 0) e
              ["kill"; "report"] (Examples.track "C:/app.exe" 42 "G1" 0)
              eq_refl Hg eq_refl Hk Hm eq_refl Hne) as (_ & Hc & Ht & _).
  split; [exact Hm |]. split; [exact Hc | exact Ht].
Defined.

(** ** The event of a dump is written once *)



(** ** The rule files of the manager *)

Lemma length_append (a b : string) :
  String.length (a +:+ b) = (String.length a + String.length b)%nat.
Proof. induction a as [| c a IH]; simpl; [done | by rewrite IH]. Qed.

Lemma append_tmp_ne (s : string) : s +:+ ".tmp" ≠ s.
Proof.
  intros Heq. apply (f_equal String.length) in Heq.
  rewrite length_append in Heq. simpl in Heq. lia.
Qed.

Lemma remove_rule_files_content (host : Api.Host) (dir : string) (names : list string)
    (fs : Api.Files) :
  ∀ p, Api.content (Api.remove_rule_files host dir names fs).1 !! p = Api.content fs !! p
       ∨ (Api.content (Api.remove_rule_files host dir names fs).1 !! p = None
          ∧ Api.h_Ext host p ∈ Api.DefaultRuleExtensions host
          ∧ ∃ name, name ∈ names ∧ p = Api.h_Join host [dir; name]).
Proof.
  revert fs. induction names as [| name names IH]; intros fs p; simpl; [by left |].
  case_bool_decide as Hext.
  - unfold Api.os_Remove.
    destruct (Api.content fs !! Api.h_Join host [dir; name]) eqn:Hin; [| by left].
    destruct (Api.remove_ok host _); [| by left].
    set (fs' := Api.mkFiles _ _).
    destruct (IH fs' p) as [Heq | (Hn & He & name' & Hin' & ->)].
    + destruct (decide (p = Api.h_Join host [dir; name])) as [-> | Hne].
      * right. split; [| split; [done |]].
        { rewrite Heq. subst fs'. simpl. apply lookup_delete_eq. }
        exists name. split; [apply list_elem_of_here | done].
      * left. rewrite Heq. subst fs'. simpl. by rewrite lookup_delete_ne.
    + right. split; [done |]. split; [done |].
      exists name'. split; [by apply list_elem_of_further | done].
  - destruct (IH fs p) as [Heq | (Hn & He & name' & Hin' & ->)]; [by left |].
    right. split; [done |]. split; [done |].
    exists name'. split; [by apply list_elem_of_further | done].
Qed.

Lemma write_rules_content (host : Api.Host) (tmp : string) (lines : list string) :
  ∀ k fs,
    let r := Api.write_rules host tmp k lines fs in
    (∀ p, p ≠ tmp → Api.content r.1 !! p = Api.content fs !! p)
    ∧ (r.2 = true →
         Api.content r.1 !! tmp = (λ old, appended old lines) <$> Api.content fs !! tmp).
Proof.
  induction lines as [| line lines IH]; intros k fs; simpl.
  - split; [done |]. intros _. unfold appended. simpl. by destruct (Api.content fs !! tmp).
  - unfold Api.fd_WriteString. destruct (Api.writestring_ok host k); [| done].
    set (fs' := Api.mkFiles _ _).
    destruct (IH (S k) fs') as [Hother Htmp]. split.
    + intros p Hp. rewrite Hother by done. subst fs'. simpl. by rewrite lookup_alter_ne.
    + intros Hok. rewrite Htmp by done. subst fs'. simpl. rewrite lookup_alter_eq.
      by destruct (Api.content fs !! tmp).
Qed.

(** X18. When [rewrite_rules] answers with the success message, the rule
    file holds the raw rules to keep, one per line and in their order, and
    nothing else; the temporary file is gone.  This is so for
    [admAPIRulesSave] with all the rules of the engine. *)
Theorem rule_file_after_success (host : Api.Host) (m : Api.Manager) (keep : list string)
    (fs : Api.Files) :
  let new := Api.h_Join host [Api.RulesDir m; Api.rulesBasename] in
  let tmp := new +:+ ".tmp" in
  let r := Api.rewrite_rules host m keep fs in
  r.2 = Api.MsgOk →
  Api.content r.1 !! new = Some (appended "" (Api.GetRawRuleByName m <$> keep))
  ∧ Api.content r.1 !! tmp = None.
Proof.
  intros new tmp r. subst r. unfold Api.rewrite_rules. fold new. fold tmp.
  unfold Api.os_Create. destruct (Api.create_ok host tmp); [| done].
  set (fs1 := Api.mkFiles _ _).
  pose proof (remove_rule_files_content host (Api.RulesDir m)
                (concat (Api.Walk host (Api.content fs1) (Api.RulesDir m))) fs1 tmp) as Hrm.
  destruct (Api.remove_rule_files host (Api.RulesDir m) _ fs1) as [fs2 [|]]; [| done].
  pose proof (write_rules_content host tmp (Api.GetRawRuleByName m <$> keep) 0%nat fs2)
    as [_ Hw].
  destruct (Api.write_rules host tmp 0 _ fs2) as [fs3 [|]]; [| done].
  simpl in Hrm, Hw. specialize (Hw eq_refl).
  unfold Api.os_Rename. destruct (Api.content fs3 !! tmp) as [c |] eqn:Hc; [| done].
  destruct (Api.rename_ok host tmp new); [| done]. simpl. intros _.
  assert (H2 : Api.content fs2 !! tmp = Some "").
  { destruct Hrm as [Heq | (Hn & _)].
    - rewrite Heq. subst fs1. simpl. apply lookup_insert_eq.
    - rewrite Hn in Hw. done. }
  rewrite H2 in Hw. simpl in Hw. injection Hw as <-. split.
  - apply lookup_insert_eq.
  - rewrite lookup_insert_ne by (intros Heq; by apply (append_tmp_ne new)).
    apply lookup_delete_eq.
Qed.

Lemma rule_file_after_success_witness :
  let host := Examples.host_failing_write 2 in
  let r := Api.admAPIRulesSave host Examples.manager0 Examples.files0 in
  r.2 = Api.MsgOk
  ∧ Api.content r.1 !! "rules/compiled-updated.gen"
    = Some (appended "" ["{rule 1}"; "{rule 2}"])
  ∧ Api.content r.1 !! "rules/compiled-updated.gen.tmp" = None.
Proof.
  intros host r.
  assert (Hok : r.2 = Api.MsgOk) by (vm_compute; reflexivity).
  split; [exact Hok |].
  exact (rule_file_after_success host Examples.manager0 ["r1"; "r2"] Examples.files0 Hok).
Defined.

(** X19. Whatever its answer, [rewrite_rules] leaves every file other than
    the rule file and its temporary file as it was, or has removed it; a
    file is removed only if the walk of the rules directory has met it and
    its path has a rule extension. *)
Theorem rewrite_touches_rule_files_only (host : Api.Host) (m : Api.Manager)
    (keep : list string) (fs : Api.Files) (p : string) :
  let new := Api.h_Join host [Api.RulesDir m; Api.rulesBasename] in
  let tmp := new +:+ ".tmp" in
  let r := Api.rewrite_rules host m keep fs in
  p ≠ new → p ≠ tmp →
  Api.content r.1 !! p = Api.content fs !! p
  ∨ (Api.content r.1 !! p = None
     ∧ Api.h_Ext host p ∈ Api.DefaultRuleExtensions host
     ∧ ∃ name, name ∈ concat (Api.Walk host (<[tmp := ""]> (Api.content fs)) (Api.RulesDir m))
               ∧ p = Api.h_Join host [Api.RulesDir m; name]).
Proof.
  intros new tmp r Hnew Htmp. subst r. unfold Api.rewrite_rules. fold new. fold tmp.
  unfold Api.os_Create. destruct (Api.create_ok host tmp); [| by left].
  set (fs1 := Api.mkFiles _ _).
  assert (H1 : Api.content fs1 !! p = Api.content fs !! p).
  { subst fs1. simpl. by rewrite lookup_insert_ne. }
  pose proof (remove_rule_files_content host (Api.RulesDir m)
                (concat (Api.Walk host (Api.content fs1) (Api.RulesDir m))) fs1 p) as Hrm.
  rewrite H1 in Hrm.
  destruct (Api.remove_rule_files host (Api.RulesDir m) _ fs1) as [fs2 [|]]; [| exact Hrm].
  pose proof (write_rules_content host tmp (Api.GetRawRuleByName m <$> keep) 0%nat fs2)
    as [Hw _].
  specialize (Hw p Htmp).
  destruct (Api.write_rules host tmp 0 _ fs2) as [fs3 [|]]; simpl in Hw, Hrm; simpl.
  2: { by rewrite Hw. }
  unfold Api.os_Rename.
  destruct (Api.content fs3 !! tmp) as [c |]; simpl; [| by rewrite Hw].
  destruct (Api.rename_ok host tmp new); simpl; [| by rewrite Hw].
  rewrite lookup_insert_ne by done. rewrite lookup_delete_ne by done. by rewrite Hw.
Qed.

Lemma rewrite_touches_rule_files_only_witness :
  let host := Examples.host_failing_write 1 in
  let fs := Api.mkFiles {[ "rules/old.gen" := "{rule 0}"; "rules/notes.txt" := "n" ]} [] in
  let r := Api.admAPIRulesSave host Examples.manager0 fs in
  (Api.h_Ext host "rules/notes.txt" ∉ Api.DefaultRuleExtensions host)
  ∧ Api.content r.1 !! "rules/notes.txt" = Some "n".
Proof.
  intros host fs r.
  assert (He : Api.h_Ext host "rules/notes.txt" ∉ Api.DefaultRuleExtensions host).
  { assert (Hx : Api.h_Ext host "rules/notes.txt" = ".txt") by (vm_compute; reflexivity).
    rewrite Hx. intros Hin. apply elem_of_cons in Hin as [Heq | Hin]; [done |].
    apply list_elem_of_singleton in Hin. done. }
  assert (Hl : Api.content fs !! "rules/notes.txt" = Some "n") by (vm_compute; reflexivity).
  assert (H1 : "rules/notes.txt"
               ≠ Api.h_Join host [Api.RulesDir Examples.manager0; Api.rulesBasename])
    by (vm_compute; congruence).
  assert (H2 : "rules/notes.txt"
               ≠ Api.h_Join host [Api.RulesDir Examples.manager0; Api.rulesBasename]
                 +:+ ".tmp")
    by (vm_compute; congruence).
  split; [exact He |].
  destruct (rewrite_touches_rule_files_only host Examples.manager0
              (Api.GetRuleNames Examples.manager0) fs "rules/notes.txt" H1 H2)
    as [Heq | (_ & Hin & _)].
  - exact (eq_trans Heq Hl).
  - destruct (He Hin).
Defined.

Lemma GetRawRuleByName_unknown (m : Api.Manager) (name : string) :
  name ∉ Api.GetRuleNames m → Api.GetRawRuleByName m name = "".
Proof.
  intros Hnot. unfold Api.GetRawRuleByName.
  destruct (list_find _ (Api.geneEng m)) as [[i r] |] eqn:Hf; [| done].
  apply list_find_Some in Hf as (Hl & Hn & _). exfalso. apply Hnot.
  unfold Api.GetRuleNames. apply list_elem_of_fmap. exists r.
  split; [done |]. by apply list_elem_of_lookup_2 with i.
Qed.

(** X20. The [DELETE] handler does nothing to the files for a name that is
    not a rule of the engine.  Otherwise every line it writes is the raw
    text of a rule of the engine with another name: the rule to delete is
    never written, and on success the rule file holds exactly the other
    rules. *)
Theorem delete_drops_the_rule (host : Api.Host) (m : Api.Manager) (name : string)
    (fs : Api.Files) :
  let new := Api.h_Join host [Api.RulesDir m; Api.rulesBasename] in
  let r := Api.admAPIRules_DELETE host m name fs in
  (name ∉ Api.GetRuleNames m → r = (fs, Api.ErrNoSuchRule))
  ∧ (∃ l, Api.ops r.1 = (Api.ops fs ++ l)%list
          ∧ ∀ p s, Api.OpWriteString p s ∈ l →
              ∃ ruleName, ruleName ∈ Api.GetRuleNames m ∧ ruleName ≠ name
                          ∧ s = Api.GetRawRuleByName m ruleName +:+ Api.newline)
  ∧ (r.2 = Api.MsgOk →
       Api.content r.1 !! new
       = Some (appended "" (Api.GetRawRuleByName m
                              <$> filter (λ ruleName, name ≠ ruleName) (Api.GetRuleNames m)))).
Proof.
  intros new r. subst r. unfold Api.admAPIRules_DELETE. split; [| split].
  - intros Hnot. by rewrite (GetRawRuleByName_unknown m name Hnot), bool_decide_eq_true_2.
  - assert (Hnil : ∃ l, Api.ops fs = (Api.ops fs ++ l)%list
              ∧ ∀ p s, Api.OpWriteString p s ∈ l →
                  ∃ ruleName, ruleName ∈ Api.GetRuleNames m ∧ ruleName ≠ name
                              ∧ s = Api.GetRawRuleByName m ruleName +:+ Api.newline).
    { exists []. split; [by rewrite app_nil_r |]. intros p s Hin.
      by apply elem_of_nil in Hin. }
    case_bool_decide; [exact Hnil |].
    set (keep := filter (λ ruleName, name ≠ ruleName) (Api.GetRuleNames m)).
    unfold Api.rewrite_rules. fold new.
    unfold Api.os_Create. destruct (Api.create_ok host _); [| exact Hnil].
    clear Hnil.
    set (fs1 := Api.mkFiles _ _).
    destruct (remove_rule_files_ops host (Api.RulesDir m)
                (concat (Api.Walk host (Api.content fs1) (Api.RulesDir m))) fs1)
      as [removed Hrm].
    destruct (Api.remove_rule_files host (Api.RulesDir m) _ fs1) as [fs2 b2].
    simpl in Hrm.
    assert (Hnw : ∀ p s, Api.OpWriteString p s
                         ∈ ([Api.OpCreate (new +:+ ".tmp")] ++ (Api.OpRemove <$> removed))%list
                         → False).
    { intros p s Hin. apply elem_of_app in Hin as [Hin | Hin].
      - apply list_elem_of_singleton in Hin. done.
      - apply list_elem_of_fmap in Hin as (? & ? & ?). done. }
    destruct b2; simpl;
      [| exists ([Api.OpCreate (new +:+ ".tmp")] ++ (Api.OpRemove <$> removed))%list;
         split; [rewrite Hrm; subst fs1; simpl; by rewrite <- app_assoc |];
         intros p s Hin; destruct (Hnw p s Hin)].
    destruct (write_rules_ops host (new +:+ ".tmp") (Api.GetRawRuleByName m <$> keep)
                0%nat fs2) as (n & _ & Hw & _).
    assert (Hlines : ∀ p s,
              Api.OpWriteString p s
              ∈ (Api.OpWriteString (new +:+ ".tmp")
                   <$> ((λ l, l +:+ Api.newline)
                          <$> take n (Api.GetRawRuleByName m <$> keep))) →
              ∃ ruleName, ruleName ∈ Api.GetRuleNames m ∧ ruleName ≠ name
                          ∧ s = Api.GetRawRuleByName m ruleName +:+ Api.newline).
    { intros p s Hin. apply list_elem_of_fmap in Hin as (s' & [= -> ->] & Hin).
      apply list_elem_of_fmap in Hin as (raw & -> & Hin).
      apply elem_of_take in Hin as (i & Hi & _).
      apply list_elem_of_lookup_2 in Hi.
      apply list_elem_of_fmap in Hi as (ruleName & -> & Hk).
      subst keep. apply list_elem_of_filter in Hk as [Hne Hk].
      exists ruleName. split; [done |]. split; [congruence | done]. }
    destruct (Api.write_rules host (new +:+ ".tmp") 0 _ fs2) as [fs3 b3]. simpl in Hw.
    assert (Hpre : ∀ p s,
              Api.OpWriteString p s
              ∈ ([Api.OpCreate (new +:+ ".tmp")] ++ (Api.OpRemove <$> removed)
                 ++ (Api.OpWriteString (new +:+ ".tmp")
                       <$> ((λ l, l +:+ Api.newline)
                              <$> take n (Api.GetRawRuleByName m <$> keep))))%list →
              ∃ ruleName, ruleName ∈ Api.GetRuleNames m ∧ ruleName ≠ name
                          ∧ s = Api.GetRawRuleByName m ruleName +:+ Api.newline).
    { intros p s Hin. rewrite app_assoc in Hin. apply elem_of_app in Hin as [Hin | Hin].
      - destruct (Hnw p s Hin).
      - by apply (Hlines p). }
    assert (Hops3 : Api.ops fs3
              = (Api.ops fs ++ [Api.OpCreate (new +:+ ".tmp")] ++ (Api.OpRemove <$> removed)
                 ++ (Api.OpWriteString (new +:+ ".tmp")
                       <$> ((λ l, l +:+ Api.newline)
                              <$> take n (Api.GetRawRuleByName m <$> keep))))%list).
    { rewrite Hw, Hrm. subst fs1. simpl. by rewrite <- !app_assoc. }
    destruct b3; simpl; [| eexists; split; [exact Hops3 | exact Hpre]].
    unfold Api.os_Rename. destruct (Api.content fs3 !! _) as [c |];
      [| eexists; split; [exact Hops3 | exact Hpre]].
    destruct (Api.rename_ok host _ _); simpl;
      [| eexists; split; [exact Hops3 | exact Hpre]].
    exists (([Api.OpCreate (new +:+ ".tmp")] ++ (Api.OpRemove <$> removed)
             ++ (Api.OpWriteString (new +:+ ".tmp")
                   <$> ((λ l, l +:+ Api.newline)
                          <$> take n (Api.GetRawRuleByName m <$> keep))))
            ++ [Api.OpRename (new +:+ ".tmp") new])%list.
    split; [rewrite Hops3; by rewrite <- !app_assoc |].
    intros p s Hin. apply elem_of_app in Hin as [Hin | Hin].
    + by apply (Hpre p s).
    + apply list_elem_of_singleton in Hin. done.
  - case_bool_decide; [done |]. intros Hok.
    set (keep := filter (λ ruleName, name ≠ ruleName) (Api.GetRuleNames m)) in *.
    pose proof (write_rules_content host (new +:+ ".tmp")
                  (Api.GetRawRuleByName m <$> keep)) as Hwc.
    pose proof (remove_rule_files_content host (Api.RulesDir m)) as Hrc.
    revert Hok. unfold Api.rewrite_rules. fold new.
    unfold Api.os_Create. destruct (Api.create_ok host _); [| done].
    set (fs1 := Api.mkFiles _ _).
    specialize (Hrc (concat (Api.Walk host (Api.content fs1) (Api.RulesDir m))) fs1
                  (new +:+ ".tmp")).
    destruct (Api.remove_rule_files host (Api.RulesDir m) _ fs1) as [fs2 [|]]; [| done].
    specialize (Hwc 0%nat fs2). destruct Hwc as [_ Hwc].
    destruct (Api.write_rules host (new +:+ ".tmp") 0 _ fs2) as [fs3 [|]]; [| done].
    simpl in Hrc, Hwc. specialize (Hwc eq_refl).
    unfold Api.os_Rename. destruct (Api.content fs3 !! _) as [c |] eqn:Hc; [| done].
    destruct (Api.rename_ok host _ _); [| done]. simpl. intros _.
    assert (H2 : Api.content fs2 !! (new +:+ ".tmp") = Some "").
    { destruct Hrc as [Heq | (Hn & _)].
      - rewrite Heq. subst fs1. simpl. apply lookup_insert_eq.
      - rewrite Hn in Hwc. done. }
    rewrite H2 in Hwc. simpl in Hwc. injection Hwc as <-. apply lookup_insert_eq.
Qed.

Lemma delete_drops_the_rule_witness :
  let host := Examples.host_failing_write 5 in
  let r := Api.admAPIRules_DELETE host Examples.manager0 "r1" Examples.files0 in
  let r' := Api.admAPIRules_DELETE host Examples.manager0 "r7" Examples.files0 in
  ("r7" ∉ Api.GetRuleNames Examples.manager0)
  ∧ r' = (Examples.files0, Api.ErrNoSuchRule)
  ∧ r.2 = Api.MsgOk
  ∧ Api.content r.1 !! "rules/compiled-updated.gen" = Some (appended "" ["{rule 2}"]).
Proof.
  intros host r r'.
  assert (Hn : "r7" ∉ Api.GetRuleNames Examples.manager0).
  { intros Hin. apply elem_of_cons in Hin as [Heq | Hin]; [done |].
    apply list_elem_of_singleton in Hin. done. }
  assert (Hok : r.2 = Api.MsgOk) by (vm_compute; reflexivity).
  split; [exact Hn |]. split; [| split; [exact Hok |]].
  - exact (proj1 (delete_drops_the_rule host Examples.manager0 "r7" Examples.files0) Hn).
  - exact (proj2 (proj2 (delete_drops_the_rule host Examples.manager0 "r1" Examples.files0))
             Hok).
Defined.

(** ** The [POST] handler of the rules *)

Lemma appended_app (old : string) (l1 l2 : list string) :
  appended (appended old l1) l2 = appended old (l1 ++ l2).
Proof. unfold appended. by rewrite foldl_app. Qed.

Lemma newRules_of_names (rules : list (string * string)) (name : string) :
  name ∈ rules.*1 → is_Some (ApiPost.newRules_of rules !! name).
Proof.
  unfold ApiPost.newRules_of.
  assert (Hgen : ∀ acc : gmap string string,
            is_Some (acc !! name) ∨ name ∈ rules.*1 →
            is_Some (foldl (λ acc jr, <[jr.1 := jr.2]> acc) acc rules !! name)).
  { induction rules as [| jr rules IH]; intros acc [Hacc | Hin]; simpl.
    - done.
    - by apply elem_of_nil in Hin.
    - apply IH. left. destruct (decide (jr.1 = name)) as [-> | Hne].
      + rewrite lookup_insert_eq. by eexists.
      + by rewrite lookup_insert_ne.
    - apply IH. simpl in Hin. apply elem_of_cons in Hin as [-> | Hin]; [| by right].
      left. rewrite lookup_insert_eq. by eexists. }
  intros Hin. apply Hgen. by right.
Qed.

(** X21. When the [POST] handler answers that the rules are updated, the
    body was read and decoded, the engine refused it because a rule exists,
    and [update] was true.  The rule file then holds, one per line, first
    the rules of the engine whose name is not in the body, in the order of
    the engine, then the rules of the body, once per name, in the order of
    the map; no rule of the engine that the body names is written, and the
    temporary file is gone. *)
Theorem post_update_rule_file (host : Api.Host) (eng : ApiPost.Engine) (m : Api.Manager)
    (rq : ApiPost.Request) (fs : Api.Files) :
  let r := ApiPost.admAPIRules_POST host eng m rq fs in
  let new := Api.h_Join host [Api.RulesDir m; Api.rulesBasename] in
  let tmp := new +:+ ".tmp" in
  r.2 = ApiPost.Rewritten Api.MsgOk →
  ∃ b rules,
    ApiPost.body rq = Some b
    ∧ (ApiPost.LoadReader eng (Api.geneEng m) b).2 = Some ApiPost.ErrRuleExist
    ∧ ParseBool (ApiPost.paramUpdate rq) = Some true
    ∧ ApiPost.Decode eng b = Some rules
    ∧ Api.content r.1.2 !! new
      = Some (appended ""
                ((Api.GetRawRuleByName r.1.1
                    <$> filter (λ name, ApiPost.newRules_of rules !! name = None)
                          (Api.GetRuleNames r.1.1))
                 ++ (ApiPost.range eng (ApiPost.newRules_of rules)).*2))
    ∧ Api.content r.1.2 !! tmp = None
    ∧ ∀ name, name ∈ filter (λ name, ApiPost.newRules_of rules !! name = None)
                        (Api.GetRuleNames r.1.1) →
              name ∉ rules.*1.
Proof.
  intros r new tmp. subst r. unfold ApiPost.admAPIRules_POST.
  destruct (ApiPost.body rq) as [b |]; [| done].
  destruct (ApiPost.LoadReader eng (Api.geneEng m) b) as [loaded [err |]] eqn:Hl;
    simpl; [| done].
  destruct err; [| done]. rewrite bool_decide_eq_true_2 by done.
  destruct (ParseBool (ApiPost.paramUpdate rq)) as [[|] |] eqn:Hu; simpl; [| done | done].
  fold new. fold tmp.
  unfold Api.os_Create. destruct (Api.create_ok host tmp); [| done].
  destruct (ApiPost.Decode eng b) as [rules |] eqn:Hd; [| done].
  set (m' := Api.mkManager (Api.RulesDir m) loaded).
  set (fs1 := Api.mkFiles _ _).
  set (kept := filter (λ name, ApiPost.newRules_of rules !! name = None)
                 (Api.GetRuleNames m')).
  pose proof (remove_rule_files_content host (Api.RulesDir m)
                (concat (Api.Walk host (Api.content fs1) (Api.RulesDir m))) fs1 tmp) as Hrm.
  destruct (Api.remove_rule_files host (Api.RulesDir m) _ fs1) as [fs2 [|]]; [| done].
  pose proof (write_rules_content host tmp (Api.GetRawRuleByName m' <$> kept) 0%nat fs2)
    as [_ Hw1].
  destruct (Api.write_rules host tmp 0 _ fs2) as [fs3 [|]]; [| done].
  pose proof (write_rules_content host tmp
                ((ApiPost.range eng (ApiPost.newRules_of rules)).*2) (length kept) fs3)
    as [_ Hw2].
  destruct (Api.write_rules host tmp (length kept) _ fs3) as [fs4 [|]]; [| done].
  simpl in Hrm, Hw1, Hw2. specialize (Hw1 eq_refl). specialize (Hw2 eq_refl).
  unfold Api.os_Rename. destruct (Api.content fs4 !! tmp) as [c |] eqn:Hc; [| done].
  destruct (Api.rename_ok host tmp new); [| done]. simpl. intros _.
  assert (H2 : Api.content fs2 !! tmp = Some "").
  { destruct Hrm as [Heq | (Hn & _)].
    - rewrite Heq. subst fs1. simpl. apply lookup_insert_eq.
    - rewrite Hn in Hw1. rewrite Hw1 in Hw2. done. }
  rewrite H2 in Hw1. rewrite Hw1 in Hw2. simpl in Hw2. injection Hw2 as ->.
  exists b, rules. rewrite Hl. repeat (split; [done |]).
  split; [| split].
  - rewrite lookup_insert_eq. by rewrite appended_app.
  - rewrite lookup_insert_ne by (intros Heq; by apply (append_tmp_ne new)).
    apply lookup_delete_eq.
  - intros name Hin Hbody. apply list_elem_of_filter in Hin as [Hnone _].
    destruct (newRules_of_names rules name Hbody) as [x Hx]. congruence.
Qed.

Lemma post_update_rule_file_witness :
  let host := Examples.host_failing_write 5 in
  let rq := ApiPost.mkRequest (Some "r2,r9") "true" in
  let r := ApiPost.admAPIRules_POST host PostExamples.engine0 Examples.manager0 rq
             Examples.files0 in
  r.2 = ApiPost.Rewritten Api.MsgOk
  ∧ ∃ rules,
      ApiPost.Decode PostExamples.engine0 "r2,r9" = Some rules
      ∧ Api.content r.1.2 !! "rules/compiled-updated.gen"
        = Some (appended ""
                  ((Api.GetRawRuleByName r.1.1
                      <$> filter (λ name, ApiPost.newRules_of rules !! name = None)
                            (Api.GetRuleNames r.1.1))
                   ++ (ApiPost.range PostExamples.engine0 (ApiPost.newRules_of rules)).*2)).
Proof.
  intros host rq r.
  assert (Hok : r.2 = ApiPost.Rewritten Api.MsgOk) by (vm_compute; reflexivity).
  split; [exact Hok |].
  destruct (post_update_rule_file host PostExamples.engine0 Examples.manager0 rq
              Examples.files0 Hok) as (b & rules & Hb & _ & _ & Hd & Hc & _).
  injection Hb as <-. exists rules. split; [exact Hd | exact Hc].
Defined.

(** X22. The file operations of the [POST] handler.  It touches no file
    unless the body was read, the engine refused it because a rule exists and
    [update] was true; its first operation is then the creation of the
    temporary file.  No rule file is removed before the whole body has been
    decoded: with a body that does not decode, the creation of the temporary
    file is the only operation there can be. *)
Theorem post_file_operations (host : Api.Host) (eng : ApiPost.Engine) (m : Api.Manager)
    (rq : ApiPost.Request) (fs : Api.Files) :
  let r := ApiPost.admAPIRules_POST host eng m rq fs in
  let tmp := Api.h_Join host [Api.RulesDir m; Api.rulesBasename] +:+ ".tmp" in
  ∃ l, Api.ops r.1.2 = (Api.ops fs ++ l)%list
       ∧ (l = [] ∨ head l = Some (Api.OpCreate tmp))
       ∧ (l ≠ [] →
            ∃ b, ApiPost.body rq = Some b
                 ∧ (ApiPost.LoadReader eng (Api.geneEng m) b).2 = Some ApiPost.ErrRuleExist
                 ∧ ParseBool (ApiPost.paramUpdate rq) = Some true)
       ∧ (∀ b, ApiPost.body rq = Some b → ApiPost.Decode eng b = None →
            l = [] ∨ (l = [Api.OpCreate tmp] ∧ r.2 = ApiPost.ErrParseBody))
       ∧ (l = [] → Api.content r.1.2 = Api.content fs).
Proof.
  intros r tmp. subst r. unfold ApiPost.admAPIRules_POST.
  assert (Hnil : ∀ resp : ApiPost.PostResponse,
            ∃ l, Api.ops fs = (Api.ops fs ++ l)%list
                 ∧ (l = [] ∨ head l = Some (Api.OpCreate tmp))
                 ∧ (l ≠ [] →
                      ∃ b, ApiPost.body rq = Some b
                           ∧ (ApiPost.LoadReader eng (Api.geneEng m) b).2
                             = Some ApiPost.ErrRuleExist
                           ∧ ParseBool (ApiPost.paramUpdate rq) = Some true)
                 ∧ (∀ b, ApiPost.body rq = Some b → ApiPost.Decode eng b = None →
                      l = [] ∨ (l = [Api.OpCreate tmp] ∧ resp = ApiPost.ErrParseBody))
                 ∧ (l = [] → Api.content fs = Api.content fs)).
  { intros resp. exists []. rewrite app_nil_r.
    split; [done |]. split; [by left |]. split; [done |]. split; [by left | done]. }
  destruct (ApiPost.body rq) as [b |] eqn:Hb; [| simpl; apply Hnil].
  destruct (ApiPost.LoadReader eng (Api.geneEng m) b) as [loaded [err |]] eqn:Hl;
    simpl; [| apply Hnil].
  destruct err; [| simpl; apply Hnil]. rewrite bool_decide_eq_true_2 by done.
  destruct (ParseBool (ApiPost.paramUpdate rq)) as [[|] |] eqn:Hu; simpl;
    [| apply Hnil | apply Hnil].
  fold tmp. unfold Api.os_Create. destruct (Api.create_ok host tmp); [| simpl; apply Hnil].
  clear Hnil.
  set (fs1 := Api.mkFiles _ _).
  destruct (ApiPost.Decode eng b) as [rules |] eqn:Hd.
  2: { exists [Api.OpCreate tmp]. simpl. split; [done |]. split; [by right |].
       split; [intros _; exists b; by rewrite Hl |]. split; [| done].
       intros b0 _ _. by right. }
  assert (Hgen : ∀ (fsn : Api.Files) (resp : ApiPost.PostResponse) (mid : list Api.FsOp),
            Api.ops fsn = (Api.ops fs1 ++ mid)%list →
            ∃ l, Api.ops fsn = (Api.ops fs ++ l)%list
                 ∧ (l = [] ∨ head l = Some (Api.OpCreate tmp))
                 ∧ (l ≠ [] → ∃ b0, Some b = Some b0
                       ∧ (ApiPost.LoadReader eng (Api.geneEng m) b0).2
                         = Some ApiPost.ErrRuleExist
                       ∧ Some true = Some true)
                 ∧ (∀ b0, Some b = Some b0 → ApiPost.Decode eng b0 = None →
                      l = [] ∨ (l = [Api.OpCreate tmp] ∧ resp = ApiPost.ErrParseBody))
                 ∧ (l = [] → Api.content fsn = Api.content fs)).
  { intros fsn resp mid Hops. exists (Api.OpCreate tmp :: mid).
    split; [rewrite Hops; subst fs1; simpl; by rewrite <- app_assoc |].
    split; [by right |]. split; [intros _; exists b; by rewrite Hl |]. split; [| done].
    intros b0 [= <-] Hnone. congruence. }
  clearbody fs1.
  destruct (remove_rule_files_ops host (Api.RulesDir m)
              (concat (Api.Walk host (Api.content fs1) (Api.RulesDir m))) fs1)
    as [removed Hrm].
  destruct (Api.remove_rule_files host (Api.RulesDir m) _ fs1) as [fs2 [|]];
    simpl in Hrm; [| simpl; by apply (Hgen fs2 _ (Api.OpRemove <$> removed))].
  set (kept := filter (λ name, ApiPost.newRules_of rules !! name = None) _).
  destruct (write_rules_ops host tmp
              (Api.GetRawRuleByName (Api.mkManager (Api.RulesDir m) loaded) <$> kept)
              0%nat fs2) as (n1 & _ & Hw1 & _).
  destruct (Api.write_rules host tmp 0 _ fs2) as [fs3 [|]]; simpl in Hw1;
    [| simpl; eapply Hgen; rewrite Hw1, Hrm; by rewrite <- app_assoc].
  destruct (write_rules_ops host tmp ((ApiPost.range eng (ApiPost.newRules_of rules)).*2)
              (length kept) fs3) as (n2 & _ & Hw2 & _).
  destruct (Api.write_rules host tmp (length kept) _ fs3) as [fs4 [|]]; simpl in Hw2;
    [| simpl; eapply Hgen; rewrite Hw2, Hw1, Hrm; by rewrite <- !app_assoc].
  unfold Api.os_Rename. destruct (Api.content fs4 !! tmp) as [c |];
    [| simpl; eapply Hgen; rewrite Hw2, Hw1, Hrm; by rewrite <- !app_assoc].
  destruct (Api.rename_ok host tmp _);
    [| simpl; eapply Hgen; rewrite Hw2, Hw1, Hrm; by rewrite <- !app_assoc].
  eapply Hgen. simpl. rewrite Hw2, Hw1, Hrm. by rewrite <- !app_assoc.
Qed.

Lemma post_file_operations_witness :
  let host := Examples.host_failing_write 5 in
  let rq := ApiPost.mkRequest (Some "r7") "true" in
  let r := ApiPost.admAPIRules_POST host PostExamples.engine0 Examples.manager0 rq
             Examples.files0 in
  r.2 = ApiPost.MsgRulesAdded
  ∧ Api.ops r.1.2 = []
  ∧ Api.content r.1.2 = Api.content Examples.files0.
Proof.
  intros host rq r.
  assert (Hr : r.2 = ApiPost.MsgRulesAdded) by (vm_compute; reflexivity).
  assert (Hl : (ApiPost.LoadReader PostExamples.engine0 (Api.geneEng Examples.manager0)
                  "r7").2 = None) by (vm_compute; reflexivity).
  destruct (post_file_operations host PostExamples.engine0 Examples.manager0 rq
              Examples.files0) as (l & Hops & _ & Hwhy & _ & Hc).
  assert (Hnil : l = []).
  { destruct l as [| o l]; [reflexivity |].
    destruct (Hwhy ltac:(discriminate)) as (b & Hb & Hload & _).
    injection Hb as <-. rewrite Hl in Hload. discriminate Hload. }
  split; [exact Hr |]. split.
  - rewrite Hnil in Hops. exact Hops.
  - exact (Hc Hnil).
Defined.

(** ** The listing of the dumps of an endpoint *)

Lemma TrimRight_idemp (s : string) :
  Artifacts.TrimRight (Artifacts.TrimRight s) = Artifacts.TrimRight s.
Proof.
  induction s as [| c s IH]; simpl; [done |].
  destruct (Artifacts.TrimRight s) as [| c' t] eqn:Ht.
  - destruct (Artifacts.in_cutset c) eqn:Hc; simpl; [done | by rewrite Hc].
  - simpl in *. by rewrite IH.
Qed.

Lemma TrimLeft_head (s : string) :
  match Artifacts.TrimLeft s with
  | EmptyString => True
  | String c _ => Artifacts.in_cutset c = false
  end.
Proof.
  induction s as [| c s IH]; simpl; [done |].
  destruct (Artifacts.in_cutset c) eqn:Hc; [exact IH | exact Hc].
Qed.

Lemma Trim_idemp (s : string) : Artifacts.Trim (Artifacts.Trim s) = Artifacts.Trim s.
Proof.
  unfold Artifacts.Trim. pose proof (TrimLeft_head s) as Hh.
  destruct (Artifacts.TrimLeft s) as [| c t]; [done |].
  assert (Hl : Artifacts.TrimLeft (Artifacts.TrimRight (String c t))
               = Artifacts.TrimRight (String c t)).
  { simpl. destruct (Artifacts.TrimRight t); rewrite ?Hh; simpl; by rewrite Hh. }
  rewrite Hl. apply TrimRight_idemp.
Qed.

Lemma add_file_inv (ed : Artifacts.EndpointDumps) (info : Artifacts.FileInfo) :
  dump_inv ed → dump_inv (Artifacts.add_file ed info).
Proof.
  intros (H0 & Hub & _). unfold dump_inv, Artifacts.add_file. simpl.
  split; [case_bool_decide; lia |]. split.
  - intros f Hin. apply elem_of_app in Hin as [Hin | Hin].
    + specialize (Hub f Hin). case_bool_decide; lia.
    + apply list_elem_of_singleton in Hin. subst f. simpl. case_bool_decide; lia.
  - intros Hnil. by apply app_eq_nil in Hnil as [_ ?].
Qed.

Lemma add_file_dated (ed : Artifacts.EndpointDumps) (info : Artifacts.FileInfo) :
  0 < Artifacts.info_ModTime info →
  dump_inv ed → dated_inv ed →
  dated_inv (Artifacts.add_file ed info).
Proof.
  intros Hpos (H0 & Hub & Hnil) (Hc0 & Hlb & Hne).
  set (f0 := Artifacts.mkDumpFile (Artifacts.info_Name info) (Artifacts.info_Size info)
               (Artifacts.info_ModTime info)).
  assert (Hf0 : f0 ∈ (Artifacts.Files ed ++ [f0])%list).
  { apply elem_of_app. right. by apply list_elem_of_singleton. }
  unfold dated_inv, Artifacts.add_file. simpl. fold f0.
  split; [intros Happ; by apply app_eq_nil in Happ as [_ ?] |].
  destruct (decide (Artifacts.Files ed = [])) as [Hfiles | Hfiles].
  - (* first file of the dump *)
    rewrite (Hc0 Hfiles), (Hnil Hfiles), Hfiles. simpl.
    rewrite (bool_decide_eq_true_2 (0 < Artifacts.info_ModTime info)) by done.
    split.
    + intros f Hin. apply list_elem_of_singleton in Hin. subst f. simpl. lia.
    + intros _. split; [done |].
      split; exists f0; (split; [by apply list_elem_of_singleton | done]).
  - destruct (Hne Hfiles) as (Hcpos & (fc & Hfc & Hfceq) & (fm & Hfm & Hfmeq)).
    rewrite (bool_decide_eq_false_2 (Artifacts.Created ed = 0)) by lia. simpl.
    split; [| intros _; split; [| split]].
    + intros f Hin. apply elem_of_app in Hin as [Hin | Hin].
      * specialize (Hlb f Hin). case_bool_decide; lia.
      * apply list_elem_of_singleton in Hin. subst f. simpl. case_bool_decide; lia.
    + case_bool_decide; lia.
    + case_bool_decide.
      * exists f0. by split.
      * exists fc. split; [| done]. apply elem_of_app. by left.
    + case_bool_decide.
      * exists f0. by split.
      * exists fm. split; [| done]. apply elem_of_app. by left.
Qed.

Lemma scan_files_inv (entries : list Artifacts.DirEntry) :
  ∀ ed ed', Artifacts.scan_files ed entries = Some ed' →
    dump_inv ed →
    dump_inv ed'
    ∧ Artifacts.ProcessGUID ed' = Artifacts.ProcessGUID ed
    ∧ Artifacts.EventHash ed' = Artifacts.EventHash ed
    ∧ Artifacts.BaseURL ed' = Artifacts.BaseURL ed
    ∧ ((∀ dfi info, dfi ∈ entries → Artifacts.Info dfi = Some info →
          0 < Artifacts.info_ModTime info) →
       dated_inv ed → dated_inv ed').
Proof.
  induction entries as [| dfi rest IH]; intros ed ed' Hscan Hinv; simpl in Hscan.
  - injection Hscan as <-.
    exact (conj Hinv (conj eq_refl (conj eq_refl (conj eq_refl (λ _ Hd, Hd))))).
  - destruct (Artifacts.Info dfi) as [info |] eqn:Hinfo; [| done].
    destruct (IH _ _ Hscan (add_file_inv ed info Hinv)) as (Hi & Hg & He & Hb & Hd).
    split; [done |]. split; [done |]. split; [done |]. split; [done |].
    intros Hall Hdated. apply Hd.
    + intros dfi' info' Hin. apply Hall. by apply list_elem_of_further.
    + apply add_file_dated; [| done | done].
      apply (Hall dfi info); [apply list_elem_of_here | done].
Qed.

Lemma scan_hash_inv (host : Artifacts.Host) (urlPath evtHashDir pname : string)
    (efi : Artifacts.DirEntry) (d : Artifacts.EndpointDumps) :
  Artifacts.scan_hash host urlPath evtHashDir pname efi = inl d →
  dump_inv d
  ∧ Artifacts.ProcessGUID d = Artifacts.Trim pname
  ∧ Artifacts.EventHash d = Artifacts.Name efi
  ∧ Artifacts.BaseURL d
    = urlPath +:+ "/" +:+ Artifacts.Trim pname +:+ "/" +:+ Artifacts.Name efi +:+ "/"
  ∧ (Artifacts.IsDir efi = false → Artifacts.Files d = [])
  ∧ (Artifacts.dated host → dated_inv d).
Proof.
  unfold Artifacts.scan_hash.
  set (ed := Artifacts.mkEndpointDumps 0 0 _ _ _ []).
  assert (Hinv : dump_inv ed) by (repeat split; [done | by intros f ?%elem_of_nil]).
  assert (Hdat : dated_inv ed).
  { split; [done |]. split; [by intros f ?%elem_of_nil | done]. }
  destruct (Artifacts.IsDir efi).
  2: { intros [= <-].
       exact (conj Hinv (conj eq_refl (conj eq_refl (conj eq_refl
                (conj (λ _, eq_refl) (λ _, Hdat)))))). }
  destruct (Artifacts.ReadDir host _) as [eventDumps |] eqn:Hrd; [| done].
  destruct (Artifacts.scan_files ed eventDumps) as [ed' |] eqn:Hscan; [| done].
  intros [= <-].
  destruct (scan_files_inv eventDumps ed ed' Hscan Hinv) as (Hi & Hg & He & Hb & Hd).
  split; [done |]. split; [done |]. split; [done |]. split; [done |].
  split; [done |]. intros Hdated. apply Hd; [| done].
  intros dfi info Hin Hinfo.
  exact (Hdated _ _ dfi info Hrd Hin Hinfo).
Qed.

Lemma scan_hashes_listed (host : Artifacts.Host) (urlPath evtHashDir pname : string)
    (since : Z) (eventHashes : list Artifacts.DirEntry) :
  ∀ dumps d,
    d ∈ (Artifacts.scan_hashes host urlPath evtHashDir pname since eventHashes dumps).1 →
    d ∈ dumps
    ∨ (since < Artifacts.Modification d
       ∧ ∃ efi, efi ∈ eventHashes
                ∧ Artifacts.scan_hash host urlPath evtHashDir pname efi = inl d).
Proof.
  induction eventHashes as [| efi rest IH]; intros dumps d; simpl; [by left |].
  destruct (Artifacts.scan_hash host urlPath evtHashDir pname efi) as [ed | err] eqn:Hh;
    [| by left].
  intros Hin. destruct (IH _ _ Hin) as [Hacc | (Hs & efi' & Hin' & Heq)].
  - case_bool_decide as Hsince; [| by left].
    apply elem_of_app in Hacc as [Hacc | Hacc]; [by left |].
    apply list_elem_of_singleton in Hacc. subst d.
    right. split; [done |]. exists efi. split; [apply list_elem_of_here | done].
  - right. split; [done |]. exists efi'. split; [by apply list_elem_of_further | done].
Qed.

Lemma scan_procs_listed (host : Artifacts.Host) (urlPath path : string) (since : Z)
    (procGUIDs : list Artifacts.DirEntry) :
  ∀ dumps d,
    d ∈ (Artifacts.scan_procs host urlPath path since procGUIDs dumps).1 →
    d ∈ dumps
    ∨ (since < Artifacts.Modification d
       ∧ ∃ pfi eventHashes efi,
           pfi ∈ procGUIDs ∧ Artifacts.IsDir pfi = true
           ∧ Artifacts.ReadDir host (Artifacts.Join host [path; Artifacts.Name pfi])
             = Some eventHashes
           ∧ efi ∈ eventHashes
           ∧ Artifacts.scan_hash host urlPath
               (Artifacts.Join host [path; Artifacts.Name pfi]) (Artifacts.Name pfi) efi
             = inl d).
Proof.
  induction procGUIDs as [| pfi rest IH]; intros dumps d; simpl; [by left |].
  assert (Hrest : ∀ dumps0,
            d ∈ (Artifacts.scan_procs host urlPath path since rest dumps0).1 →
            d ∈ dumps0
            ∨ (since < Artifacts.Modification d
               ∧ ∃ pfi' eventHashes efi,
                   pfi' ∈ pfi :: rest ∧ Artifacts.IsDir pfi' = true
                   ∧ Artifacts.ReadDir host
                       (Artifacts.Join host [path; Artifacts.Name pfi'])
                     = Some eventHashes
                   ∧ efi ∈ eventHashes
                   ∧ Artifacts.scan_hash host urlPath
                       (Artifacts.Join host [path; Artifacts.Name pfi'])
                       (Artifacts.Name pfi') efi
                     = inl d)).
  { intros dumps0 Hin.
    destruct (IH _ _ Hin) as [? | (Hs & pfi' & hs & efi & Hp & Hrest)]; [by left |].
    right. split; [done |]. exists pfi', hs, efi.
    split; [by apply list_elem_of_further | done]. }
  destruct (Artifacts.IsDir pfi) eqn:Hdir; [| apply Hrest].
  destruct (Artifacts.ReadDir host _) as [eventHashes |] eqn:Hrd; [| by left].
  pose proof (scan_hashes_listed host urlPath
                (Artifacts.Join host [path; Artifacts.Name pfi]) (Artifacts.Name pfi)
                since eventHashes dumps d) as Hh.
  destruct (Artifacts.scan_hashes host urlPath _ (Artifacts.Name pfi) since eventHashes
              dumps) as [dumps' [err |]]; simpl in Hh.
  - simpl. intros Hin. destruct (Hh Hin) as [? | (Hs & efi & Hin' & Heq)]; [by left |].
    right. split; [done |]. exists pfi, eventHashes, efi.
    split; [apply list_elem_of_here | done].
  - intros Hin. destruct (Hrest _ Hin) as [Hacc | ?]; [| by right].
    destruct (Hh Hacc) as [? | (Hs & efi & Hin' & Heq)]; [by left |].
    right. split; [done |]. exists pfi, eventHashes, efi.
    split; [apply list_elem_of_here | done].
Qed.

Lemma listEndpointDumps_listed (host : Artifacts.Host) (root uuid : string) (since : Z)
    (d : Artifacts.EndpointDumps) :
  d ∈ (Artifacts.listEndpointDumps host root uuid since).1 →
  since < Artifacts.Modification d ∧ Artifacts.dump_of host root uuid d.
Proof.
  unfold Artifacts.listEndpointDumps, Artifacts.dump_of.
  destruct (Artifacts.ReadDir host (Artifacts.Join host [root; uuid]))
    as [procGUIDs |] eqn:Hrd; [| by intros ?%elem_of_nil].
  intros Hin.
  destruct (scan_procs_listed host _ _ since procGUIDs [] d Hin)
    as [Hnil | (Hs & pfi & hs & efi & Hp & Hdir & Hrd' & He & Heq)];
    [by apply elem_of_nil in Hnil |].
  split; [done |]. exists procGUIDs, pfi, hs, efi.
  destruct (scan_hash_inv host _ _ _ efi d Heq) as (_ & Hg & Hh & _).
  by repeat split.
Qed.

(** X23. Every dump that [listEndpointDumps] returns, with or without an
    error, was modified after [since] and stands for an entry of an
    event-hash directory of a process directory of the endpoint.  Its
    process GUID has no curly bracket left at either end, its URL is that of
    the endpoint followed by the GUID and the hash, and for a [since] that is
    not before the zero time it holds at least one file, found in a
    directory. *)
Theorem listed_dumps_recent (host : Artifacts.Host) (root uuid : string) (since : Z)
    (d : Artifacts.EndpointDumps) :
  d ∈ (Artifacts.listEndpointDumps host root uuid since).1 →
  since < Artifacts.Modification d
  ∧ Artifacts.dump_of host root uuid d
  ∧ Artifacts.Trim (Artifacts.ProcessGUID d) = Artifacts.ProcessGUID d
  ∧ Artifacts.BaseURL d
    = (Artifacts.AdmAPIEndpointsPath host +:+ "/" +:+ uuid
       +:+ Artifacts.admAPIArtifactsPart host)
      +:+ "/" +:+ Artifacts.ProcessGUID d +:+ "/" +:+ Artifacts.EventHash d +:+ "/"
  ∧ (0 ≤ since → Artifacts.Files d ≠ []).
Proof.
  intros Hin. destruct (listEndpointDumps_listed host root uuid since d Hin) as [Hs Hof].
  split; [done |]. split; [done |].
  destruct Hof as (procs & pfi & hs & efi & _ & _ & _ & _ & _ & Hg & Hh & Heq).
  destruct (scan_hash_inv host _ _ _ efi d Heq) as ((_ & _ & Hnil) & _ & _ & Hb & _ & _).
  split; [rewrite Hg; apply Trim_idemp |]. split; [by rewrite Hb, Hg, Hh |].
  intros Hsince Hfiles. specialize (Hnil Hfiles). lia.
Qed.

Lemma listed_dumps_recent_witness :
  let r := Artifacts.listEndpointDumps ArtifactExamples.host0 "dumps" "E1" 0 in
  ∃ d, r.1 = [d]
       ∧ 0 < Artifacts.Modification d
       ∧ Artifacts.ProcessGUID d = "G1"
       ∧ Artifacts.BaseURL d = "/endpoints/E1/artifacts/G1/e1/"
       ∧ Artifacts.Files d ≠ [].
Proof.
  intros r.
  assert (Hr : ∃ d, r.1 = [d] ∧ Artifacts.ProcessGUID d = "G1"
                    ∧ Artifacts.BaseURL d = "/endpoints/E1/artifacts/G1/e1/").
  { eexists. split; [vm_compute; reflexivity |]. split; reflexivity. }
  destruct Hr as (d & Hd & Hg & Hb). exists d.
  assert (Hin : d ∈ r.1) by (rewrite Hd; apply list_elem_of_here).
  destruct (listed_dumps_recent ArtifactExamples.host0 "dumps" "E1" 0 d Hin)
    as (Hs & _ & _ & _ & Hf).
  split; [exact Hd |]. split; [exact Hs |]. split; [exact Hg |]. split; [exact Hb |].
  apply Hf. lia.
Defined.

(** X24. In every dump that [listEndpointDumps] returns, no file is more
    recent than the modification date.  On a host whose files are all dated
    after the zero time, the creation date is the date of the oldest file of
    the dump and the modification date that of its most recent file. *)
Theorem dump_dates_bound_files (host : Artifacts.Host) (root uuid : string) (since : Z)
    (d : Artifacts.EndpointDumps) :
  d ∈ (Artifacts.listEndpointDumps host root uuid since).1 →
  (∀ f, f ∈ Artifacts.Files d → Artifacts.df_Timestamp f ≤ Artifacts.Modification d)
  ∧ (Artifacts.dated host →
       (∀ f, f ∈ Artifacts.Files d → Artifacts.Created d ≤ Artifacts.df_Timestamp f)
       ∧ (Artifacts.Files d ≠ [] →
            (∃ f, f ∈ Artifacts.Files d
                  ∧ Artifacts.df_Timestamp f = Artifacts.Created d)
            ∧ ∃ f, f ∈ Artifacts.Files d
                   ∧ Artifacts.df_Timestamp f = Artifacts.Modification d)).
Proof.
  intros Hin. destruct (listEndpointDumps_listed host root uuid since d Hin) as [_ Hof].
  destruct Hof as (procs & pfi & hs & efi & _ & _ & _ & _ & _ & _ & _ & Heq).
  destruct (scan_hash_inv host _ _ _ efi d Heq) as ((_ & Hub & _) & _ & _ & _ & _ & Hd).
  split; [exact Hub |]. intros Hdated. destruct (Hd Hdated) as (_ & Hlb & Hne).
  split; [exact Hlb |]. intros Hfiles. by destruct (Hne Hfiles) as (_ & ? & ?).
Qed.

Lemma host0_dated : Artifacts.dated ArtifactExamples.host0.
Proof.
  intros path entries dfi info. unfold ArtifactExamples.host0. simpl.
  repeat case_bool_decide; intros [= <-] Hin Hinfo;
    repeat (apply elem_of_cons in Hin as [-> | Hin]; [by (simpl in Hinfo; simplify_eq) |]);
    by apply elem_of_nil in Hin.
Qed.

Lemma dump_dates_bound_files_witness :
  let r := Artifacts.listEndpointDumps ArtifactExamples.host0 "dumps" "E1" 0 in
  ∃ d, r.1 = [d]
       ∧ Artifacts.Created d = 4000 ∧ Artifacts.Modification d = 5000
       ∧ ∀ f, f ∈ Artifacts.Files d →
              Artifacts.Created d ≤ Artifacts.df_Timestamp f ≤ Artifacts.Modification d.
Proof.
  intros r.
  assert (Hr : ∃ d, r.1 = [d] ∧ Artifacts.Created d = 4000
                    ∧ Artifacts.Modification d = 5000).
  { eexists. split; [vm_compute; reflexivity |]. split; reflexivity. }
  destruct Hr as (d & Hd & Hc & Hm). exists d.
  assert (Hin : d ∈ r.1) by (rewrite Hd; apply list_elem_of_here).
  destruct (dump_dates_bound_files ArtifactExamples.host0 "dumps" "E1" 0 d Hin)
    as (Hub & Hdat).
  destruct (Hdat host0_dated) as (Hlb & _).
  split; [exact Hd |]. split; [exact Hc |]. split; [exact Hm |].
  intros f Hf. split; [exact (Hlb f Hf) | exact (Hub f Hf)].
Defined.

(** ** The parameters of a log search *)

Lemma admAPIEndpointLogs_inr (clk : Logs.Clock) (q : Logs.Query) (s : Logs.Search) :
  Logs.admAPIEndpointLogs clk q = inr s →
  ∃ start stop last pivot delta skip,
    Logs.parse_time clk (Logs.pStart q) = Some start
    ∧ Logs.parse_time clk (Logs.pStop q) = Some stop
    ∧ Logs.parse_last clk (Logs.pLast q) = Some last
    ∧ Logs.parse_time clk (Logs.pPivot q) = Some pivot
    ∧ Logs.parse_delta clk (Logs.pDelta q) = Some delta
    ∧ Logs.parse_skip (Logs.pSkip q) = Some skip
    ∧ Logs.window clk q start stop last pivot delta = (Logs.s_start s, Logs.s_stop s)
    ∧ Logs.s_start s ≤ Logs.s_stop s
    ∧ Logs.s_limit s = Logs.parse_limit (Logs.pLimit q)
    ∧ Logs.s_skip s = skip
    ∧ Logs.euuid q = Some (Logs.s_euuid s).
Proof.
  unfold Logs.admAPIEndpointLogs.
  destruct (Logs.parse_time clk (Logs.pStart q)) as [start |]; [| done].
  destruct (Logs.parse_time clk (Logs.pStop q)) as [stop |]; [| done].
  destruct (Logs.parse_last clk (Logs.pLast q)) as [last |]; [| done].
  destruct (Logs.parse_time clk (Logs.pPivot q)) as [pivot |]; [| done].
  destruct (Logs.parse_delta clk (Logs.pDelta q)) as [delta |]; [| done].
  destruct (Logs.parse_skip (Logs.pSkip q)) as [skip |]; [| done].
  destruct (Logs.window clk q start stop last pivot delta) as [start' stop'] eqn:Hw.
  case_bool_decide as Hafter; [done |].
  destruct (Logs.euuid q) as [euuid |]; [| done].
  intros [= <-]. simpl. exists start, stop, last, pivot, delta, skip.
  split; [done |]. split; [done |]. split; [done |]. split; [done |].
  split; [done |]. split; [done |]. split; [done |]. split; [lia |].
  split; [done |]. split; done.
Qed.

(** X25. Every search that [admAPIEndpointLogs] starts asks for at most
    [MaxLimitLogAPI] events, over a window whose start is not after its stop,
    for the endpoint of the route.  The limit is 1000 when the parameter is
    absent or is not a number, and the smaller of the parameter and
    [MaxLimitLogAPI] otherwise. *)
Theorem logs_search_bounds (clk : Logs.Clock) (q : Logs.Query) (s : Logs.Search) :
  Logs.admAPIEndpointLogs clk q = inr s →
  Logs.s_limit s ≤ Logs.MaxLimitLogAPI
  ∧ Logs.s_start s ≤ Logs.s_stop s
  ∧ (ParseInt (Logs.pLimit q) = None → Logs.s_limit s = 1000)
  ∧ (∀ l, ParseInt (Logs.pLimit q) = Some l →
       Logs.s_limit s = Z.min l Logs.MaxLimitLogAPI)
  ∧ Logs.euuid q = Some (Logs.s_euuid s).
Proof.
  intros Hs.
  destruct (admAPIEndpointLogs_inr clk q s Hs)
    as (start & stop & last & pivot & delta & skip & _ & _ & _ & _ & _ & _ & _
        & Hle & Hlim & _ & He).
  assert (Hempty : ParseInt "" = None) by reflexivity.
  rewrite Hlim. unfold Logs.parse_limit.
  split; [| split; [done | split; [| split; [| done]]]].
  - case_bool_decide; [| by vm_compute].
    destruct (ParseInt (Logs.pLimit q)); [| by vm_compute].
    case_bool_decide; [done | reflexivity].
  - intros Hnone. rewrite Hnone. by case_bool_decide.
  - intros l Hl. rewrite Hl. case_bool_decide as Hne.
    + case_bool_decide; unfold Logs.MaxLimitLogAPI in *; lia.
    + rewrite Hne in Hl. by rewrite Hempty in Hl.
Qed.

Lemma logs_search_bounds_witness :
  ∃ s, Logs.admAPIEndpointLogs LogsExamples.clock0 LogsExamples.query0 = inr s
       ∧ Logs.s_limit s = 10000
       ∧ Logs.s_start s ≤ Logs.s_stop s.
Proof.
  assert (Hs : ∃ s, Logs.admAPIEndpointLogs LogsExamples.clock0 LogsExamples.query0
                    = inr s) by (eexists; vm_compute; reflexivity).
  destruct Hs as [s Hs]. exists s.
  assert (Hl : ParseInt (Logs.pLimit LogsExamples.query0) = Some 50000)
    by (vm_compute; reflexivity).
  destruct (logs_search_bounds LogsExamples.clock0 LogsExamples.query0 s Hs)
    as (_ & Hle & _ & Hlim & _).
  split; [exact Hs |]. split; [exact (Hlim 50000 Hl) | exact Hle].
Defined.

(** X26. Which parameters decide the window of a search.  A [last] that is
    not zero wins over every other parameter: the window ends now and
    starts [last] earlier.  Without any of the five time parameters the
    window is the last hour.  Without [last], a pivot after the zero time
    and no delta give ten minutes on each side of the pivot; and a start
    alone, not the zero time, gives a window from the start until now. *)
Theorem logs_window_precedence (clk : Logs.Clock) (q : Logs.Query) (s : Logs.Search) :
  Logs.admAPIEndpointLogs clk q = inr s →
  (∀ d, Logs.pLast q ≠ "" → Logs.parse_last clk (Logs.pLast q) = Some d → d ≠ 0 →
     Logs.s_start s = Logs.now clk + Logs.wrap64 (- d) ∧ Logs.s_stop s = Logs.now clk)
  ∧ (Logs.pStart q = "" → Logs.pStop q = "" → Logs.pPivot q = "" →
     Logs.pDelta q = "" → Logs.pLast q = "" →
     Logs.s_start s = Logs.now clk - Logs.Hour ∧ Logs.s_stop s = Logs.now clk)
  ∧ (∀ pv, Logs.pLast q = "" → Logs.pDelta q = "" → Logs.pPivot q ≠ "" →
       Logs.ParseTime clk (Logs.pPivot q) = Some pv → 0 < pv →
       Logs.s_start s = pv - 10 * Logs.Minute ∧ Logs.s_stop s = pv + 10 * Logs.Minute)
  ∧ (∀ st, Logs.pLast q = "" → Logs.pPivot q = "" → Logs.pStop q = "" →
       Logs.pStart q ≠ "" → Logs.ParseTime clk (Logs.pStart q) = Some st → st ≠ 0 →
       Logs.s_start s = st ∧ Logs.s_stop s = Logs.now clk).
Proof.
  intros Hs.
  destruct (admAPIEndpointLogs_inr clk q s Hs)
    as (start & stop & last & pivot & delta & skip & Hstart & Hstop & Hlast & Hpivot
        & Hdelta & _ & Hw & _).
  unfold Logs.window in Hw.
  assert (Hten : Logs.wrap64 (Logs.Minute * 10) = 600000000000) by reflexivity.
  assert (Hmten : Logs.wrap64 (Z.opp 600000000000) = - 600000000000) by reflexivity.
  assert (Hmhour : Logs.wrap64 (- Logs.Hour) = - Logs.Hour) by reflexivity.
  split; [| split; [| split]].
  - intros d Hne Hd Hd0. rewrite Hlast in Hd. injection Hd as ->.
    rewrite (bool_decide_eq_false_2 (Logs.pLast q = "")) in Hw by done.
    rewrite !andb_false_r in Hw. rewrite bool_decide_eq_true_2 in Hw by done.
    by injection Hw as <- <-.
  - intros H1 H2 H3 H4 H5.
    rewrite (bool_decide_eq_true_2 (Logs.pStart q = "")) in Hw by done.
    rewrite (bool_decide_eq_true_2 (Logs.pStop q = "")) in Hw by done.
    rewrite (bool_decide_eq_true_2 (Logs.pPivot q = "")) in Hw by done.
    rewrite (bool_decide_eq_true_2 (Logs.pDelta q = "")) in Hw by done.
    rewrite (bool_decide_eq_true_2 (Logs.pLast q = "")) in Hw by done.
    cbn [andb] in Hw.
    rewrite (bool_decide_eq_true_2 (Logs.Hour ≠ 0)) in Hw by done.
    rewrite Hmhour in Hw. injection Hw as <- <-. split; [lia | done].
  - intros pv Hl Hd Hp Hpv Hpos.
    unfold Logs.parse_last in Hlast. rewrite bool_decide_eq_true_2 in Hlast by done.
    injection Hlast as <-.
    unfold Logs.parse_time in Hpivot. rewrite bool_decide_eq_false_2 in Hpivot by done.
    rewrite Hpv in Hpivot. injection Hpivot as <-.
    rewrite (bool_decide_eq_false_2 (Logs.pPivot q = "")) in Hw by done.
    rewrite !andb_false_r in Hw. simpl in Hw.
    rewrite (bool_decide_eq_true_2 (Logs.pPivot q ≠ "")) in Hw by done.
    rewrite (bool_decide_eq_true_2 (Logs.pDelta q = "")) in Hw by done.
    cbn [andb] in Hw. rewrite !Hten in Hw.
    rewrite (bool_decide_eq_true_2 (pv ≠ 0)) in Hw by lia.
    rewrite (bool_decide_eq_true_2 (600000000000 ≠ 0)) in Hw by done.
    cbn [andb] in Hw. rewrite Hmten in Hw.
    rewrite (bool_decide_eq_false_2 (pv + 600000000000 = 0)) in Hw by lia.
    rewrite andb_false_r in Hw. injection Hw as <- <-.
    unfold Logs.Minute. split; lia.
  - intros st Hl Hp Hsp Hst Hparse Hst0.
    unfold Logs.parse_last in Hlast. rewrite bool_decide_eq_true_2 in Hlast by done.
    injection Hlast as <-.
    unfold Logs.parse_time in Hpivot, Hstop, Hstart.
    rewrite bool_decide_eq_true_2 in Hpivot by done. injection Hpivot as <-.
    rewrite bool_decide_eq_true_2 in Hstop by done. injection Hstop as <-.
    rewrite bool_decide_eq_false_2 in Hstart by done.
    rewrite Hparse in Hstart. injection Hstart as <-.
    rewrite (bool_decide_eq_false_2 (Logs.pStart q = "")) in Hw by done.
    simpl in Hw.
    rewrite (bool_decide_eq_true_2 (st ≠ 0)) in Hw by done.
    cbn [andb] in Hw. by injection Hw as <- <-.
Qed.

Lemma logs_window_precedence_witness :
  ∃ s, Logs.admAPIEndpointLogs LogsExamples.clock0 LogsExamples.query0 = inr s
       ∧ Logs.s_start s = 1000000000000000000 - 2 * 24 * Logs.Hour
       ∧ Logs.s_stop s = 1000000000000000000.
Proof.
  assert (Hs : ∃ s, Logs.admAPIEndpointLogs LogsExamples.clock0 LogsExamples.query0
                    = inr s) by (eexists; vm_compute; reflexivity).
  destruct Hs as [s Hs]. exists s.
  assert (Hne : Logs.pLast LogsExamples.query0 ≠ "") by done.
  assert (Hl : Logs.parse_last LogsExamples.clock0 (Logs.pLast LogsExamples.query0)
               = Some (2 * 24 * Logs.Hour)) by (vm_compute; reflexivity).
  assert (H0 : 2 * 24 * Logs.Hour ≠ 0) by done.
  destruct (logs_window_precedence LogsExamples.clock0 LogsExamples.query0 s Hs)
    as (Hlast & _).
  destruct (Hlast _ Hne Hl H0) as [Hstart Hstop].
  split; [exact Hs |]. split; [| exact Hstop].
  rewrite Hstart. vm_compute. reflexivity.
Defined.
